(** * Managed-network lifecycle controller (cmd/incusd/networks.go)

    A shallow embedding of the request handlers and of the startup engine of
    [networks.go].  The replicated catalog, the network drivers, the cluster
    notifier, the authorizer and the event bus are collaborators that live
    outside of this file of the daemon: the catalog is a finite map with the
    operations of its gateway, every other collaborator is an oracle of the
    environment, and each call that has an effect is recorded, with its
    outcome, in the trace of the world. *)

From Stdlib Require Import ZArith Ascii String List.
From stdpp Require Import base option gmap strings list fin_maps.

Local Open Scope string_scope.
Local Open Scope Z_scope.

(** ** Data model *)

(** [api.NetworkStatus*]. *)
Inductive NetworkStatus :=
| NetworkStatusPending
| NetworkStatusCreated
| NetworkStatusErrored
| NetworkStatusUnknown.

#[global] Instance NetworkStatus_eq_dec : EqDecision NetworkStatus.
Proof. solve_decision. Defined.

(** [clusterRequest.ClientType*], derived from the User-Agent of a request. *)
Inductive ClientType :=
| ClientTypeNormal
| ClientTypeNotifier
| ClientTypeJoiner.

#[global] Instance ClientType_eq_dec : EqDecision ClientType.
Proof. solve_decision. Defined.

(** Go errors.  [ErrWrap] is [fmt.Errorf("...: %w", err)]: it keeps the
    wrapped error reachable for [api.StatusErrorCheck] and [errors.Is].
    Messages that quote a key picked by a [range] over a map leave the key
    out, since Go does not fix the iteration order. *)
Inductive error :=
| ErrNew (msg : string)
| ErrStatus (code : Z) (msg : string)
| ErrAlreadyDefined
| ErrWrap (msg : string) (inner : error).

(** Modelled from the spec: [api.StatusErrorCheck] (package api, not part of
    this file) tells whether an error, or an error that it wraps, carries the
    given status code. *)
Fixpoint StatusErrorCheck (e : error) (code : Z) : bool :=
  match e with
  | ErrStatus c _ => Z.eqb c code
  | ErrWrap _ inner => StatusErrorCheck inner code
  | _ => false
  end.

Fixpoint IsAlreadyDefined (e : error) : bool :=
  match e with
  | ErrAlreadyDefined => true
  | ErrWrap _ inner => IsAlreadyDefined inner
  | _ => false
  end.

Definition StatusNotFound : Z := 404.
Definition StatusForbidden : Z := 403.

Definition IsNotFoundError (e : error) : bool := StatusErrorCheck e StatusNotFound.

(** What a step leaves with: a value to go on with, or an early [return]
    (of an [error] inside the helpers, of a [Response] inside a handler). *)
Inductive outcome (E A : Type) :=
| Ok (a : A)
| Ret (e : E).
Arguments Ok {E A} a.
Arguments Ret {E A} e.

Abbreviation result := (outcome error).

Definition is_ok {E A} (r : outcome E A) : bool :=
  match r with Ok _ => true | Ret _ => false end.

(** A [map[string]string]; indexing a missing key yields the empty string. *)
Abbreviation Config := (gmap string string).

Definition cfg_get (c : Config) (k : string) : string := default "" (c !! k).

(** [api.NetworkPut] and [api.NetworksPost] (request bodies). *)
Record NetworkPut := {
  putDescription : string;
  putConfig : Config
}.

Record NetworksPost := {
  postName : string;
  postType : string;
  postDescription : string;
  postConfig : Config
}.

(** The view of a network that [network.LoadByName] hands to a handler on
    member [netMember]: a snapshot of the catalog record at load time,
    together with the identity of the member whose driver it drives.  The
    same record stands for the [*api.Network] of [GetNetworkInAnyState]. *)
Record Network := {
  netMember : string;
  netID : Z;
  netProject : string;
  netName : string;
  netType : string;
  netDescription : string;
  netConfig : Config;
  netStatus : NetworkStatus;
  netLocalStatus : NetworkStatus;
  netLocations : list string;
  netManaged : bool
}.

(** [api.Network] as [doNetworkGet] fills it; [apiStatus] is [None] for an
    interface that has no managed record. *)
Record ApiNetwork := {
  apiName : string;
  apiProject : string;
  apiManaged : bool;
  apiType : string;
  apiDescription : string;
  apiConfig : Config;
  apiUsedBy : list string;
  apiStatus : option NetworkStatus;
  apiLocations : list string
}.

(** The value the entity tag is computed over. *)
Record Etag := {
  etagName : string;
  etagManaged : bool;
  etagType : string;
  etagDescription : string;
  etagConfig : Config
}.

Record Project := {
  projName : string;
  projConfig : Config
}.

(** [network.Type.Info()]. *)
Record TypeInfo := {
  tiProjects : bool;
  tiNodeSpecificConfig : bool
}.

(** [net.Interface], as far as the handlers look at it. *)
Record Interface := {
  ifName : string;
  ifLoopback : bool
}.

Inductive Method := MethodGet | MethodPut | MethodPatch | MethodPost | MethodDelete.

#[global] Instance Method_eq_dec : EqDecision Method.
Proof. solve_decision. Defined.

Inductive Body :=
| BodyMalformed
| BodyNetworksPost (req : NetworksPost)
| BodyNetworkPut (req : NetworkPut)
| BodyNetworkPost (newName : string).

(** An HTTP request, parsed: the query parameters, the client type of the
    User-Agent, the path variable after [url.PathUnescape], the filter after
    [filter.Parse], and the JSON body. *)
Record Request := {
  reqMethod : Method;
  reqProjectParam : string;
  reqTarget : string;
  reqAllProjects : bool;
  reqRecursion : bool;
  reqFilter : result (list string);
  reqClientType : ClientType;
  reqNetworkName : result string;
  reqBody : Body
}.

Inductive Response :=
| EmptySyncResponse
| SyncResponseLocation (location : string)
| SyncResponseLinks (links : list string)
| SyncResponseNetworks (networks : list ApiNetwork)
| BadRequest (e : error)
| SmartError (e : error)
| InternalError (e : error)
| PreconditionFailed (e : error)
| Conflict (e : error).

Definition isErrorResponse (r : Response) : bool :=
  match r with
  | EmptySyncResponse | SyncResponseLocation _ | SyncResponseLinks _ | SyncResponseNetworks _ => false
  | _ => true
  end.

(** ** The catalog *)

Record NodeRow := {
  nodeStatus : NetworkStatus;
  nodeConfig : Config
}.

Record NetRow := {
  rowID : Z;
  rowType : string;
  rowDescription : string;
  rowStatus : NetworkStatus;
  rowConfig : Config;
  rowNodes : gmap string NodeRow
}.

Abbreviation Catalog := (gmap (string * string) NetRow).

(** ** Effects *)

Inductive DriverCall :=
| DrvValidate (cfg : Config)
| DrvCreate (clientType : ClientType)
| DrvStart
| DrvStop
| DrvDelete (clientType : ClientType)
| DrvUpdate (req : NetworkPut) (target : string) (clientType : ClientType)
| DrvRename (newName : string).

Inductive DbWrite :=
| DbCreatePendingNetwork (member project name description type : string) (cfg : Config)
| DbCreateNetwork (member project name description type : string) (cfg : Config)
| DbCreateNetworkConfig (id nodeID : Z) (cfg : Config)
| DbNetworkErrored (project name : string)
| DbNetworkCreated (project name : string)
| DbNetworkNodeCreated (member : string) (id : Z)
| DbDeleteNetwork (project name : string)
| DbUpsertWarning (member project : string) (id : Z) (e : error)
| DbResolveWarning (member project : string) (id : Z).

Inductive Lifecycle :=
| LifecycleNetworkCreated
| LifecycleNetworkUpdated
| LifecycleNetworkRenamed (oldName : string)
| LifecycleNetworkDeleted.

Inductive AuthorizerCall :=
| AuthAddNetwork (project name : string)
| AuthDeleteNetwork (project name : string)
| AuthRenameNetwork (project oldName newName : string).

Inductive PeerCall :=
| PeerCreateNetwork (project : string) (req : NetworksPost)
| PeerDeleteNetwork (project name : string).

(** One entry of the trace: a call that left the handler, with its outcome
    where it has one. *)
Inductive Event :=
| EvTxBegin
| EvTxCommit
| EvTxRollback
| EvDb (w : DbWrite)
| EvFillConfig (type : string) (ok : bool)
| EvDriver (member project name : string) (call : DriverCall) (ok : bool)
| EvPeerCall (peer : string) (call : PeerCall)
| EvPeerReturn (peer : string) (ok : bool)
| EvLifecycle (project name : string) (kind : Lifecycle)
| EvAuthorizer (call : AuthorizerCall) (ok : bool)
| EvInstancesStart (member : string).

Record World := {
  catalog : Catalog;
  trace : list Event
}.

Definition emit (e : Event) (w : World) : World :=
  {| catalog := catalog w; trace := trace w ++ [e] |}.

Definition setCatalog (c : Catalog) (w : World) : World :=
  {| catalog := c; trace := trace w |}.

(** A step of a function whose early [return] carries an [E]. *)
Definition M (E A : Type) : Type := World -> outcome E A * World.

Definition retM {E A} (a : A) : M E A := fun w => (Ok a, w).

(** [return e]. *)
Definition failM {E A} (e : E) : M E A := fun w => (Ret e, w).

Definition bindM {E A B} (c : M E A) (k : A -> M E B) : M E B :=
  fun w =>
    match c w with
    | (Ok a, w1) => k a w1
    | (Ret e, w1) => (Ret e, w1)
    end.

Declare Scope handler_scope.
Delimit Scope handler_scope with handler.

Notation "'do' x <- c ; k" := (bindM c (fun x => k))
  (at level 10, x name, c at level 99, k at level 200) : handler_scope.
Notation "'do' ' p <- c ; k" := (bindM c (fun x => match x with p => k end))
  (at level 10, p pattern, c at level 99, k at level 200) : handler_scope.
Notation "c ;; k" := (bindM c (fun _ => k))
  (at level 100, k at level 200, right associativity) : handler_scope.

Local Open Scope handler_scope.

Definition emitM {E} (e : Event) : M E unit := fun w => (Ok tt, emit e w).

(** [if err != nil { return f(err) }] after a step. *)
Definition orReturn {E E' A} (f : E -> E') (c : M E A) : M E' A :=
  fun w =>
    match c w with
    | (Ok a, w1) => (Ok a, w1)
    | (Ret e, w1) => (Ret (f e), w1)
    end.

(** A pure check: [if !ok { return e }]. *)
Definition guardM {E} (ok : bool) (e : E) : M E unit :=
  if ok then retM tt else failM e.

(** The answer of an oracle, as a step without effect. *)
Definition liftM {E A} (r : outcome E A) : M E A := fun w => (r, w).

(** A step whose error is dropped ([_ = f()], or only logged). *)
Definition ignoreM {E E' A} (c : M E A) : M E' unit :=
  fun w => (Ok tt, snd (c w)).

(** [reverter.Add(undo)] in front of [body], under [defer reverter.Fail()]:
    the undo runs when the body leaves early. *)
Definition withRevert {E A} (undo : M E unit) (body : M E A) : M E A :=
  fun w =>
    match body w with
    | (Ok a, w1) => (Ok a, w1)
    | (Ret e, w1) => (Ret e, snd (undo w1))
    end.

(** A step whose outcome is looked at instead of returned. *)
Definition attemptM {E E' A} (c : M E A) : M E' (outcome E A) :=
  fun w => (Ok (c w).1, (c w).2).

(** [for _, x := range l { ... }] over a slice. *)
Fixpoint forEachM {E A} (l : list A) (f : A -> M E unit) : M E unit :=
  match l with
  | [] => retM tt
  | x :: rest => bindM (f x) (fun _ => forEachM rest f)
  end.

(** [for _, x := range l { ... }] with an accumulator. *)
Fixpoint foldM {E A B} (f : B -> A -> M E B) (l : list A) (b : B) : M E B :=
  match l with
  | [] => retM b
  | x :: rest => bindM (f b x) (fun b1 => foldM f rest b1)
  end.

(** The response of a helper that is itself written as a handler. *)
Definition respondM {E} (h : World -> Response * World) : M E Response :=
  fun w => (Ok (h w).1, (h w).2).

(** A handler has run when it has its response, returned early or not. *)
Definition handle (c : M Response Response) : World -> Response * World :=
  fun w =>
    match c w with
    | (Ok r, w1) => (r, w1)
    | (Ret r, w1) => (r, w1)
    end.

(** The calls whose failure is decided outside of this file. *)
Inductive Op :=
| OpTxCommit
| OpLoadByName (member project name : string)
| OpGetNetworks (project : string)
| OpGetNetworksAllProjects
| OpGetCreatedNetworkNamesByProject (project : string)
| OpGetProjectNames
| OpGetNetworkID (project name : string)
| OpGetNetworkInAnyState (project name : string)
| OpNetworkNodeConfigs (id : Z)
| OpGetNodes
| OpWrite (w : DbWrite)
| OpNewNotifier (member : string)
| OpGetServer (peer : string)
| OpClusterCount
| OpAuthorizer (call : AuthorizerCall)
| OpLoadNodeAll (member : string)
| OpOVS (member : string).

(** The environment of the daemon: what the collaborators answer.  An oracle
    that takes the world may look at everything that happened so far. *)
Record Env := {
  (* cluster *)
  members : list string;
  serverClustered : bool;
  fault : Op -> World -> option error;
  (* project package *)
  networkProject : string -> World -> result (string * Project);
  networkAllowed : Config -> string -> bool -> bool;
  projectNames : World -> list string;
  (* network package *)
  loadByType : string -> result TypeInfo;
  validateName : string -> string -> option error;
  fillConfig : string -> Config -> result Config;
  driver : Network -> DriverCall -> World -> option error;
  driverIsUsed : Network -> bool -> World -> result bool;
  networkUsedBy : string -> Z -> string -> string -> World -> result (list string);
  (* host *)
  interfaces : string -> World -> result (list Interface);
  pathExists : string -> string -> World -> bool;
  ovsBridgeExists : string -> string -> World -> bool;
  (* authorizer, entity tags, filters *)
  permissionChecker : Request -> World -> result (string -> string -> bool);
  checkPermission : Request -> string -> string -> World -> option error;
  filterUsedBy : Request -> list string -> list string;
  etagCheck : Request -> Etag -> option error;
  filterMatch : ApiNetwork -> list string -> result bool
}.

Definition ProjectDefaultName : string := "default".

Definition APIVersion : string := "1.0".

(** [strconv.Atoi]: an optional sign, then decimal digits, within 64 bits. *)
Definition digitValue (c : Ascii.ascii) : option Z :=
  let n := Z.of_nat (Ascii.nat_of_ascii c) in
  if (48 <=? n) && (n <=? 57) then Some (n - 48) else None.

Fixpoint parseDigits (acc : Z) (s : string) : option Z :=
  match s with
  | EmptyString => Some acc
  | String c rest =>
      match digitValue c with
      | Some d => parseDigits (10 * acc + d) rest
      | None => None
      end
  end.

Definition Atoi (s : string) : result Z :=
  let syntaxErr := Ret (ErrNew "strconv.Atoi: invalid syntax") in
  let ranged (v : Z) :=
    if (- 2 ^ 63 <=? v) && (v <? 2 ^ 63) then Ok v
    else Ret (ErrNew "strconv.Atoi: value out of range") in
  let unsigned (sign : Z) (digits : string) :=
    match digits with
    | EmptyString => syntaxErr
    | _ => match parseDigits 0 digits with
           | Some v => ranged (sign * v)
           | None => syntaxErr
           end
    end in
  match s with
  | String "+"%char rest => unsigned 1 rest
  | String "-"%char rest => unsigned (-1) rest
  | _ => unsigned 1 s
  end.

(** [slices.Contains]. *)
Definition Contains (l : list string) (x : string) : bool := bool_decide (x ∈ l).

(** Modelled from the spec: a request is a notification of a peer when its
    User-Agent parses to the notifier client type ([isClusterNotification]
    lives in another file of the daemon). *)
Definition isClusterNotification (r : Request) : bool :=
  bool_decide (reqClientType r = ClientTypeNotifier).

(** The three decoders of [json.NewDecoder(r.Body).Decode]. *)
Definition decodeNetworksPost (r : Request) : result NetworksPost :=
  match reqBody r with
  | BodyNetworksPost req => Ok req
  | _ => Ret (ErrNew "invalid JSON body")
  end.

Definition decodeNetworkPut (r : Request) : result NetworkPut :=
  match reqBody r with
  | BodyNetworkPut req => Ok req
  | _ => Ret (ErrNew "invalid JSON body")
  end.

Definition decodeNetworkPost (r : Request) : result string :=
  match reqBody r with
  | BodyNetworkPost newName => Ok newName
  | _ => Ret (ErrNew "invalid JSON body")
  end.

(** Modelled from the spec: [api.NewURL().Path(version.APIVersion, "networks",
    name)] (package api, not part of this file), the location of a network;
    [networkURL] is the same with [.Project(project)], which leaves the
    default project out. *)
Definition networkLink (name : string) : string :=
  "/" ++ APIVersion ++ "/networks/" ++ name.

Definition networkURL (project name : string) : string :=
  if decide (project = ProjectDefaultName) then networkLink name
  else networkLink name ++ "?project=" ++ project.

(** [for key := range c { if p(key) { return ... } }]: does some key of the
    map satisfy [p]? *)
Definition anyKey (p : string -> bool) (c : Config) : bool :=
  existsb (fun kv : string * string => p kv.1) (map_to_list c).

Section Controller.

(** [db.IsNodeSpecificNetworkConfig]: the classifier of config keys. *)
Variable IsNodeSpecificNetworkConfig : string -> bool.

Variable env : Env.

(** Modelled from the spec: [db.StripNodeSpecificNetworkConfig] (the db
    package is not part of this file) returns a copy of the config that
    omits the node-specific keys. *)
Definition StripNodeSpecificNetworkConfig (c : Config) : Config :=
  filter (fun kv : string * string => IsNodeSpecificNetworkConfig kv.1 = false) c.

(** A call that fails when the environment says so and has no other effect. *)
Definition faultM (op : Op) : M error unit :=
  fun w =>
    match fault env op w with
    | None => (Ok tt, w)
    | Some e => (Ret e, w)
    end.

(** A catalog read. *)
Definition readM {A} (op : Op) (f : Catalog -> result A) : M error A :=
  faultM op ;; fun w => (f (catalog w), w).

(** A catalog write: it is recorded, then applied unless it fails. *)
Definition writeM (wr : DbWrite) (apply : Catalog -> result Catalog) : M error unit :=
  fun w =>
    let w1 := emit (EvDb wr) w in
    match fault env (OpWrite wr) w1 with
    | Some e => (Ret e, w1)
    | None =>
        match apply (catalog w1) with
        | Ok c => (Ok tt, setCatalog c w1)
        | Ret e => (Ret e, w1)
        end
    end.

(** Modelled from the spec: [s.DB.Cluster.Transaction] (package db, not part
    of this file).  The writes of [body] reach the catalog only when the body
    and the commit both succeed. *)
Definition Transaction {A} (body : M error A) : M error A :=
  fun w =>
    match body (emit EvTxBegin w) with
    | (Ok a, w1) =>
        match fault env OpTxCommit w1 with
        | None => (Ok a, emit EvTxCommit w1)
        | Some e => (Ret e, setCatalog (catalog w) (emit EvTxRollback w1))
        end
    | (Ret e, w1) => (Ret e, setCatalog (catalog w) (emit EvTxRollback w1))
    end.

(** ** Catalog gateway

    Modelled from the spec: the operations of the catalog gateway ([tx.*],
    package db, not part of this file), over a catalog that maps a project
    and a name to one record with its global status and config and, per
    member, a local status and the node-specific config. *)

Definition notFound : error := ErrStatus StatusNotFound "Network not found".

Definition networkNamesOf (keep : string -> NetRow -> bool) (c : Catalog) : list string :=
  omap (fun kv : string * string * NetRow =>
          if keep kv.1.1 kv.2 then Some kv.1.2 else None) (map_to_list c).

(** Modelled from the spec: [tx.GetNetworks], the names of the networks of a
    project, in any status. *)
Definition GetNetworks (project : string) : M error (list string) :=
  readM (OpGetNetworks project)
    (fun c => Ok (networkNamesOf (fun p _ => bool_decide (p = project)) c)).

(** Modelled from the spec: [tx.GetNetworksAllProjects], the names of the
    networks of every project, by project. *)
Definition GetNetworksAllProjects : M error (gmap string (list string)) :=
  readM OpGetNetworksAllProjects
    (fun c => Ok (map_fold (fun (k : string * string) (_ : NetRow) acc =>
                              <[k.1 := k.2 :: default [] (acc !! k.1)]> acc) ∅ c)).

(** Modelled from the spec: [tx.GetCreatedNetworkNamesByProject], the names of
    the networks of a project whose global status is created. *)
Definition GetCreatedNetworkNamesByProject (project : string) : M error (list string) :=
  readM (OpGetCreatedNetworkNamesByProject project)
    (fun c => Ok (networkNamesOf
                    (fun p row => bool_decide (p = project) &&
                                  bool_decide (rowStatus row = NetworkStatusCreated)) c)).

(** Modelled from the spec: [dbCluster.GetProjectNames]. *)
Definition GetProjectNames : M error (list string) :=
  faultM OpGetProjectNames ;; fun w => (Ok (projectNames env w), w).

(** Modelled from the spec: [tx.GetNodes], the members of the cluster. *)
Definition GetNodes : M error (list string) :=
  faultM OpGetNodes ;; retM (members env).

(** Modelled from the spec: [tx.GetNetworkID], the id of a record of any
    status, or not-found. *)
Definition GetNetworkID (project name : string) : M error Z :=
  readM (OpGetNetworkID project name)
    (fun c => match c !! (project, name) with
              | Some row => Ok (rowID row)
              | None => Ret notFound
              end).

(** Modelled from the spec: the record as member [self] sees it, that is the
    global config with the member's own node-specific config, the global and
    the local status. *)
Definition viewRow (self project name : string) (row : NetRow) : Network :=
  {| netMember := self;
     netID := rowID row;
     netProject := project;
     netName := name;
     netType := rowType row;
     netDescription := rowDescription row;
     netConfig := default ∅ (nodeConfig <$> rowNodes row !! self) ∪ rowConfig row;
     netStatus := rowStatus row;
     netLocalStatus := default NetworkStatusUnknown (nodeStatus <$> rowNodes row !! self);
     netLocations := (map_to_list (rowNodes row)).*1;
     netManaged := true |}.

(** Modelled from the spec: [tx.GetNetworkInAnyState], the record of any
    status as the member sees it, or not-found. *)
Definition GetNetworkInAnyState (self project name : string) : M error Network :=
  readM (OpGetNetworkInAnyState project name)
    (fun c => match c !! (project, name) with
              | Some row => Ok (viewRow self project name row)
              | None => Ret notFound
              end).

Definition rowByID (id : Z) (c : Catalog) : option NetRow :=
  snd <$> head (filter (fun kv : string * string * NetRow => rowID kv.2 = id) (map_to_list c)).

(** Modelled from the spec: [tx.NetworkNodeConfigs], the node-specific config
    of every member; it fails unless the network is defined on all of them. *)
Definition NetworkNodeConfigs (id : Z) : M error (gmap string Config) :=
  readM (OpNetworkNodeConfigs id)
    (fun c => match rowByID id c with
              | None => Ret notFound
              | Some row =>
                  if forallb (fun m => bool_decide (is_Some (rowNodes row !! m))) (members env)
                  then Ok (nodeConfig <$> rowNodes row)
                  else Ret (ErrNew "Network not defined on all cluster members")
              end).

Definition nextID (c : Catalog) : Z :=
  1 + map_fold (fun (_ : string * string) row acc => Z.max (rowID row) acc) 0 c.

Definition pendingNode (cfg : Config) : NodeRow :=
  {| nodeStatus := NetworkStatusPending; nodeConfig := cfg |}.

Definition addNode (member : string) (cfg : Config) (row : NetRow) : NetRow :=
  {| rowID := rowID row; rowType := rowType row; rowDescription := rowDescription row;
     rowStatus := rowStatus row; rowConfig := rowConfig row;
     rowNodes := <[member := pendingNode cfg]> (rowNodes row) |}.

(** Modelled from the spec: [tx.CreatePendingNetwork] adds a pending entry of
    one member, creating the pending record with the first of them; a member
    that already has its entry gets [db.ErrAlreadyDefined]. *)
Definition CreatePendingNetwork (member project name description type : string)
    (cfg : Config) : M error unit :=
  writeM (DbCreatePendingNetwork member project name description type cfg)
    (fun c => match c !! (project, name) with
              | None =>
                  Ok (<[(project, name) :=
                         {| rowID := nextID c; rowType := type; rowDescription := description;
                            rowStatus := NetworkStatusPending; rowConfig := ∅;
                            rowNodes := {[member := pendingNode cfg]} |}]> c)
              | Some row =>
                  match rowNodes row !! member with
                  | Some _ => Ret ErrAlreadyDefined
                  | None => Ok (<[(project, name) := addNode member cfg row]> c)
                  end
              end).

(** Modelled from the spec: [tx.CreateNetwork] inserts a record of a
    non-clustered create, global status created, and returns its id. *)
Definition CreateNetwork (self project name description type : string)
    (cfg : Config) : M error Z :=
  fun w =>
    let id := nextID (catalog w) in
    match writeM (DbCreateNetwork self project name description type cfg)
            (fun c => match c !! (project, name) with
                      | Some _ => Ret (ErrStatus 409 "Network already exists")
                      | None =>
                          Ok (<[(project, name) :=
                                 {| rowID := nextID c; rowType := type;
                                    rowDescription := description;
                                    rowStatus := NetworkStatusCreated;
                                    rowConfig := StripNodeSpecificNetworkConfig cfg;
                                    rowNodes :=
                                      {[self := pendingNode
                                                  (filter (fun kv : string * string =>
                                                             IsNodeSpecificNetworkConfig kv.1 = true)
                                                          cfg)]} |}]> c)
                      end) w with
    | (Ok _, w1) => (Ok id, w1)
    | (Ret e, w1) => (Ret e, w1)
    end.

Definition updateRowsByID (id : Z) (f : NetRow -> NetRow) (c : Catalog) : Catalog :=
  (fun row => if Z.eqb (rowID row) id then f row else row) <$> c.

Definition addGlobalConfig (cfg : Config) (row : NetRow) : NetRow :=
  {| rowID := rowID row; rowType := rowType row; rowDescription := rowDescription row;
     rowStatus := rowStatus row; rowConfig := cfg ∪ rowConfig row;
     rowNodes := rowNodes row |}.

Definition addNodeConfig (member : string) (cfg : Config) (row : NetRow) : NetRow :=
  {| rowID := rowID row; rowType := rowType row; rowDescription := rowDescription row;
     rowStatus := rowStatus row; rowConfig := rowConfig row;
     rowNodes := alter (fun nr => {| nodeStatus := nodeStatus nr;
                                     nodeConfig := cfg ∪ nodeConfig nr |}) member (rowNodes row) |}.

(** Modelled from the spec: [tx.CreateNetworkConfig] inserts config rows of a
    record.  [nodeID = 0] inserts global config; a member is numbered by its
    place (from 1) in the list of members. *)
Definition CreateNetworkConfig (id nodeID : Z) (cfg : Config) : M error unit :=
  writeM (DbCreateNetworkConfig id nodeID cfg)
    (fun c =>
       if Z.eqb nodeID 0 then Ok (updateRowsByID id (addGlobalConfig cfg) c)
       else match members env !! Z.to_nat (nodeID - 1) with
            | Some member => Ok (updateRowsByID id (addNodeConfig member cfg) c)
            | None => Ret (ErrNew "No such cluster member")
            end).

Definition setStatus (st : NetworkStatus) (row : NetRow) : NetRow :=
  {| rowID := rowID row; rowType := rowType row; rowDescription := rowDescription row;
     rowStatus := st; rowConfig := rowConfig row; rowNodes := rowNodes row |}.

Definition networkState (project name : string) (st : NetworkStatus) (c : Catalog) : result Catalog :=
  match c !! (project, name) with
  | Some row => Ok (<[(project, name) := setStatus st row]> c)
  | None => Ret notFound
  end.

(** Modelled from the spec: [tx.NetworkErrored] sets the global status of the
    record to errored. *)
Definition NetworkErrored (project name : string) : M error unit :=
  writeM (DbNetworkErrored project name) (networkState project name NetworkStatusErrored).

(** Modelled from the spec: [tx.NetworkCreated] sets the global status of the
    record to created. *)
Definition NetworkCreated (project name : string) : M error unit :=
  writeM (DbNetworkCreated project name) (networkState project name NetworkStatusCreated).

Definition setNodeCreated (member : string) (row : NetRow) : NetRow :=
  {| rowID := rowID row; rowType := rowType row; rowDescription := rowDescription row;
     rowStatus := rowStatus row; rowConfig := rowConfig row;
     rowNodes := <[member := {| nodeStatus := NetworkStatusCreated;
                                nodeConfig := default ∅ (nodeConfig <$> rowNodes row !! member) |}]>
                   (rowNodes row) |}.

(** Modelled from the spec: [tx.NetworkNodeCreated], the status transition of
    record [id] on the member that runs the transaction. *)
Definition NetworkNodeCreated (member : string) (id : Z) : M error unit :=
  writeM (DbNetworkNodeCreated member id)
    (fun c => Ok (updateRowsByID id (setNodeCreated member) c)).

(** Modelled from the spec: [tx.DeleteNetwork] removes the record of the
    project and name. *)
Definition DeleteNetwork (project name : string) : M error unit :=
  writeM (DbDeleteNetwork project name)
    (fun c => match c !! (project, name) with
              | Some _ => Ok (delete (project, name) c)
              | None => Ret notFound
              end).

(** Modelled from the spec: [tx.UpsertWarningLocalNode] and
    [warnings.ResolveWarningsByLocalNodeAndProjectAndTypeAndEntity].  The
    warnings store is not part of the catalog of networks: an upsert or a
    resolve is recorded only. *)
Definition UpsertWarningLocalNode (member project : string) (id : Z) (e : error) : M error unit :=
  writeM (DbUpsertWarning member project id e) (fun c => Ok c).

Definition ResolveWarnings (member project : string) (id : Z) : M error unit :=
  Transaction (writeM (DbResolveWarning member project id) (fun c => Ok c)).

(** Modelled from the spec: [network.LoadByName] (package network, not part
    of this file) loads the record of any status, or fails with not-found. *)
Definition LoadByName (self project name : string) : M error Network :=
  readM (OpLoadByName self project name)
    (fun c => match c !! (project, name) with
              | Some row => Ok (viewRow self project name row)
              | None => Ret notFound
              end).

(** A call into the driver of [n]; the outcome is the environment's. *)
Definition driverCall (n : Network) (call : DriverCall) : M error unit :=
  fun w =>
    match driver env n call w with
    | None => (Ok tt, emit (EvDriver (netMember n) (netProject n) (netName n) call true) w)
    | Some e => (Ret e, emit (EvDriver (netMember n) (netProject n) (netName n) call false) w)
    end.

Definition authorizerCall {E} (call : AuthorizerCall) : M E unit :=
  fun w =>
    match fault env (OpAuthorizer call) w with
    | None => (Ok tt, emit (EvAuthorizer call true) w)
    | Some _ => (Ok tt, emit (EvAuthorizer call false) w)
    end.

(** [s.Events.SendLifecycle(project, lifecycle.X.Event(n, requestor, ctx))]. *)
Definition SendLifecycle {E} (project : string) (n : Network) (kind : Lifecycle) : M E unit :=
  emitM (EvLifecycle project (netName n) kind).

(** [netType.FillConfig(config)]: the defaults are added to the map. *)
Definition FillConfig (type : string) (cfg : Config) : M error Config :=
  fun w =>
    match fillConfig env type cfg with
    | Ok c => (Ok c, emit (EvFillConfig type true) w)
    | Ret e => (Ret e, emit (EvFillConfig type false) w)
    end.

(** Modelled from the spec: [cluster.Count], the number of members. *)
Definition clusterCount : M error Z :=
  faultM OpClusterCount ;; retM (Z.of_nat (length (members env))).

(** ** Cluster notifier *)

(** Modelled from the spec: [cluster.NewNotifier] with [NotifyAll] (package
    cluster, not part of this file) yields a notifier over every peer of
    the member. *)
Definition NewNotifier (self : string) : M error (list string) :=
  faultM (OpNewNotifier self) ;;
  retM (filter (fun m => m <> self) (members env)).

(** Modelled from the spec: the notifier invokes the hook against every peer
    in scope and returns the first error, or nil.  The peers run one after
    the other here, in the order of the list of members. *)
Fixpoint notifier (peers : list string) (hook : string -> M error unit) : M error unit :=
  match peers with
  | [] => retM tt
  | peer :: rest =>
      fun w =>
        let r1 := hook peer w in
        let r2 := notifier rest hook r1.2 in
        (match r1.1 with Ret e => Ret e | Ok _ => r2.1 end, r2.2)
  end.

(** Modelled from the spec: the error that a call of the client returns for
    the response of the peer. *)
Definition responseError (r : Response) : option error :=
  match r with
  | BadRequest e | SmartError e | InternalError e | PreconditionFailed e | Conflict e => Some e
  | _ => None
  end.

(** Modelled from the spec: a request of the notifier's client to [peer].  The
    peer runs [handler] on it, and the client turns an error response into an
    error. *)
Definition callPeer (handler : string -> Request -> World -> Response * World)
    (peer : string) (call : PeerCall) (r : Request) : M error unit :=
  fun w =>
    let res := handler peer r (emit (EvPeerCall peer call) w) in
    match responseError res.1 with
    | None => (Ok tt, emit (EvPeerReturn peer true) res.2)
    | Some e => (Ret e, emit (EvPeerReturn peer false) res.2)
    end.

Definition notifierRequest (method : Method) (project : string) (name : result string)
    (body : Body) : Request :=
  {| reqMethod := method; reqProjectParam := project; reqTarget := "";
     reqAllProjects := false; reqRecursion := false; reqFilter := Ok [];
     reqClientType := ClientTypeNotifier; reqNetworkName := name; reqBody := body |}.

(** ** Local actuation *)

Definition isACLKey (k : string) : bool :=
  String.eqb k "security.acls" || String.prefix "security.acls." k.

(** The loop of [doNetworksCreate] that copies the config without the ACL
    keys. *)
Definition joinerValidateConfig (c : Config) : Config :=
  map_fold (fun k v acc => if isACLKey k then acc else <[k := v]> acc) ∅ c.

Definition doNetworksCreate (n : Network) (clientType : ClientType) : M error unit :=
  let validateConfig :=
    if decide (clientType = ClientTypeJoiner)
    then joinerValidateConfig (netConfig n)
    else netConfig n in
  driverCall n (DrvValidate validateConfig) ;;
  if decide (netLocalStatus n = NetworkStatusCreated) then retM tt
  else
    driverCall n (DrvCreate clientType) ;;
    withRevert (ignoreM (driverCall n (DrvDelete clientType)))
      ((if decide (clientType = ClientTypeJoiner) then retM tt
        else driverCall n DrvStart) ;;
       Transaction (NetworkNodeCreated (netMember n) (netID n))).

(** ** Two-phase create *)

Definition networkPartiallyCreated (netInfo : Network) : bool :=
  if decide (netStatus netInfo = NetworkStatusErrored) then true
  else anyKey (fun key => negb (IsNodeSpecificNetworkConfig key)) (netConfig netInfo).

Definition partiallyCreated (netInfo : option Network) : bool :=
  match netInfo with
  | Some info => networkPartiallyCreated info
  | None => false
  end.

(** The first transaction of [networksPostCluster]: it yields the
    node-specific configs ([nil] when the global config is already there). *)
Definition postClusterDefine (projectName : string) (netInfo : option Network)
    (req : NetworksPost) : M error (gmap string Config) :=
  Transaction
    (if partiallyCreated netInfo then
       if decide (postConfig req = ∅) then retM ∅
       else failM (ErrNew "Network already partially created. Please do not specify any global config when re-running create")
     else
       do networkID <- GetNetworkID projectName (postName req);
       do nodeConfigs <- NetworkNodeConfigs networkID;
       do cfg <- FillConfig (postType req) (postConfig req);
       CreateNetworkConfig networkID 0 cfg ;;
       NetworkErrored projectName (postName req) ;;
       retM nodeConfigs).

(** The hook that [networksPostCluster] hands to the notifier. *)
Definition postClusterHook (createOnPeer : string -> string -> NetworksPost -> M error unit)
    (n : Network) (netConfig : Config) (nodeConfigs : gmap string Config)
    (peer : string) : M error unit :=
  faultM (OpGetServer peer) ;;
  let nodeConfig := default ∅ (nodeConfigs !! peer) ∪ netConfig in
  createOnPeer peer (netProject n)
    {| postName := netName n; postType := netType n;
       postDescription := netDescription n; postConfig := nodeConfig |}.

(** [networksPostCluster] after its first transaction: the actuation on
    this member, the fan-out to the peers, the global created marker. *)
Definition postClusterActuate (createOnPeer : string -> string -> NetworksPost -> M error unit)
    (self projectName : string) (req : NetworksPost) (clientType : ClientType)
    (nodeConfigs : gmap string Config) : M error unit :=
  do peers <- NewNotifier self;
  do n <- orReturn (ErrWrap "Failed loading network") (LoadByName self projectName (postName req));
  let netConfig := netConfig n in
  doNetworksCreate n clientType ;;
  let netConfig := StripNodeSpecificNetworkConfig netConfig in
  notifier peers (postClusterHook createOnPeer n netConfig nodeConfigs) ;;
  Transaction (NetworkCreated projectName (postName req)).

(** The quick checks of [networksPostCluster] on the request and on the
    existing record. *)
Definition postClusterChecks (netInfo : option Network) (req : NetworksPost) : M error unit :=
  guardM (negb (anyKey IsNodeSpecificNetworkConfig (postConfig req)))
    (ErrNew "Config key is cluster member specific") ;;
  match netInfo with
  | Some info =>
      guardM (negb (bool_decide (netStatus info = NetworkStatusCreated)))
        (ErrNew "The network is already created") ;;
      guardM (String.eqb (postType req) (netType info))
        (ErrNew "Requested network type doesn't match type in existing database record")
  | None => retM tt
  end.

Definition networksPostCluster (createOnPeer : string -> string -> NetworksPost -> M error unit)
    (self projectName : string) (netInfo : option Network) (req : NetworksPost)
    (clientType : ClientType) : M error unit :=
  postClusterChecks netInfo req ;;
  do nodeConfigs <-
    orReturn (fun err => if IsNotFoundError err
                         then ErrNew "Network not pending on any node (use --target <node> first)"
                         else err)
      (postClusterDefine projectName netInfo req);
  postClusterActuate createOnPeer self projectName req clientType nodeConfigs.

(** ** Create ([POST /1.0/networks]) *)

Definition withType (req : NetworksPost) (type : string) : NetworksPost :=
  {| postName := postName req; postType := type;
     postDescription := postDescription req; postConfig := postConfig req |}.

(** The validation checks of [networksPost], up to the selection of the path.
    The mutex that serialises the handler has no part in a single run. *)
Definition networksPostChecks (r : Request)
  : M Response (string * Project * NetworksPost * TypeInfo) :=
  do '(projectName, reqProject) <-
    orReturn SmartError (fun w => (networkProject env (reqProjectParam r) w, w));
  do req <- orReturn BadRequest (liftM (decodeNetworksPost r));
  guardM (negb (String.eqb (postName req) "")) (BadRequest (ErrNew "No name provided")) ;;
  guardM (negb (String.eqb (postName req) "none"))
    (BadRequest (ErrNew "Network name 'none' is not valid")) ;;
  guardM (networkAllowed env (projConfig reqProject) (postName req) true)
    (SmartError (ErrStatus StatusForbidden "Network not allowed in project")) ;;
  let req :=
    if String.eqb (postType req) "" then
      if decide (projectName = ProjectDefaultName) then withType req "bridge"
      else withType req "ovn"
    else req in
  do netTypeInfo <- orReturn BadRequest (liftM (loadByType env (postType req)));
  match validateName env (postType req) (postName req) with
  | Some err => failM (BadRequest err)
  | None => retM tt
  end ;;
  guardM (bool_decide (projectName = ProjectDefaultName) || tiProjects netTypeInfo)
    (BadRequest (ErrNew "Network type does not support non-default projects")) ;;
  (if negb (bool_decide (projectName = ProjectDefaultName)) &&
      negb (String.eqb (cfg_get (projConfig reqProject) "limits.networks") "")
   then
     do networksLimit <-
       orReturn (fun e => InternalError (ErrWrap "Invalid project limits.network value" e))
         (liftM (Atoi (cfg_get (projConfig reqProject) "limits.networks")));
     do networks <-
       orReturn (fun e => InternalError
                            (ErrWrap "Failed loading project's networks for limits check" e))
         (Transaction (GetNetworks projectName));
     guardM (negb (negb (Contains networks (postName req)) &&
                   (networksLimit <=? Z.of_nat (length networks))))
       (BadRequest (ErrNew "Networks limit has been reached for project"))
   else retM tt) ;;
  retM (projectName, reqProject, req, netTypeInfo).

Definition loadFailed (e : error) : Response :=
  SmartError (ErrWrap "Failed loading network" e).

(** The authorizer entry and the lifecycle event that advertise a network
    as existing. *)
Definition announceCreated (self projectName name : string) : M Response unit :=
  authorizerCall (AuthAddNetwork projectName name) ;;
  do n <- orReturn loadFailed (LoadByName self projectName name);
  SendLifecycle projectName n LifecycleNetworkCreated.

Definition networksPostWith (createOnPeer : string -> string -> NetworksPost -> M error unit)
    (self : string) (r : Request) : M Response Response :=
  do '(projectName, reqProject, req, netTypeInfo) <- networksPostChecks r;
  let resp := SyncResponseLocation (networkURL projectName (postName req)) in
  let clientType := reqClientType r in
  if isClusterNotification r then
    (* The network was defined before; this member actuates it. *)
    do n <- orReturn loadFailed (LoadByName self projectName (postName req));
    orReturn SmartError (doNetworksCreate n clientType) ;;
    retM resp
  else
  let targetNode := reqTarget r in
  if negb (String.eqb targetNode "") then
    (* Define the network on the target member, without creating it. *)
    guardM (tiNodeSpecificConfig netTypeInfo)
      (BadRequest (ErrNew "Network type does not support member specific config")) ;;
    guardM (negb (anyKey (fun key => negb (IsNodeSpecificNetworkConfig key)) (postConfig req)))
      (BadRequest (ErrNew "Config key may not be used as member-specific key")) ;;
    do exists_ <-
      orReturn (fun err => if IsAlreadyDefined err
                           then Conflict (ErrNew "Network is already defined on member")
                           else SmartError err)
        (Transaction
           (do found <- attemptM (GetNetworkID projectName (postName req));
            CreatePendingNetwork targetNode projectName (postName req)
              (postDescription req) (postType req) (postConfig req) ;;
            retM (is_ok found)));
    (if exists_ then retM tt else announceCreated self projectName (postName req)) ;;
    retM resp
  else
  do loaded <- attemptM (Transaction (GetNetworkInAnyState self projectName (postName req)));
  do netInfo <-
    match loaded with
    | Ok info => retM (Some info)
    | Ret err =>
        if StatusErrorCheck err StatusNotFound then retM None
        else failM (InternalError err)
    end;
  do count <- orReturn SmartError clusterCount;
  if (1 <? count) ||
     match netInfo with
     | Some info => negb (bool_decide (netStatus info = NetworkStatusCreated))
     | None => false
     end
  then
    (* Finalize the config in the catalog and create the network on every member. *)
    (if negb (tiNodeSpecificConfig netTypeInfo) &&
        negb (bool_decide (clientType = ClientTypeJoiner))
     then
       orReturn SmartError
         (Transaction
            (do nodes <- orReturn (ErrWrap "Failed getting cluster members") GetNodes;
             forEachM nodes
               (fun member =>
                  do created <-
                    attemptM (CreatePendingNetwork member projectName (postName req)
                                (postDescription req) (postType req) ∅);
                  match created with
                  | Ret err =>
                      if IsAlreadyDefined err then retM tt
                      else failM (ErrWrap "Failed creating pending network for member" err)
                  | Ok _ => retM tt
                  end))) ;;
       announceCreated self projectName (postName req)
     else retM tt) ;;
    orReturn SmartError
      (networksPostCluster createOnPeer self projectName netInfo req clientType) ;;
    retM resp
  else
  (* Non-clustered network creation. *)
  match netInfo with
  | Some _ => failM (Conflict (ErrNew "Network already exists"))
  | None =>
      do cfg <-
        (if bool_decide (clientType = ClientTypeJoiner) then retM (postConfig req)
         else orReturn SmartError (FillConfig (postType req) (postConfig req)));
      orReturn (fun e => SmartError (ErrWrap "Error inserting into database" e))
        (Transaction (CreateNetwork self projectName (postName req)
                        (postDescription req) (postType req) cfg)) ;;
      withRevert (ignoreM (Transaction (DeleteNetwork projectName (postName req))))
        (do n <- orReturn loadFailed (LoadByName self projectName (postName req));
         orReturn SmartError (doNetworksCreate n clientType) ;;
         authorizerCall (AuthAddNetwork projectName (postName req)) ;;
         SendLifecycle projectName n LifecycleNetworkCreated ;;
         retM resp)
  end.

(** What a peer does with the [CreateNetwork] of the notifier's client: it
    serves a request that carries the notifier's User-Agent.  Such a request
    is actuated on the peer and never fans out again. *)
Definition noPeers : string -> string -> NetworksPost -> M error unit :=
  fun _ _ _ => failM (ErrNew "a cluster notification is not forwarded").

Definition createOnPeer (peer project : string) (nodeReq : NetworksPost) : M error unit :=
  callPeer (fun member r => handle (networksPostWith noPeers member r)) peer
    (PeerCreateNetwork project nodeReq)
    (notifierRequest MethodPost project (Ok "") (BodyNetworksPost nodeReq)).

Definition networksPost (self : string) (r : Request) : World -> Response * World :=
  handle (networksPostWith createOnPeer self r).

(** The first lines of every handler of one network: the effective
    project and the name in the path. *)
Definition requestProject (r : Request) : M Response (string * Project) :=
  orReturn SmartError (fun w => (networkProject env (reqProjectParam r) w, w)).

Definition requestNetworkName (r : Request) : M Response string :=
  orReturn SmartError (liftM (reqNetworkName r)).

Definition IsUsed (n : Network) (onlyManaged : bool) : M error bool :=
  fun w => (driverIsUsed env n onlyManaged w, w).

(** ** Delete ([DELETE /1.0/networks/{name}]) *)

Definition networkDeleteWith (deleteOnPeer : string -> string -> string -> M error unit)
    (self : string) (r : Request) : M Response Response :=
  do '(projectName, reqProject) <- requestProject r;
  do networkName <- requestNetworkName r;
  do n <- orReturn loadFailed (LoadByName self projectName networkName);
  guardM (networkAllowed env (projConfig reqProject) networkName (netManaged n))
    (SmartError notFound) ;;
  let clientType := reqClientType r in
  let clusterNotification := isClusterNotification r in
  (if negb clusterNotification then
     do inUse <- orReturn SmartError (IsUsed n false);
     guardM (negb inUse) (BadRequest (ErrNew "The network is currently in use"))
   else retM tt) ;;
  (if negb (bool_decide (netLocalStatus n = NetworkStatusPending))
   then orReturn InternalError (driverCall n (DrvDelete clientType))
   else retM tt) ;;
  if clusterNotification then
    (* The member that serves the original request does the catalog work. *)
    retM EmptySyncResponse
  else
  (if serverClustered env then
     do peers <- orReturn SmartError (NewNotifier self);
     orReturn SmartError
       (notifier peers (fun peer => deleteOnPeer peer (netProject n) (netName n)))
   else retM tt) ;;
  orReturn SmartError (Transaction (DeleteNetwork (netProject n) (netName n))) ;;
  authorizerCall (AuthDeleteNetwork projectName networkName) ;;
  SendLifecycle projectName n LifecycleNetworkDeleted ;;
  retM EmptySyncResponse.

Definition noPeerDeletes : string -> string -> string -> M error unit :=
  fun _ _ _ => failM (ErrNew "a cluster notification is not forwarded").

Definition deleteOnPeer (peer project name : string) : M error unit :=
  callPeer (fun member r => handle (networkDeleteWith noPeerDeletes member r)) peer
    (PeerDeleteNetwork project name)
    (notifierRequest MethodDelete project (Ok name) BodyMalformed).

Definition networkDelete (self : string) (r : Request) : World -> Response * World :=
  handle (networkDeleteWith deleteOnPeer self r).

(** ** Rename ([POST /1.0/networks/{name}]) *)

Definition networkPost (self : string) (r : Request) : World -> Response * World :=
  handle
    (guardM (negb (serverClustered env))
       (BadRequest (ErrNew "Renaming clustered network not supported")) ;;
     do '(projectName, reqProject) <- requestProject r;
     do networkName <- requestNetworkName r;
     do newName <- orReturn BadRequest (liftM (decodeNetworkPost r));
     do n <- orReturn loadFailed (LoadByName self projectName networkName);
     guardM (networkAllowed env (projConfig reqProject) networkName (netManaged n))
       (SmartError notFound) ;;
     guardM (bool_decide (netStatus n = NetworkStatusCreated))
       (BadRequest (ErrNew "Cannot rename network when not in created state")) ;;
     guardM (negb (String.eqb newName ""))
       (BadRequest (ErrNew "New network name not provided")) ;;
     match validateName env (netType n) newName with
     | Some err => failM (BadRequest err)
     | None => retM tt
     end ;;
     do inUse <-
       orReturn (fun e => InternalError (ErrWrap "Failed checking network in use" e))
         (IsUsed n false);
     guardM (negb inUse) (BadRequest (ErrNew "Network is currently in use")) ;;
     do networks <- orReturn InternalError (Transaction (GetNetworks projectName));
     guardM (negb (Contains networks newName)) (Conflict (ErrNew "Network already exists")) ;;
     orReturn SmartError (driverCall n (DrvRename newName)) ;;
     authorizerCall (AuthRenameNetwork projectName networkName newName) ;;
     emitM (EvLifecycle projectName newName (LifecycleNetworkRenamed networkName)) ;;
     retM (SyncResponseLocation (networkURL projectName newName))).

(** ** Update ([PUT] and [PATCH /1.0/networks/{name}]) *)

Inductive Forwarding :=
| ServeHere
| ForwardTo (member : string)
| ForwardFailed (resp : Response).

(** Modelled from the spec: [forwardedResponseIfTargetIsRemote] (not part of
    this file) forwards the request when [?target] names a remote member;
    that member then serves it with the same handler. *)
Definition forwardedResponseIfTargetIsRemote (self : string) (r : Request) : Forwarding :=
  if String.eqb (reqTarget r) "" then ServeHere
  else if String.eqb (reqTarget r) self then ServeHere
  else if Contains (members env) (reqTarget r) then ForwardTo (reqTarget r)
  else ForwardFailed (SmartError (ErrStatus StatusNotFound "Cluster member not found")).

Definition withConfig (req : NetworkPut) (cfg : Config) : NetworkPut :=
  {| putDescription := putDescription req; putConfig := cfg |}.

(** The two merge loops of [doNetworkUpdate] over the current config. *)
Definition mergeNodeSpecific (cur reqConfig : Config) : Config :=
  map_fold (fun k v acc => if IsNodeSpecificNetworkConfig k then <[k := v]> acc else acc)
    reqConfig cur.

Definition mergeMissing (cur reqConfig : Config) : Config :=
  map_fold (fun k v acc => match acc !! k with
                           | Some _ => acc
                           | None => <[k := v]> acc
                           end)
    reqConfig cur.

Definition doNetworkUpdate (n : Network) (req : NetworkPut) (targetNode : string)
    (clientType : ClientType) (httpMethod : Method) (clustered : bool)
  : World -> Response * World :=
  handle
    (let cfg :=
       if String.eqb targetNode "" && negb (bool_decide (httpMethod = MethodPatch)) && clustered
       then mergeNodeSpecific (netConfig n) (putConfig req)
       else if bool_decide (httpMethod = MethodPatch)
            then mergeMissing (netConfig n) (putConfig req)
            else putConfig req in
     let req := withConfig req cfg in
     orReturn BadRequest (driverCall n (DrvValidate (putConfig req))) ;;
     orReturn SmartError (driverCall n (DrvUpdate req targetNode clientType)) ;;
     retM EmptySyncResponse).

(** [networkPut] from the load of the network to the decoded body. *)
Definition networkPutChecks (self : string) (r : Request)
  : M Response (string * Network * string * NetworkPut) :=
  do '(projectName, reqProject) <- requestProject r;
  do networkName <- requestNetworkName r;
  do n <- orReturn loadFailed (LoadByName self projectName networkName);
  guardM (networkAllowed env (projConfig reqProject) networkName (netManaged n))
    (SmartError notFound) ;;
  let targetNode := reqTarget r in
  guardM (negb (String.eqb targetNode "" &&
                negb (bool_decide (netStatus n = NetworkStatusCreated))))
    (BadRequest (ErrNew "Cannot update network global config when not in created state")) ;;
  let etagConfig :=
    if String.eqb targetNode "" && serverClustered env
    then StripNodeSpecificNetworkConfig (netConfig n)
    else netConfig n in
  match etagCheck env r {| etagName := netName n; etagManaged := netManaged n;
                           etagType := netType n; etagDescription := netDescription n;
                           etagConfig := etagConfig |} with
  | Some err => failM (PreconditionFailed err)
  | None => retM tt
  end ;;
  do req <- orReturn BadRequest (liftM (decodeNetworkPut r));
  retM (projectName, n, targetNode, req).

(** The keys of the request whose value differs from the current one. *)
Definition changedConfig (curConfig reqConfig : Config) : Config :=
  map_fold (fun key value acc =>
              if String.eqb (cfg_get curConfig key) value then acc
              else <[key := value]> acc) ∅ reqConfig.

(** The key-scope rule of [networkPut] in clustered mode. *)
Definition networkPutScope (n : Network) (targetNode : string) (req : NetworkPut)
  : M Response unit :=
  if serverClustered env then
    let changed := changedConfig (netConfig n) (putConfig req) in
    if String.eqb targetNode "" then
      guardM (negb (anyKey IsNodeSpecificNetworkConfig changed))
        (BadRequest (ErrNew "Config key is cluster member specific"))
    else
      guardM (negb (anyKey (fun k => negb (IsNodeSpecificNetworkConfig k)) changed))
        (BadRequest (ErrNew "Config key may not be used as member-specific key"))
  else retM tt.

(** [networkPut] on the member that serves the request. *)
Definition networkPutLocal (self : string) (r : Request) : World -> Response * World :=
  handle
    (do '(projectName, n, targetNode, req) <- networkPutChecks self r;
     networkPutScope n targetNode req ;;
     let clientType := reqClientType r in
     do resp <- respondM (doNetworkUpdate n req targetNode clientType (reqMethod r)
                            (serverClustered env));
     SendLifecycle projectName n LifecycleNetworkUpdated ;;
     retM resp).

Definition networkPut (self : string) (r : Request) : World -> Response * World :=
  match forwardedResponseIfTargetIsRemote self r with
  | ServeHere => networkPutLocal self r
  | ForwardTo member => networkPutLocal member r
  | ForwardFailed resp => fun w => (resp, w)
  end.

Definition networkPatch (self : string) (r : Request) : World -> Response * World :=
  networkPut self r.

(** ** Get and list ([GET /1.0/networks]) *)

(** [net.InterfaceByName], over the interfaces of the host of [self]. *)
Definition InterfaceByName (self name : string) (w : World) : option Interface :=
  match interfaces env self w with
  | Ok ifaces => head (filter (fun i => ifName i = name) ifaces)
  | Ret _ => None
  end.

(** The type of an interface that has no managed record, probed on the
    host. *)
Definition probeType (self name : string) (osInfo : option Interface) : M error string :=
  fun w =>
    if match osInfo with Some i => ifLoopback i | None => false end then (Ok "loopback", w)
    else if pathExists env self ("/sys/class/net/" ++ name ++ "/bridge") w then (Ok "bridge", w)
    else if pathExists env self ("/proc/net/vlan/" ++ name) w then (Ok "vlan", w)
    else if pathExists env self ("/sys/class/net/" ++ name ++ "/device") w then (Ok "physical", w)
    else if pathExists env self ("/sys/class/net/" ++ name ++ "/bonding") w then (Ok "bond", w)
    else
      match fault env (OpOVS self) w with
      | Some err => (Ret (ErrWrap "Failed to connect to OVS" err), w)
      | None => (Ok (if ovsBridgeExists env self name w then "bridge" else "unknown"), w)
      end.

Definition doNetworkGet (self : string) (r : Request) (allNodes : bool)
    (projectName : string) (reqProjectConfig : Config) (networkName : string)
  : M error ApiNetwork :=
  guardM (negb (String.prefix "veth" networkName)) notFound ;;
  do loaded <- attemptM (LoadByName self projectName networkName);
  do n <-
    match loaded with
    | Ok n => retM (Some n)
    | Ret err =>
        if StatusErrorCheck err StatusNotFound then retM None
        else failM (ErrWrap "Failed loading network" err)
    end;
  guardM (bool_decide (projectName = ProjectDefaultName) || bool_decide (is_Some n)) notFound ;;
  guardM (networkAllowed env reqProjectConfig networkName
            (match n with Some n => netManaged n | None => false end)) notFound ;;
  do osInfo <- (fun w => (Ok (InterfaceByName self networkName w), w));
  guardM (bool_decide (is_Some osInfo) || bool_decide (is_Some n)) notFound ;;
  do '(type, config) <-
    match n with
    | Some n =>
        do config <-
          (fun w => match checkPermission env r projectName networkName w with
                    | None => (Ok (netConfig n), w)
                    | Some err =>
                        if StatusErrorCheck err StatusForbidden then (Ok ∅, w)
                        else (Ret err, w)
                    end);
        retM (netType n, if allNodes then StripNodeSpecificNetworkConfig config else config)
    | None =>
        do type <- probeType self networkName osInfo;
        retM (type, ∅)
    end;
  do usedBy <-
    (if negb (String.eqb type "loopback") then
       do usedBy <-
         (fun w => (networkUsedBy env projectName
                      (match n with Some n => netID n | None => 0 end)
                      networkName type w, w));
       retM (filterUsedBy env r usedBy)
     else retM []);
  retM {| apiName := networkName;
          apiProject := projectName;
          apiManaged := bool_decide (is_Some n);
          apiType := type;
          apiDescription := match n with Some n => netDescription n | None => "" end;
          apiConfig := config;
          apiUsedBy := usedBy;
          apiStatus := (fun n => if allNodes then netStatus n else netLocalStatus n) <$> n;
          apiLocations := match n with Some n => netLocations n | None => [] end |}.

(** One turn of the loop of [networksGet] over the host interfaces. *)
Definition appendInterface (projectName : string) (networkNames : gmap string (list string))
    (iface : Interface) : gmap string (list string) :=
  if String.prefix "veth" (ifName iface) then networkNames
  else
    let names := default [] (networkNames !! projectName) in
    if Contains names (ifName iface) then networkNames
    else <[projectName := (names ++ [ifName iface])%list]> networkNames.

(** One turn of the inner loop of [networksGet] over the names of a
    project, on the two result lists. *)
Definition listEntry (self : string) (r : Request) (reqProject : Project)
    (mustLoadObjects : bool) (clauses : list string)
    (userHasPermission : string -> string -> bool) (projectName : string)
    (acc : list string * list ApiNetwork) (networkName : string)
  : M Response (list string * list ApiNetwork) :=
  if negb (userHasPermission projectName networkName) then retM acc
  else if mustLoadObjects then
    do got <- attemptM (doNetworkGet self r (serverClustered env) projectName
                          (projConfig reqProject) networkName);
    match got with
    | Ret _ => retM acc
    | Ok netInfo =>
        do matches <-
          (if negb (bool_decide (clauses = [])) then
             orReturn SmartError (liftM (filterMatch env netInfo clauses))
           else retM true);
        if matches then retM ((acc.1 ++ [networkLink networkName])%list, (acc.2 ++ [netInfo])%list)
        else retM acc
    end
  else if negb (networkAllowed env (projConfig reqProject) networkName true) then retM acc
  else retM ((acc.1 ++ [networkLink networkName])%list, acc.2).

(** The candidate names of [networksGet], per project, before the
    permission check.  The projects of the map are walked in the order of
    [map_to_list]; Go leaves the order of a [range] over a map open. *)
Definition networksGetNames (self : string) (r : Request) (projectName : string)
  : M Response (gmap string (list string)) :=
  do networkNames <-
    orReturn SmartError
      (Transaction
         (if reqAllProjects r then GetNetworksAllProjects
          else
            do networks <- GetNetworks projectName;
            retM {[projectName := networks]}));
  if decide (projectName = ProjectDefaultName) then
    do ifaces <- orReturn InternalError (fun w => (interfaces env self w, w));
    retM (foldl (appendInterface projectName) networkNames ifaces)
  else retM networkNames.

Definition networksGet (self : string) (r : Request) : World -> Response * World :=
  handle
    (do '(projectName, reqProject) <- requestProject r;
     let recursion := reqRecursion r in
     do clauses <- orReturn (fun e => BadRequest (ErrWrap "Invalid filter" e)) (liftM (reqFilter r));
     let mustLoadObjects := recursion || negb (bool_decide (clauses = [])) in
     do networkNames <- networksGetNames self r projectName;
     do userHasPermission <-
       orReturn InternalError (fun w => (permissionChecker env r w, w));
     do results <-
       foldM (fun acc (entry : string * list string) =>
                foldM (listEntry self r reqProject mustLoadObjects clauses userHasPermission
                         entry.1) entry.2 acc)
         (map_to_list networkNames) ([], []);
     if negb recursion then retM (SyncResponseLinks results.1)
     else retM (SyncResponseNetworks results.2)).

(** ** Get one network ([GET /1.0/networks/{name}]) *)

(** [networkGet] on the member that serves the request.  The run goes on
    with the network and the value of its entity tag, the two arguments of
    [response.SyncResponseETag]. *)
Definition networkGetLocal (self : string) (r : Request) : M Response (ApiNetwork * Etag) :=
  do '(projectName, reqProject) <- requestProject r;
  do networkName <- requestNetworkName r;
  let allNodes := serverClustered env && String.eqb (reqTarget r) "" in
  do n <- orReturn SmartError
            (doNetworkGet self r allNodes projectName
               (projConfig reqProject) networkName);
  retM (n, {| etagName := apiName n; etagManaged := apiManaged n; etagType := apiType n;
              etagDescription := apiDescription n; etagConfig := apiConfig n |}).

(** [networkGet]: a request with a target is served by that member. *)
Definition networkGet (self : string) (r : Request) : M Response (ApiNetwork * Etag) :=
  match forwardedResponseIfTargetIsRemote self r with
  | ServeHere => networkGetLocal self r
  | ForwardTo member => networkGetLocal member r
  | ForwardFailed resp => failM resp
  end.

(** ** Startup engine *)

Definition networkPriorityStandalone : nat := 0.
Definition networkPriorityPhysical : nat := 1.
Definition networkPriorityLogical : nat := 2.

(** [delete(initNetworks[priority], pn)]. *)
Definition bucketDelete (priority : nat) (pn : string * string)
    (initNetworks : list (gset (string * string))) : list (gset (string * string)) :=
  alter (fun bucket => bucket ∖ {[pn]}) priority initNetworks.

(** [initNetworks[priority][pn] = struct{}{}]. *)
Definition bucketAdd (priority : nat) (pn : string * string)
    (initNetworks : list (gset (string * string))) : list (gset (string * string)) :=
  alter (fun bucket => {[pn]} ∪ bucket) priority initNetworks.

(** The closures of [networkStartup] take and give back the buckets they
    share; a closure that returns an error leaves them as they were. *)
Definition initNetwork (n : Network) (priority : nat)
    (initNetworks : list (gset (string * string))) : M error (list (gset (string * string))) :=
  do started <- attemptM (driverCall n DrvStart);
  match started with
  | Ret e =>
      let err := ErrWrap "Failed starting" e in
      ignoreM (Transaction (UpsertWarningLocalNode (netMember n) (netProject n) (netID n) err)) ;;
      failM err
  | Ok _ =>
      (* Initialized: the entry is removed so that it is not retried. *)
      let initNetworks := bucketDelete priority (netProject n, netName n) initNetworks in
      ignoreM (ResolveWarnings (netMember n) (netProject n) (netID n)) ;;
      retM initNetworks
  end.

Definition loadAndInitNetwork (self : string) (loadedNetworks : gmap (string * string) Network)
    (pn : string * string) (priority : nat) (firstPass : bool)
    (initNetworks : list (gset (string * string))) : M error (list (gset (string * string))) :=
  do loaded <-
    match (if firstPass then loadedNetworks !! pn else None) with
    | Some n => retM (Some n)
    | None =>
        do got <- attemptM (LoadByName self pn.1 pn.2);
        match got with
        | Ok n => retM (Some n)
        | Ret err =>
            if StatusErrorCheck err StatusNotFound then retM None
            else failM (ErrWrap "Failed loading" err)
        end
    end;
  match loaded with
  | None =>
      (* Deleted since the listing: the entry is dropped. *)
      retM (bucketDelete priority pn initNetworks)
  | Some n =>
      let netConfig := netConfig n in
      orReturn (ErrWrap "Failed validating") (driverCall n (DrvValidate netConfig)) ;;
      if negb (String.eqb (cfg_get netConfig "parent") "") &&
         negb (Nat.eqb priority networkPriorityPhysical)
      then
        retM (bucketAdd networkPriorityPhysical pn (bucketDelete priority pn initNetworks))
      else if negb (String.eqb (cfg_get netConfig "network") "") &&
              negb (Nat.eqb priority networkPriorityLogical)
      then
        retM (bucketAdd networkPriorityLogical pn (bucketDelete priority pn initNetworks))
      else initNetwork n priority initNetworks
  end.

(** [for pn := range initNetworks[priority]]: the entries of the bucket as
    they are when the loop starts, in the order of [elements] (Go leaves the
    order open); the flag tells whether some call returned nil. *)
Fixpoint initEntries (self : string) (loadedNetworks : gmap (string * string) Network)
    (firstPass : bool) (priority : nat) (pns : list (string * string))
    (st : list (gset (string * string)) * bool) (w : World)
  : list (gset (string * string)) * bool * World :=
  match pns with
  | [] => (st, w)
  | pn :: rest =>
      match loadAndInitNetwork self loadedNetworks pn priority firstPass st.1 w with
      | (Ok initNetworks, w1) =>
          initEntries self loadedNetworks firstPass priority rest (initNetworks, true) w1
      | (Ret _, w1) =>
          initEntries self loadedNetworks firstPass priority rest st w1
      end
  end.

(** [for priority := range initNetworks]. *)
Fixpoint initPriorities (self : string) (loadedNetworks : gmap (string * string) Network)
    (firstPass : bool) (priorities : list nat)
    (st : list (gset (string * string)) * bool) (w : World)
  : list (gset (string * string)) * bool * World :=
  match priorities with
  | [] => (st, w)
  | priority :: rest =>
      let r := initEntries self loadedNetworks firstPass priority
                 (elements (st.1 !!! priority)) st w in
      initPriorities self loadedNetworks firstPass rest r.1 r.2
  end.

(** One pass over the buckets in priority order: the loop that
    [networkStartup] runs once at start and then once per tick. *)
Definition initPass (self : string) (loadedNetworks : gmap (string * string) Network)
    (firstPass : bool) (initNetworks : list (gset (string * string))) (w : World)
  : list (gset (string * string)) * bool * World :=
  initPriorities self loadedNetworks firstPass (seq 0 (length initNetworks))
    (initNetworks, false) w.

Definition remainingNetworks (initNetworks : list (gset (string * string))) : nat :=
  foldr (fun bucket n => (size bucket + n)%nat) 0%nat initNetworks.

(** [networkStartup] up to the end of the first pass; it yields the buckets
    that are left to the background routine.  The cache of loaded networks is
    never filled. *)
Definition networkStartup (self : string) : M error (list (gset (string * string))) :=
  do projects <- orReturn (ErrWrap "Failed to load projects") (Transaction GetProjectNames);
  do initNetworks <-
    Transaction
      (foldM (fun initNetworks projectName =>
                do networkNames <-
                  orReturn (ErrWrap "Failed to load networks for project")
                    (GetCreatedNetworkNamesByProject projectName);
                retM (foldl (fun initNetworks networkName =>
                               bucketAdd networkPriorityStandalone (projectName, networkName)
                                 initNetworks)
                        initNetworks networkNames))
         projects [∅; ∅; ∅]);
  fun w =>
    let r := initPass self ∅ true initNetworks w in
    (Ok r.1.1, r.2).

(** One tick of the background routine. *)
Definition retryTick (self : string) (initNetworks : list (gset (string * string))) (w : World)
  : list (gset (string * string)) * World :=
  let r := initPass self ∅ false initNetworks w in
  let w1 :=
    if r.1.2 then
      match fault env (OpLoadNodeAll self) r.2 with
      | Some _ => r.2
      | None => emit (EvInstancesStart self) r.2
      end
    else r.2 in
  (r.1.1, w1).

(** The background routine, for as many ticks as the timer fires before the
    shutdown. *)
Fixpoint retryLoop (self : string) (ticks : nat) (initNetworks : list (gset (string * string)))
    (w : World) : list (gset (string * string)) * World :=
  match ticks with
  | O => (initNetworks, w)
  | S ticks =>
      let r := retryTick self initNetworks w in
      if Nat.leb (remainingNetworks r.1) 0 then r
      else retryLoop self ticks r.1 r.2
  end.

(** ** Shutdown and restart *)

(** [networkShutdown]: every error is logged and the sweep goes on. *)
Definition networkShutdown (self : string) : M error unit :=
  do got <- attemptM (Transaction GetProjectNames);
  match got with
  | Ret _ => retM tt
  | Ok projectNames =>
      forEachM projectNames
        (fun projectName =>
           do got <- attemptM (Transaction (GetNetworks projectName));
           match got with
           | Ret _ => retM tt
           | Ok networks =>
               forEachM networks
                 (fun name =>
                    do loaded <- attemptM (LoadByName self projectName name);
                    match loaded with
                    | Ret _ => retM tt
                    | Ok n => ignoreM (driverCall n DrvStop)
                    end)
           end)
  end.

(** [n.DBType()] and [db.NetworkTypeOVN] (packages network and db, not part
    of this file): the type of a network as the catalog numbers it. *)
Variable DBType : Network -> Z.
Variable NetworkTypeOVN : Z.

(** [networkRestartOVN]: the first error ends the sweep. *)
Definition networkRestartOVN (self : string) : M error unit :=
  do projectNames <-
    orReturn (ErrWrap "Failed to load projects") (Transaction GetProjectNames);
  forEachM projectNames
    (fun projectName =>
       do networkNames <-
         orReturn (ErrWrap "Failed to load networks for project")
           (Transaction (GetCreatedNetworkNamesByProject projectName));
       forEachM networkNames
         (fun networkName =>
            do n <- orReturn (ErrWrap "Failed to load network")
                      (LoadByName self projectName networkName);
            if negb (Z.eqb (DBType n) NetworkTypeOVN) then retM tt
            else orReturn (ErrWrap "Failed to restart network") (driverCall n DrvStart))).

End Controller.

(** ** Sample data *)

(** An environment whose collaborators succeed, but for what the
    parameters say. *)
Definition sampleEnv (nodes : list string) (clustered : bool)
    (drv : Network -> DriverCall -> World -> option error) (inUse : bool)
    (ifaces : list Interface) (checker : string -> string -> bool) : Env :=
  {| members := nodes;
     serverClustered := clustered;
     fault := fun _ _ => None;
     networkProject := fun _ _ =>
       Ok (ProjectDefaultName, {| projName := ProjectDefaultName; projConfig := ∅ |});
     networkAllowed := fun _ _ _ => true;
     projectNames := fun _ => [ProjectDefaultName];
     loadByType := fun _ => Ok {| tiProjects := true; tiNodeSpecificConfig := true |};
     validateName := fun _ _ => None;
     fillConfig := fun _ c => Ok c;
     driver := drv;
     driverIsUsed := fun _ _ _ => Ok inUse;
     networkUsedBy := fun _ _ _ _ _ => Ok [];
     interfaces := fun _ _ => Ok ifaces;
     pathExists := fun _ _ _ => false;
     ovsBridgeExists := fun _ _ _ => false;
     permissionChecker := fun _ _ => Ok checker;
     checkPermission := fun _ _ _ _ => None;
     filterUsedBy := fun _ l => l;
     etagCheck := fun _ _ => None;
     filterMatch := fun _ _ => Ok true |}.

Definition quietDriver (n : Network) (call : DriverCall) (w : World) : option error := None.

Definition allowAll (project name : string) : bool := true.

Definition singleEnv : Env := sampleEnv ["a"] false quietDriver false [] allowAll.

Definition clusterEnv : Env := sampleEnv ["a"; "b"; "c"] true quietDriver false [] allowAll.

(** The member-specific keys of the samples. *)
Definition sampleNodeSpecific (key : string) : bool :=
  String.eqb key "parent" || String.eqb key "bridge.external_interfaces".

Definition sampleRequest (method : Method) (target : string) (clientType : ClientType)
    (name : string) (body : Body) : Request :=
  {| reqMethod := method; reqProjectParam := ""; reqTarget := target;
     reqAllProjects := false; reqRecursion := false; reqFilter := Ok [];
     reqClientType := clientType; reqNetworkName := Ok name; reqBody := body |}.

(** A network defined on the three members, each with its own parent. *)
Definition definedNodes (st : NetworkStatus) : gmap string NodeRow :=
  {[ "a" := {| nodeStatus := st; nodeConfig := {[ "parent" := "eth0" ]} |};
     "b" := {| nodeStatus := st; nodeConfig := {[ "parent" := "eth1" ]} |};
     "c" := {| nodeStatus := st; nodeConfig := {[ "parent" := "eth2" ]} |} ]}.

Definition pendingRow : NetRow :=
  {| rowID := 1; rowType := "physical"; rowDescription := "";
     rowStatus := NetworkStatusPending; rowConfig := ∅;
     rowNodes := definedNodes NetworkStatusPending |}.

Definition erroredRow : NetRow :=
  {| rowID := 1; rowType := "physical"; rowDescription := "";
     rowStatus := NetworkStatusErrored; rowConfig := {[ "mtu" := "9000" ]};
     rowNodes := definedNodes NetworkStatusPending |}.

Definition worldOf (row : NetRow) : World :=
  {| catalog := {[ ("default", "n1") := row ]}; trace := [] |}.

Definition commitRequest (cfg : Config) : NetworksPost :=
  {| postName := "n1"; postType := "physical"; postDescription := ""; postConfig := cfg |}.

Definition createdRow : NetRow :=
  {| rowID := 1; rowType := "physical"; rowDescription := "";
     rowStatus := NetworkStatusCreated; rowConfig := {[ "mtu" := "9000" ]};
     rowNodes := definedNodes NetworkStatusCreated |}.

(** A created network that names both a parent and an uplink network. *)
Definition dependentRow : NetRow :=
  {| rowID := 1; rowType := "physical"; rowDescription := "";
     rowStatus := NetworkStatusCreated; rowConfig := {[ "network" := "uplink" ]};
     rowNodes := definedNodes NetworkStatusCreated |}.

Definition putBody (cfg : Config) : Body :=
  BodyNetworkPut {| putDescription := ""; putConfig := cfg |}.

(** A driver that rejects every config, and one that fails every update. *)
Definition rejectingDriver (n : Network) (call : DriverCall) (w : World) : option error :=
  match call with
  | DrvValidate _ => Some (ErrNew "Invalid value for network option")
  | _ => None
  end.

Definition failingUpdateDriver (n : Network) (call : DriverCall) (w : World) : option error :=
  match call with
  | DrvUpdate _ _ _ => Some (ErrNew "Failed to apply the configuration")
  | _ => None
  end.

(** A host with a physical interface and one end of a veth pair, and a
    caller who may view the managed network only. *)
Definition hostInterfaces : list Interface :=
  [{| ifName := "eth0"; ifLoopback := false |};
   {| ifName := "veth1a2b"; ifLoopback := false |}].

Definition managedOnly (project name : string) : bool := String.eqb name "n1".

Definition restrictedEnv : Env := sampleEnv ["a"] false quietDriver false hostInterfaces managedOnly.

Definition hostEnv : Env := sampleEnv ["a"] false quietDriver false hostInterfaces allowAll.

Definition usedEnv : Env := sampleEnv ["a"] false quietDriver true [] allowAll.

Definition listRequest : Request := sampleRequest MethodGet "" ClientTypeNormal "" BodyMalformed.

(** A network whose config has a key that only begins like the ACL keys. *)
Definition aclRow : NetRow :=
  {| rowID := 1; rowType := "bridge"; rowDescription := "";
     rowStatus := NetworkStatusPending;
     rowConfig := {[ "security.acls" := "web"; "security.acls.default.egress.action" := "drop";
                     "security.aclsx" := "v" ]};
     rowNodes := definedNodes NetworkStatusPending |}.

(** A driver that cannot start the network on one member. *)
Definition startFailsOn (member : string) (n : Network) (call : DriverCall) (w : World)
  : option error :=
  match call with
  | DrvStart => if String.eqb (netMember n) member then Some (ErrNew "Failed to start") else None
  | _ => None
  end.

Definition brokenEnv : Env := sampleEnv ["a"; "b"; "c"] true (startFailsOn "b") false [] allowAll.

Definition createRequest (cfg : Config) : Request :=
  sampleRequest MethodPost "" ClientTypeNormal "" (BodyNetworksPost (commitRequest cfg)).

(** Two projects that each have a network of the same name. *)
Definition twoProjects : World :=
  {| catalog := {[ ("default", "n1") := createdRow; ("blue", "n1") := createdRow ]};
     trace := [] |}.

Definition allProjectsRequest : Request :=
  {| reqMethod := MethodGet; reqProjectParam := ""; reqTarget := "";
     reqAllProjects := true; reqRecursion := false; reqFilter := Ok [];
     reqClientType := ClientTypeNormal; reqNetworkName := Ok ""; reqBody := BodyMalformed |}.

(** An environment that differs from [base] in the project it resolves, in
    the access check on one network and in the check of the entity tag. *)
Definition variantEnv (base : Env)
    (project : string -> World -> result (string * Project))
    (permission : Request -> string -> string -> World -> option error)
    (etag : Request -> Etag -> option error) : Env :=
  {| members := members base;
     serverClustered := serverClustered base;
     fault := fault base;
     networkProject := project;
     networkAllowed := networkAllowed base;
     projectNames := projectNames base;
     loadByType := loadByType base;
     validateName := validateName base;
     fillConfig := fillConfig base;
     driver := driver base;
     driverIsUsed := driverIsUsed base;
     networkUsedBy := networkUsedBy base;
     interfaces := interfaces base;
     pathExists := pathExists base;
     ovsBridgeExists := ovsBridgeExists base;
     permissionChecker := permissionChecker base;
     checkPermission := permission;
     filterUsedBy := filterUsedBy base;
     etagCheck := etag;
     filterMatch := filterMatch base |}.

(** A client whose entity tag is out of date. *)
Definition staleEnv : Env :=
  variantEnv clusterEnv (networkProject clusterEnv) (checkPermission clusterEnv)
    (fun _ _ => Some (ErrNew "ETag doesn't match")).

(** A caller who may view the network but not edit it. *)
Definition viewerEnv : Env :=
  variantEnv clusterEnv (networkProject clusterEnv)
    (fun _ _ _ _ => Some (ErrStatus 403 "Forbidden")) (etagCheck clusterEnv).

(** A project with networks of its own, limited to one of them. *)
Definition blueProject : Project :=
  {| projName := "blue"; projConfig := {[ "limits.networks" := "1" ]} |}.

Definition limitedEnv : Env :=
  variantEnv singleEnv (fun _ _ => Ok ("blue", blueProject)) (checkPermission singleEnv)
    (etagCheck singleEnv).

Definition defaultProject : Project :=
  {| projName := ProjectDefaultName; projConfig := ∅ |}.

Definition getRequest (name : string) : Request :=
  sampleRequest MethodGet "" ClientTypeNormal name BodyMalformed.

Definition putRequest (cfg : Config) : Request :=
  sampleRequest MethodPut "" ClientTypeNormal "n1" (putBody cfg).

Definition deleteRequest (clientType : ClientType) : Request :=
  sampleRequest MethodDelete "" clientType "n1" BodyMalformed.

(** A driver that cannot create the network. *)
Definition failingCreateDriver (n : Network) (call : DriverCall) (w : World) : option error :=
  match call with
  | DrvCreate _ => Some (ErrNew "Failed to create the network")
  | _ => None
  end.

Definition failingCreateEnv : Env := sampleEnv ["a"] false failingCreateDriver false [] allowAll.

(** A server without networks. *)
Definition emptyWorld : World := {| catalog := ∅; trace := [] |}.

Definition notifiedCreate : Request :=
  sampleRequest MethodPost "" ClientTypeNotifier "" (BodyNetworksPost (commitRequest ∅)).

(** The buckets of the startup engine with one network that waits. *)
Definition oneWaiting : list (gset (string * string)) := [{[ ("default", "n1") ]}; ∅; ∅].

(** * Runs and what they leave behind *)

Local Open Scope list_scope.

(** The events that a run from [w] to [w'] added to the trace. *)
Definition since (w w' : World) : list Event := drop (length (trace w)) (trace w').

Definition extends (w w' : World) : Prop := trace w' = trace w ++ since w w'.

(** An event that records a failure. *)
Definition failed (e : Event) : bool :=
  match e with
  | EvTxRollback => true
  | EvFillConfig _ ok | EvDriver _ _ _ _ ok | EvPeerReturn _ ok => negb ok
  | _ => false
  end.

(** Does an early return with this value count as a success?  Never for an
    error; for a response, when it is not an error response. *)
Class Early (E : Type) := earlyOk : E -> bool.

#[global] Instance Early_error : Early error := fun _ => false.

#[global] Instance Early_Response : Early Response := fun r => negb (isErrorResponse r).

Definition wentWell {E A} `{Early E} (r : outcome E A) : bool :=
  match r with
  | Ok _ => true
  | Ret e => earlyOk e
  end.

(** A property of runs, told whether the run went well. *)
Definition Sat {E A} `{Early E} (R : bool -> World -> World -> Prop) (c : M E A) : Prop :=
  forall w, R (wentWell (c w).1) w (c w).2.

(** The same, for a run whose early return does not count as a failure of
    what runs it. *)
Definition SatWeak {E A} (R : bool -> World -> World -> Prop) (c : M E A) : Prop :=
  forall w, R false w (c w).2.

(** The properties of runs that survive sequencing. *)
Class Composable (R : bool -> World -> World -> Prop) : Prop := {
  comp_refl : forall b w, R b w w;
  comp_ok : forall b w w1 w2, R true w w1 -> R b w1 w2 -> R b w w2;
  comp_ret : forall b w w1 w2, R false w w1 -> R b w1 w2 -> R false w w2;
  comp_weaken : forall w w1, R true w w1 -> R false w w1
}.

(** A run that leaves the world as it was. *)
Definition Same (b : bool) (w w' : World) : Prop := w' = w.

(** A run that only adds events among [allowed], none of them a failure
    when the run went well. *)
Definition Emits (allowed : Event -> bool) (b : bool) (w w' : World) : Prop :=
  extends w w' /\
  Forall (fun e => allowed e = true) (since w w') /\
  (b = true -> Forall (fun e => failed e = false) (since w w')).

(** A run that keeps the global status of every record. *)
Definition KeepsStatus (b : bool) (w w' : World) : Prop :=
  forall k, rowStatus <$> catalog w' !! k = rowStatus <$> catalog w !! k.

(** What a run yields when it goes on. *)
Definition Yields {E A} (P : A -> Prop) (c : M E A) : Prop :=
  forall w a w', c w = (Ok a, w') -> P a.

(** The events that the actuation of a network on a member may leave: the
    calls into its driver, the local created marker in its transaction, and
    the traffic with the peers. *)
Definition actuationEvent (e : Event) : bool :=
  match e with
  | EvTxBegin | EvTxCommit | EvTxRollback => true
  | EvDb (DbNetworkNodeCreated _ _) => true
  | EvDriver _ _ _ _ _ => true
  | EvPeerCall _ _ | EvPeerReturn _ _ => true
  | _ => false
  end.

Definition isDriverOrPeer (e : Event) : bool :=
  match e with
  | EvDriver _ _ _ _ _ | EvPeerCall _ _ | EvPeerReturn _ _ => true
  | _ => false
  end.

Definition isValidate (e : Event) : bool :=
  match e with
  | EvDriver _ _ _ (DrvValidate _) _ => true
  | _ => false
  end.

Definition isStart (e : Event) : bool :=
  match e with
  | EvDriver _ _ _ DrvStart _ => true
  | _ => false
  end.

(** The defaulting and the insert of the global config. *)
Definition isGlobalConfigInsert (e : Event) : bool :=
  match e with
  | EvFillConfig _ _ | EvDb (DbCreateNetworkConfig _ _ _) => true
  | _ => false
  end.

Definition cfgFree (e : Event) : bool := negb (isGlobalConfigInsert e).

(** The config that [doNetworksCreate] hands to the driver's [Validate]. *)
Definition validateConfigOf (clientType : ClientType) (n : Network) : Config :=
  if decide (clientType = ClientTypeJoiner) then joinerValidateConfig (netConfig n)
  else netConfig n.

(** The events of a local actuation that goes well: the driver's
    [Validate]; then, on a member that has not created the network yet, its
    [Create], its [Start] unless the member is joining, and the committed
    created marker of the member. *)
Definition actuatedEvents (clientType : ClientType) (n : Network) : list Event :=
  let drv call := EvDriver (netMember n) (netProject n) (netName n) call true in
  drv (DrvValidate (validateConfigOf clientType n)) ::
  if decide (netLocalStatus n = NetworkStatusCreated) then []
  else drv (DrvCreate clientType) ::
       (if decide (clientType = ClientTypeJoiner) then [] else [drv DrvStart]) ++
       [EvTxBegin; EvDb (DbNetworkNodeCreated (netMember n) (netID n)); EvTxCommit].

(** The record after the first transaction of a create on the fresh path:
    the global config is there and the global status is errored. *)
Definition definedRow (cfg : Config) (row : NetRow) : NetRow :=
  setStatus NetworkStatusErrored (addGlobalConfig cfg row).

(** The local status of a record on a member. *)
Definition localStatus (project name member : string) (w : World) : option NetworkStatus :=
  catalog w !! (project, name) ≫= fun row => nodeStatus <$> rowNodes row !! member.

(** The trace of the transaction that inserts the global config and sets
    the errored marker. *)
Definition defineEvents (type : string) (id : Z) (cfg : Config) (project name : string)
  : list Event :=
  [EvTxBegin; EvFillConfig type true; EvDb (DbCreateNetworkConfig id 0 cfg);
   EvDb (DbNetworkErrored project name); EvTxCommit].

(** The trace of the transaction that sets the created marker. *)
Definition createdEvents (project name : string) (committed : bool) : list Event :=
  [EvTxBegin; EvDb (DbNetworkCreated project name);
   if committed then EvTxCommit else EvTxRollback].

(** The global status of a record. *)
Definition globalStatus (project name : string) (w : World) : option NetworkStatus :=
  rowStatus <$> catalog w !! (project, name).

(** The links of the networks that a list response names. *)
Definition listedLinks (resp : Response) : list string :=
  match resp with
  | SyncResponseLinks links => links
  | SyncResponseNetworks networks => (fun info => networkLink (apiName info)) <$> networks
  | _ => []
  end.

(** A key of the request whose value differs from the current one, where a
    key that the current config lacks has the empty value. *)
Definition changedKey (n : Network) (req : NetworkPut) (k : string) : Prop :=
  exists v, putConfig req !! k = Some v /\ cfg_get (netConfig n) k <> v.

Ltac runM :=
  cbv beta iota zeta delta [handle bindM orReturn guardM retM failM liftM attemptM ignoreM
    respondM emitM requestProject requestNetworkName IsUsed readM faultM fst snd].

Ltac trace_eq := cbn; rewrite <- ?app_assoc; reflexivity.

(** ** More properties of runs *)

(** A run that leaves the catalog as it was. *)
Definition KeepsCatalog (b : bool) (w w' : World) : Prop := catalog w' = catalog w.

(** A run that only adds events among [allowed], however it ends. *)
Definition Within (allowed : Event -> bool) (b : bool) (w w' : World) : Prop :=
  extends w w' /\ Forall (fun e => allowed e = true) (since w w').

(** The properties of runs that do not depend on how the run ends. *)
Class Unconditional (R : bool -> World -> World -> Prop) : Prop :=
  unconditional : forall b b' w w', R b w w' -> R b' w w'.

(** A call of the driver's [Update]. *)
Definition isUpdate (e : Event) : bool :=
  match e with
  | EvDriver _ _ _ (DrvUpdate _ _ _) _ => true
  | _ => false
  end.

(** The value that [networkPut] computes the entity tag over. *)
Definition putEtag (clustered : bool) (IsNS : string -> bool) (target : string) (n : Network) : Etag :=
  {| etagName := netName n; etagManaged := netManaged n; etagType := netType n;
     etagDescription := netDescription n;
     etagConfig := if String.eqb target "" && clustered
                   then StripNodeSpecificNetworkConfig IsNS (netConfig n)
                   else netConfig n |}.

(** A call of the driver's [Delete] on [member]. *)
Definition isDeleteOn (member : string) (e : Event) : bool :=
  match e with
  | EvDriver m _ _ (DrvDelete _) _ => bool_decide (m = member)
  | _ => false
  end.

(** A call into the driver of [member]. *)
Definition isDriverOn (member : string) (e : Event) : bool :=
  match e with
  | EvDriver m _ _ _ _ => bool_decide (m = member)
  | _ => false
  end.

(** The events that the delete of a network on a peer leaves in the trace
    of the member that asked for it. *)
Definition peerDeleteEvent (self : string) (e : Event) : bool :=
  match e with
  | EvPeerCall peer _ | EvPeerReturn peer _ => negb (bool_decide (peer = self))
  | EvDriver m _ _ (DrvDelete _) _ => negb (bool_decide (m = self))
  | _ => false
  end.

(** The authorizer entry or the lifecycle event of a change. *)
Definition isAnnouncement (e : Event) : bool :=
  match e with
  | EvLifecycle _ _ _ | EvAuthorizer _ _ => true
  | _ => false
  end.

(** The checks that a rename has passed when it reaches the driver. *)
Definition renameChecked (env : Env) (self : string) (r : Request) (w : World)
    (projectName networkName newName : string) : Prop :=
  serverClustered env = false /\
  exists reqProject row,
    networkProject env (reqProjectParam r) w = Ok (projectName, reqProject) /\
    reqNetworkName r = Ok networkName /\
    decodeNetworkPost r = Ok newName /\
    catalog w !! (projectName, networkName) = Some row /\
    networkAllowed env (projConfig reqProject) networkName true = true /\
    rowStatus row = NetworkStatusCreated /\
    newName <> "" /\
    validateName env (rowType row) newName = None /\
    driverIsUsed env (viewRow self projectName networkName row) false w = Ok false /\
    catalog w !! (projectName, newName) = None.

(** A call of the driver's [Delete]. *)
Definition isDelete (e : Event) : bool :=
  match e with
  | EvDriver _ _ _ (DrvDelete _) _ => true
  | _ => false
  end.

(** The networks left to start, by priority. *)
Abbreviation Buckets := (list (gset (string * string))).

(** A call of the driver's [Start] for the network [pn]. *)
Definition isStartOf (pn : string * string) (e : Event) : bool :=
  match e with
  | EvDriver _ project name DrvStart _ => bool_decide ((project, name) = pn)
  | _ => false
  end.

(** The networks that are left to start. *)
Definition waiting (initNetworks : Buckets) (pn : string * string) : Prop :=
  exists i, pn ∈ initNetworks !!! i.

(** The events that a visit of the startup engine to the network [pn]
    leaves: the driver's [Validate] and [Start] for that network on the
    member, and the transaction that raises or resolves its warning. *)
Definition visitEvent (self : string) (pn : string * string) (e : Event) : bool :=
  match e with
  | EvTxBegin | EvTxCommit | EvTxRollback => true
  | EvDb (DbUpsertWarning member project _ _) | EvDb (DbResolveWarning member project _) =>
      bool_decide (member = self) && bool_decide (project = pn.1)
  | EvDriver member project name (DrvValidate _) _ | EvDriver member project name DrvStart _ =>
      bool_decide (member = self) && bool_decide ((project, name) = pn)
  | _ => false
  end.

(** What the startup engine keeps true of a network that names both a
    parent and an uplink network. *)
Definition stuck (self : string) (pn : string * string) (w : World)
    (initNetworks : Buckets) (w' : World) : Prop :=
  catalog w' = catalog w /\ length initNetworks = 3%nat /\ waiting initNetworks pn /\
  extends w w' /\ Forall (fun e => isStartOf pn e = false) (since w w').

(** The events of a shutdown: transactions that read, and the driver's
    [Stop] on the member. *)
Definition shutdownEvent (self : string) (e : Event) : bool :=
  match e with
  | EvTxBegin | EvTxCommit | EvTxRollback => true
  | EvDriver member _ _ DrvStop _ => bool_decide (member = self)
  | _ => false
  end.

(** A sequence of events in which only the last one may be a failure. *)
Definition stopsAtFailure (ok : bool) (events : list Event) : Prop :=
  if ok then Forall (fun e => failed e = false) events
  else exists pre post,
         events = pre ++ post /\ Forall (fun e => failed e = false) pre /\
         (length post <= 1)%nat.

(** The events of a restart of the overlay networks, over the catalog of
    [w]: transactions that read, and the driver's [Start] on the member for
    a created network of the overlay type. *)
Definition restartEvent (DBType : Network -> Z) (NetworkTypeOVN : Z) (self : string)
    (w : World) (e : Event) : bool :=
  match e with
  | EvTxBegin | EvTxCommit | EvTxRollback => true
  | EvDriver member project name DrvStart _ =>
      bool_decide (member = self) &&
      match catalog w !! (project, name) with
      | Some row =>
          bool_decide (rowStatus row = NetworkStatusCreated) &&
          Z.eqb (DBType (viewRow self project name row)) NetworkTypeOVN
      | None => false
      end
  | _ => false
  end.

(** What a part of the restart keeps: the catalog, events of the restart
    only, and a stop at the first failure. *)
Definition restarts (DBType : Network -> Z) (NetworkTypeOVN : Z) (self : string)
    (w : World) (b : bool) (w0 w' : World) : Prop :=
  catalog w0 = catalog w ->
  catalog w' = catalog w /\ extends w0 w' /\
  Forall (fun e => restartEvent DBType NetworkTypeOVN self w e = true) (since w0 w') /\
  stopsAtFailure b (since w0 w').

(** The type that a create request without a type gets. *)
Definition defaultedType (projectName : string) (req : NetworksPost) : string :=
  if String.eqb (postType req) "" then
    if decide (projectName = ProjectDefaultName) then "bridge" else "ovn"
  else postType req.

(** The number of networks of a project. *)
Definition projectNetworks (projectName : string) (c : Catalog) : list string :=
  networkNamesOf (fun p _ => bool_decide (p = projectName)) c.

(** What the actuation of a network on [member] itself may leave: the calls
    into the driver of the member and its local created marker. *)
Definition localActuation (member : string) (e : Event) : bool :=
  match e with
  | EvTxBegin | EvTxCommit | EvTxRollback => true
  | EvDb (DbNetworkNodeCreated m _) => bool_decide (m = member)
  | EvDriver m _ _ _ _ => bool_decide (m = member)
  | _ => false
  end.

(** The record that a create on a server that is not clustered inserts. *)
Definition standaloneRow (IsNodeSpecificNetworkConfig : string -> bool)
    (self : string) (id : Z) (type description : string) (cfg : Config) : NetRow :=
  {| rowID := id; rowType := type; rowDescription := description;
     rowStatus := NetworkStatusCreated;
     rowConfig := StripNodeSpecificNetworkConfig IsNodeSpecificNetworkConfig cfg;
     rowNodes :=
       {[self := pendingNode (filter (fun kv : string * string =>
                                        IsNodeSpecificNetworkConfig kv.1 = true) cfg)]} |}.

(** * Properties *)

(** ** Loops over a config *)

(** [anyKey] holds when some key of the config satisfies the test. *)
Lemma anyKey_true (p : string -> bool) (c : Config) :
  anyKey p c = true <-> exists k v, c !! k = Some v /\ p k = true.
Proof.
  unfold anyKey. rewrite existsb_exists. split.
  - intros [[k v] [Hin Hp]]. exists k, v. split; [|done].
    apply elem_of_map_to_list. by apply list_elem_of_In.
  - intros (k & v & Hl & Hp). exists (k, v). split; [|done].
    apply list_elem_of_In. by apply elem_of_map_to_list.
Qed.

(** [anyKey] fails when no key of the config satisfies the test. *)
Lemma anyKey_false (p : string -> bool) (c : Config) :
  anyKey p c = false <-> forall k v, c !! k = Some v -> p k = false.
Proof.
  split.
  - intros Hn k v Hl. destruct (p k) eqn:Hp; [|done].
    assert (anyKey p c = true) as Ht by (apply anyKey_true; eauto). congruence.
  - intros Hall. destruct (anyKey p c) eqn:Ha; [|done].
    apply anyKey_true in Ha as (k & v & Hl & Hp). rewrite (Hall k v Hl) in Hp. done.
Qed.

(** The joiner's config keeps the keys that are not ACL keys, with their
    values. *)
Lemma joinerValidateConfig_lookup (c : Config) (k : string) :
  joinerValidateConfig c !! k = if isACLKey k then None else c !! k.
Proof.
  unfold joinerValidateConfig.
  apply (map_fold_weak_ind (fun acc m => acc !! k = if isACLKey k then None else m !! k)).
  - rewrite lookup_empty. by destruct (isACLKey k).
  - intros i x m acc Hi IH. destruct (isACLKey i) eqn:Hacl.
    + rewrite IH. destruct (decide (i = k)) as [->|Hne].
      * by rewrite Hacl.
      * by rewrite lookup_insert_ne.
    + destruct (decide (i = k)) as [->|Hne].
      * rewrite !lookup_insert_eq. by rewrite Hacl.
      * rewrite !lookup_insert_ne by done. done.
Qed.

(** The changed config holds the keys of the request whose value differs from
    the current one. *)
Lemma changedConfig_lookup (cur req : Config) (k : string) :
  changedConfig cur req !! k =
    match req !! k with
    | Some v => if String.eqb (cfg_get cur k) v then None else Some v
    | None => None
    end.
Proof.
  unfold changedConfig.
  apply (map_fold_weak_ind (fun acc m => acc !! k = match m !! k with
    | Some v => if String.eqb (cfg_get cur k) v then None else Some v
    | None => None end)).
  - by rewrite !lookup_empty.
  - intros i x m acc Hi IH. destruct (decide (i = k)) as [->|Hne].
    + rewrite lookup_insert_eq. destruct (String.eqb (cfg_get cur k) x) eqn:E.
      * rewrite IH, Hi. done.
      * by rewrite lookup_insert_eq.
    + rewrite (lookup_insert_ne m) by done. destruct (String.eqb (cfg_get cur i) x).
      * done.
      * by rewrite lookup_insert_ne.
Qed.

(** Appending to a string that starts with a character. *)
Lemma append_cons (a : ascii) (p t : string) : String a p +:+ t = String a (p +:+ t).
Proof. reflexivity. Qed.

(** [String.prefix] is the prefix relation of concatenation. *)
Lemma prefix_app (p s : string) :
  String.prefix p s = true <-> exists t, s = p +:+ t.
Proof.
  revert s. induction p as [|a p IH]; intros s.
  - destruct s; simpl; (split; [intros _; by eexists | done]).
  - destruct s as [|b s]; simpl.
    + split; [done | intros [t Ht]; by rewrite append_cons in Ht].
    + setoid_rewrite append_cons. destruct (Ascii.ascii_dec a b) as [->|Hne].
      * rewrite IH. split; intros [t Ht]; exists t; congruence.
      * split; [done | intros [t Ht]; congruence].
Qed.

(** The ACL keys are [security.acls] and the keys below it. *)
Lemma isACLKey_spec (k : string) :
  isACLKey k = true <-> k = "security.acls" \/ exists t, k = "security.acls." +:+ t.
Proof.
  unfold isACLKey. rewrite orb_true_iff, String.eqb_eq, prefix_app. done.
Qed.

(** ** Composition of runs *)

(** Nothing happened since now. *)
Lemma since_refl (w : World) : since w w = [].
Proof. unfold since. by rewrite drop_all. Qed.

(** The events of a run, read off its trace. *)
Lemma since_app (w w' : World) (l : list Event) :
  trace w' = trace w ++ l -> since w w' = l.
Proof. intros H. unfold since. rewrite H. by rewrite drop_app_length. Qed.

(** A run that appends to the trace extends it. *)
Lemma extends_intro (w w' : World) (l : list Event) :
  trace w' = trace w ++ l -> extends w w'.
Proof. intros H. unfold extends. by rewrite (since_app _ _ _ H). Qed.

(** The events of two runs in sequence. *)
Lemma since_trans (w w1 w2 : World) :
  extends w w1 -> extends w1 w2 ->
  extends w w2 /\ since w w2 = since w w1 ++ since w1 w2.
Proof.
  intros H1 H2.
  assert (trace w2 = trace w ++ (since w w1 ++ since w1 w2)) as H.
  { unfold extends in H1, H2. rewrite H2. rewrite H1 at 1. by rewrite <- app_assoc. }
  split; [by eapply extends_intro | by apply since_app].
Qed.

#[global] Instance Same_composable : Composable Same.
Proof. split; unfold Same; intros; congruence. Qed.

#[global] Instance Emits_composable (allowed : Event -> bool) : Composable (Emits allowed).
Proof.
  split.
  - intros b w. unfold Emits. rewrite since_refl. split; [|by split].
    apply (extends_intro _ _ []). by rewrite app_nil_r.
  - intros b w w1 w2 (E1 & A1 & C1) (E2 & A2 & C2).
    unfold Emits. destruct (since_trans _ _ _ E1 E2) as [E ->].
    split; [done|]. split; [by apply Forall_app|].
    intros Hb. apply Forall_app. auto.
  - intros b w w1 w2 (E1 & A1 & C1) (E2 & A2 & C2).
    unfold Emits. destruct (since_trans _ _ _ E1 E2) as [E ->].
    split; [done|]. split; [by apply Forall_app|done].
  - intros w w1 (E1 & A1 & C1). by split.
Qed.

#[global] Instance KeepsStatus_composable : Composable KeepsStatus.
Proof.
  split; unfold KeepsStatus.
  - done.
  - intros b w w1 w2 H1 H2 k. by rewrite H2.
  - intros b w w1 w2 H1 H2 k. by rewrite H2.
  - done.
Qed.

Section Closure.
Context {R : bool -> World -> World -> Prop} `{!Composable R}.

(** The closure of the properties under the combinators of [M]. *)
Lemma Sat_ret {E A} `{Early E} (a : A) : Sat R (retM (E:=E) a).
Proof. intros w. apply comp_refl. Qed.

Lemma Sat_fail {E A} `{Early E} (e : E) : Sat R (failM (A:=A) e).
Proof. intros w. apply comp_refl. Qed.

Lemma Sat_lift {E A} `{Early E} (r : outcome E A) : Sat R (liftM r).
Proof. intros w. apply comp_refl. Qed.

Lemma Sat_oracle {E A} `{Early E} (f : World -> outcome E A) : Sat R (fun w => (f w, w)).
Proof. intros w. apply comp_refl. Qed.

Lemma Sat_guard {E} `{Early E} (b : bool) (e : E) : Sat R (guardM b e).
Proof. intros w. destruct b; apply comp_refl. Qed.

Lemma Sat_bind {E A B} `{Early E} (c : M E A) (k : A -> M E B) :
  Sat R c -> (forall a, Sat R (k a)) -> Sat R (bindM c k).
Proof.
  intros Hc Hk w. unfold bindM. specialize (Hc w).
  destruct (c w) as [[a|e] w1]; cbn in *.
  - eapply comp_ok; [done|apply Hk].
  - done.
Qed.

Lemma Sat_orReturn {E E' A} `{Early E, Early E'} (f : E -> E') (c : M E A) :
  (forall e, earlyOk (f e) = false) -> Sat R c -> Sat R (orReturn f c).
Proof.
  intros Hf Hc w. unfold orReturn. specialize (Hc w).
  destruct (c w) as [[a|e] w1]; cbn in *; [done|].
  rewrite Hf. destruct (earlyOk e); [by apply comp_weaken|done].
Qed.

Lemma Sat_forEachM {E A} `{Early E} (l : list A) (f : A -> M E unit) :
  (forall x, Sat R (f x)) -> Sat R (forEachM l f).
Proof.
  intros Hf. induction l as [|x l IH]; cbn.
  - apply Sat_ret.
  - apply Sat_bind; [apply Hf|done].
Qed.

Lemma Sat_foldM {E A B} `{Early E} (f : B -> A -> M E B) (l : list A) (b : B) :
  (forall b x, Sat R (f b x)) -> Sat R (foldM f l b).
Proof.
  intros Hf. revert b. induction l as [|x l IH]; intros b; cbn.
  - apply Sat_ret.
  - apply Sat_bind; [apply Hf|done].
Qed.

Lemma Sat_weak {E A} `{Early E} (c : M E A) : Sat R c -> SatWeak R c.
Proof.
  intros Hc w. specialize (Hc w). destruct (wentWell (c w).1); [by apply comp_weaken|done].
Qed.

Lemma SatWeak_ignore {E E' A} (c : M E A) : SatWeak R c -> SatWeak R (ignoreM (E':=E') c).
Proof. intros Hc w. apply Hc. Qed.

Lemma Sat_withRevert {A} (undo : M error unit) (body : M error A) :
  SatWeak R undo -> Sat R body -> Sat R (withRevert undo body).
Proof.
  intros Hu Hb w. unfold withRevert. specialize (Hb w).
  destruct (body w) as [[a|e] w1]; cbn in *; [done|].
  eapply comp_ret; [done|apply Hu].
Qed.

Lemma Sat_handle (c : M Response Response) :
  Sat R c -> forall w, R (negb (isErrorResponse (handle c w).1)) w (handle c w).2.
Proof.
  intros Hc w. unfold handle. specialize (Hc w).
  destruct (c w) as [[a|e] w1]; cbn in *; [|done].
  destruct (negb (isErrorResponse a)); [done|by apply comp_weaken].
Qed.

Lemma Sat_same {E A} `{Early E} (c : M E A) : Sat Same c -> Sat R c.
Proof. intros Hc w. rewrite (Hc w). apply comp_refl. Qed.

End Closure.

Ltac sat_step :=
  lazymatch goal with
  | |- Sat _ (bindM _ _) => apply Sat_bind; [|intros ?]
  | |- Sat _ (retM _) => apply Sat_ret
  | |- Sat _ (failM _) => apply Sat_fail
  | |- Sat _ (liftM _) => apply Sat_lift
  | |- Sat _ (guardM _ _) => apply Sat_guard
  | |- Sat _ (orReturn _ _) =>
      apply Sat_orReturn; [intros ?; cbn; repeat case_match; reflexivity|]
  | |- Sat _ (forEachM _ _) => apply Sat_forEachM; intros ?
  | |- Sat _ (foldM _ _ _) => apply Sat_foldM; intros ? ?
  | |- Sat _ (fun w => (_, w)) => apply Sat_oracle
  | |- Sat _ (if ?b then _ else _) => destruct b
  | |- Sat _ (match ?x with _ => _ end) => destruct x
  | |- Sat _ (let _ := _ in _) => cbv zeta
  end.

Section ReadPrimitives.
Variable IsNodeSpecificNetworkConfig : string -> bool.
Variable env : Env.

(** Reads leave the world as it was. *)
Lemma Same_faultM (op : Op) : Sat Same (faultM env op).
Proof. intros w. unfold faultM. by destruct (fault env op w). Qed.

Lemma Same_readM {A} (op : Op) (f : Catalog -> result A) : Sat Same (readM env op f).
Proof. unfold readM. apply Sat_bind; [apply Same_faultM|intros _; apply Sat_oracle]. Qed.

Lemma Same_attempt {E E' A} `{Early E, Early E'} (c : M E A) :
  Sat Same c -> Sat Same (attemptM (E':=E') c).
Proof. intros Hc w. apply Hc. Qed.

End ReadPrimitives.

(** ** Effects of the primitives *)

(** One allowed event. *)
Lemma Emits_emit (allowed : Event -> bool) (b : bool) (w : World) (e : Event) :
  allowed e = true -> (b = true -> failed e = false) -> Emits allowed b w (emit e w).
Proof.
  intros Ha Hf. unfold Emits.
  assert (trace (emit e w) = trace w ++ [e]) as Ht by done.
  rewrite (since_app _ _ _ Ht).
  split; [by eapply extends_intro|]. split; [by constructor|].
  intros Hb. constructor; auto.
Qed.

(** The catalog is not part of the trace. *)
Lemma Emits_setCatalog (allowed : Event -> bool) (b : bool) (w w' : World) (c : Catalog) :
  Emits allowed b w w' -> Emits allowed b w (setCatalog c w').
Proof. done. Qed.

(** A run that went well may be read as one that did not. *)
Lemma Emits_weaken (allowed : Event -> bool) (b : bool) (w w' : World) :
  Emits allowed true w w' -> Emits allowed b w w'.
Proof. intros (?&?&?). split; [done|]. split; [done|]. auto. Qed.

(** A run may be read with more events allowed. *)
Lemma Emits_mono (allowed allowed' : Event -> bool) (b : bool) (w w' : World) :
  (forall e, allowed e = true -> allowed' e = true) ->
  Emits allowed b w w' -> Emits allowed' b w w'.
Proof.
  intros Hsub (?&Ha&?). split; [done|]. split; [|done].
  eapply Forall_impl; [apply Ha|]. auto.
Qed.

(** An event keeps every status. *)
Lemma KeepsStatus_emit (b : bool) (w : World) (e : Event) : KeepsStatus b w (emit e w).
Proof. done. Qed.

Section EffectPrimitives.
Variable env : Env.
Variable allowed : Event -> bool.

Lemma Emits_emitM {E} `{Early E} (e : Event) :
  allowed e = true -> failed e = false -> Sat (Emits allowed) (emitM (E:=E) e).
Proof. intros Ha Hf w. by apply Emits_emit. Qed.

Lemma Keeps_emitM {E} `{Early E} (e : Event) : Sat KeepsStatus (emitM (E:=E) e).
Proof. done. Qed.

(** A driver call leaves its event, with its outcome. *)
Lemma Emits_driverCall (n : Network) (call : DriverCall) :
  (forall ok, allowed (EvDriver (netMember n) (netProject n) (netName n) call ok) = true) ->
  Sat (Emits allowed) (driverCall env n call).
Proof.
  intros Ha w. unfold driverCall.
  destruct (driver env n call w); cbn; by apply Emits_emit.
Qed.

Lemma Keeps_driverCall (n : Network) (call : DriverCall) :
  Sat KeepsStatus (driverCall env n call).
Proof. intros w. unfold driverCall. by destruct (driver env n call w). Qed.

Lemma Emits_FillConfig (type : string) (cfg : Config) :
  (forall ok, allowed (EvFillConfig type ok) = true) ->
  Sat (Emits allowed) (FillConfig env type cfg).
Proof.
  intros Ha w. unfold FillConfig.
  destruct (fillConfig env type cfg); cbn; by apply Emits_emit.
Qed.

Lemma Keeps_FillConfig (type : string) (cfg : Config) :
  Sat KeepsStatus (FillConfig env type cfg).
Proof. intros w. unfold FillConfig. by destruct (fillConfig env type cfg). Qed.

(** A write leaves its event, whether it succeeds or not. *)
Lemma Emits_writeM (wr : DbWrite) (apply : Catalog -> result Catalog) :
  allowed (EvDb wr) = true -> Sat (Emits allowed) (writeM env wr apply).
Proof.
  intros Ha w. unfold writeM. cbv zeta.
  destruct (fault env (OpWrite wr) (emit (EvDb wr) w)); cbn; [by apply Emits_emit|].
  destruct (apply (catalog w)); cbn; [apply Emits_setCatalog|]; by apply Emits_emit.
Qed.

(** A write that keeps the status of every row. *)
Lemma Keeps_writeM (wr : DbWrite) (apply : Catalog -> result Catalog) :
  (forall c c' k, apply c = Ok c' -> rowStatus <$> c' !! k = rowStatus <$> c !! k) ->
  Sat KeepsStatus (writeM env wr apply).
Proof.
  intros Hap w. unfold writeM. cbv zeta.
  destruct (fault env (OpWrite wr) (emit (EvDb wr) w)); cbn; [done|].
  destruct (apply (catalog w)) eqn:E; cbn; [|done].
  intros k. by apply Hap.
Qed.

(** A transaction adds its bracket to the events of its body; it closes with
    a rollback exactly when the body or the commit fails. *)
Lemma Emits_Transaction {A} (body : M error A) :
  allowed EvTxBegin = true -> allowed EvTxCommit = true -> allowed EvTxRollback = true ->
  Sat (Emits allowed) body -> Sat (Emits allowed) (Transaction env body).
Proof.
  intros Hb Hc Hr Hbody w. unfold Transaction.
  specialize (Hbody (emit EvTxBegin w)).
  assert (Emits allowed true w (emit EvTxBegin w)) as H0 by by apply Emits_emit.
  destruct (body (emit EvTxBegin w)) as [[a|e] w1]; cbn in *.
  - destruct (fault env OpTxCommit w1); cbn.
    + apply Emits_setCatalog.
      eapply comp_ok; [exact H0|]. eapply comp_ret; [apply comp_weaken, Hbody|].
      by apply (Emits_emit _ false).
    + eapply comp_ok; [exact H0|]. eapply comp_ok; [exact Hbody|]. by apply Emits_emit.
  - apply Emits_setCatalog.
    eapply comp_ok; [exact H0|]. eapply comp_ret; [exact Hbody|].
    by apply (Emits_emit _ false).
Qed.

(** A transaction keeps what its body keeps: a rollback restores the catalog. *)
Lemma Keeps_Transaction {A} (body : M error A) :
  Sat KeepsStatus body -> Sat KeepsStatus (Transaction env body).
Proof.
  intros Hbody w. unfold Transaction.
  specialize (Hbody (emit EvTxBegin w)).
  destruct (body (emit EvTxBegin w)) as [[a|e] w1]; cbn in *; [|done].
  destruct (fault env OpTxCommit w1); cbn; done.
Qed.

End EffectPrimitives.

(** An update of rows that keeps their status. *)
Lemma updateRowsByID_status (id : Z) (f : NetRow -> NetRow) (c : Catalog) (k : string * string) :
  (forall row, rowStatus (f row) = rowStatus row) ->
  rowStatus <$> updateRowsByID id f c !! k = rowStatus <$> c !! k.
Proof.
  intros Hf. unfold updateRowsByID. rewrite lookup_fmap.
  destruct (c !! k) as [row|]; cbn; [|done].
  destruct (rowID row =? id); by rewrite ?Hf.
Qed.

(** An update of rows keeps the keys of the catalog. *)
Lemma updateRowsByID_is_Some (id : Z) (f : NetRow -> NetRow) (c : Catalog) (k : string * string) :
  is_Some (updateRowsByID id f c !! k) <-> is_Some (c !! k).
Proof. unfold updateRowsByID. rewrite lookup_fmap. apply fmap_is_Some. Qed.

Ltac sat_prim env :=
  first
    [ apply (Sat_same (faultM env _)), Same_faultM
    | apply (Sat_same (readM env _ _)), Same_readM
    | apply Emits_driverCall; intros ?; reflexivity
    | apply Keeps_driverCall
    | apply Emits_Transaction; [reflexivity..|]
    | apply Keeps_Transaction
    | apply Emits_writeM; reflexivity
    | apply Emits_emitM; reflexivity
    | apply Keeps_emitM
    | apply Emits_FillConfig; intros ?; reflexivity
    | apply Keeps_FillConfig ].

Ltac sat env := repeat first [sat_step | sat_prim env].

Section LocalActuation.
Variable IsNodeSpecificNetworkConfig : string -> bool.
Variable env : Env.

(** The local created marker does not touch the global status. *)
Lemma Keeps_NetworkNodeCreated (member : string) (id : Z) :
  Sat KeepsStatus (NetworkNodeCreated env member id).
Proof.
  apply Keeps_writeM. intros c c' k [= <-]. by apply updateRowsByID_status.
Qed.

(** The local actuation leaves actuation events only, none of them failed
    when it succeeds. *)
Lemma Emits_doNetworksCreate (n : Network) (clientType : ClientType) :
  Sat (Emits actuationEvent) (doNetworksCreate env n clientType).
Proof.
  unfold doNetworksCreate, NetworkNodeCreated. sat env.
  all: try (apply Sat_withRevert; [apply SatWeak_ignore, Sat_weak|]); sat env.
Qed.

(** The local actuation keeps the global status of every record. *)
Lemma Keeps_doNetworksCreate (n : Network) (clientType : ClientType) :
  Sat KeepsStatus (doNetworksCreate env n clientType).
Proof.
  unfold doNetworksCreate. sat env.
  all: try (apply Sat_withRevert; [apply SatWeak_ignore, Sat_weak|]); sat env.
  all: apply Keeps_NetworkNodeCreated.
Qed.

End LocalActuation.

(** ** Peers and the notifier *)

(** The responses that a caller does not read as an error. *)
Lemma responseError_None (r : Response) :
  responseError r = None <-> isErrorResponse r = false.
Proof. by destruct r. Qed.

(** A request to a peer: the call, what the peer's handler does, the return. *)
Lemma Emits_callPeer (allowed : Event -> bool)
    (handler : string -> Request -> World -> Response * World)
    (peer : string) (call : PeerCall) (r : Request) :
  allowed (EvPeerCall peer call) = true ->
  (forall ok, allowed (EvPeerReturn peer ok) = true) ->
  (forall w, Emits allowed (negb (isErrorResponse (handler peer r w).1)) w (handler peer r w).2) ->
  Sat (Emits allowed) (callPeer handler peer call r).
Proof.
  intros Hc Hr Hh w. unfold callPeer. cbv zeta.
  specialize (Hh (emit (EvPeerCall peer call) w)).
  assert (Emits allowed true w (emit (EvPeerCall peer call) w)) as H0 by by apply Emits_emit.
  destruct (handler peer r (emit (EvPeerCall peer call) w)) as [resp w1]; cbn in *.
  destruct (responseError resp) eqn:E; cbn.
  - eapply comp_ok; [exact H0|]. eapply comp_ret; [|by apply (Emits_emit _ false)].
    destruct (negb (isErrorResponse resp)); [by apply comp_weaken|done].
  - apply responseError_None in E. rewrite E in Hh. cbn in Hh.
    eapply comp_ok; [exact H0|]. eapply comp_ok; [exact Hh|]. by apply Emits_emit.
Qed.

(** A request to a peer keeps what the peer's handler keeps. *)
Lemma Keeps_callPeer (handler : string -> Request -> World -> Response * World)
    (peer : string) (call : PeerCall) (r : Request) :
  (forall b w, KeepsStatus b w (handler peer r w).2) ->
  Sat KeepsStatus (callPeer handler peer call r).
Proof.
  intros Hh w. unfold callPeer. cbv zeta.
  specialize (Hh true (emit (EvPeerCall peer call) w)).
  destruct (handler peer r (emit (EvPeerCall peer call) w)) as [resp w1]; cbn in *.
  by destruct (responseError resp).
Qed.

(** A request to a peer that succeeds has returned success. *)
Lemma callPeer_returned (handler : string -> Request -> World -> Response * World)
    (peer : string) (call : PeerCall) (r : Request) (w : World) :
  (forall w, extends w (handler peer r w).2) ->
  is_ok (callPeer handler peer call r w).1 = true ->
  EvPeerReturn peer true ∈ since w (callPeer handler peer call r w).2.
Proof.
  intros Hh. unfold callPeer. cbv zeta.
  specialize (Hh (emit (EvPeerCall peer call) w)).
  destruct (handler peer r (emit (EvPeerCall peer call) w)) as [resp w1]; cbn in *.
  destruct (responseError resp); cbn; [done|]. intros _.
  erewrite since_app.
  2:{ cbn. rewrite Hh. cbn. rewrite <- !app_assoc. reflexivity. }
  set_solver.
Qed.

(** The notifier keeps every property that its hook keeps. *)
Lemma Sat_notifier {R : bool -> World -> World -> Prop} `{!Composable R}
    (peers : list string) (hook : string -> M error unit) :
  (forall peer, Sat R (hook peer)) -> Sat R (notifier peers hook).
Proof.
  intros Hh. induction peers as [|peer peers IH]; cbn.
  - apply Sat_ret.
  - intros w. cbv zeta. specialize (Hh peer w). specialize (IH (hook peer w).2).
    destruct (hook peer w) as [[[]|e] w1]; cbn in *.
    + by eapply comp_ok.
    + eapply comp_ret; [exact Hh|exact IH].
Qed.

(** When the notifier succeeds, every peer has returned success. *)
Lemma notifier_all_returned (peers : list string) (hook : string -> M error unit)
    (allowed : Event -> bool) (w : World) :
  (forall peer, Sat (Emits allowed) (hook peer)) ->
  (forall peer w, is_ok (hook peer w).1 = true -> EvPeerReturn peer true ∈ since w (hook peer w).2) ->
  is_ok (notifier peers hook w).1 = true ->
  forall peer, peer ∈ peers -> EvPeerReturn peer true ∈ since w (notifier peers hook w).2.
Proof.
  intros Hsat Hret. revert w. induction peers as [|p peers IH]; intros w; cbn.
  - intros _ peer Hin. by apply elem_of_nil in Hin.
  - pose proof (Hsat p w) as (E1 & _ & _).
    pose proof (Sat_notifier (R:=Emits allowed) peers hook Hsat (hook p w).2) as (E2 & _ & _).
    specialize (Hret p w). specialize (IH (hook p w).2).
    destruct (hook p w) as [[[]|e] w1]; cbn in *; [|done].
    intros Hok peer Hin.
    destruct (since_trans _ _ _ E1 E2) as [_ ->].
    apply elem_of_app. apply elem_of_cons in Hin as [->|Hin]; [left; by apply Hret|].
    right. by apply IH.
Qed.

Ltac sat_case :=
  lazymatch goal with
  | |- Sat _ (if ?b then _ else _) => let H := fresh "Hcase" in destruct b eqn:H; try congruence
  end.

Ltac sat' env := repeat first [sat_case | sat_step | sat_prim env].

Section PeerHandler.
Variable IsNodeSpecificNetworkConfig : string -> bool.
Variable env : Env.

(** The checks of a create request read only. *)
Lemma Emits_networksPostChecks (r : Request) :
  Sat (Emits actuationEvent) (networksPostChecks env r).
Proof. unfold networksPostChecks, GetNetworks. sat' env. Qed.

(** The checks of a create request keep every status. *)
Lemma Keeps_networksPostChecks (r : Request) :
  Sat KeepsStatus (networksPostChecks env r).
Proof. unfold networksPostChecks, GetNetworks. sat' env. Qed.

(** A create request from the notifier of another member actuates locally
    and does nothing else. *)
Lemma Emits_notified (cp : string -> string -> NetworksPost -> M error unit)
    (member : string) (r : Request) :
  isClusterNotification r = true ->
  Sat (Emits actuationEvent) (networksPostWith IsNodeSpecificNetworkConfig env cp member r).
Proof.
  intros Hn. unfold networksPostWith.
  apply Sat_bind; [apply Emits_networksPostChecks|]. intros [[[projectName reqProject] req] ti].
  rewrite Hn. unfold LoadByName. sat' env. apply Emits_doNetworksCreate.
Qed.

(** A create request from the notifier of another member keeps the global
    status of every record. *)
Lemma Keeps_notified (cp : string -> string -> NetworksPost -> M error unit)
    (member : string) (r : Request) :
  isClusterNotification r = true ->
  Sat KeepsStatus (networksPostWith IsNodeSpecificNetworkConfig env cp member r).
Proof.
  intros Hn. unfold networksPostWith.
  apply Sat_bind; [apply Keeps_networksPostChecks|]. intros [[[projectName reqProject] req] ti].
  rewrite Hn. unfold LoadByName. sat' env. apply Keeps_doNetworksCreate.
Qed.

(** The create on a peer leaves actuation events only. *)
Lemma Emits_createOnPeer (peer project : string) (nodeReq : NetworksPost) :
  Sat (Emits actuationEvent) (createOnPeer IsNodeSpecificNetworkConfig env peer project nodeReq).
Proof.
  unfold createOnPeer. apply Emits_callPeer; [done..|].
  intros w. cbv beta. apply (Sat_handle (R:=Emits actuationEvent)).
  by apply Emits_notified.
Qed.

(** The create on a peer keeps the global status of every record. *)
Lemma Keeps_createOnPeer (peer project : string) (nodeReq : NetworksPost) :
  Sat KeepsStatus (createOnPeer IsNodeSpecificNetworkConfig env peer project nodeReq).
Proof.
  unfold createOnPeer. apply Keeps_callPeer.
  intros b w. cbv beta. apply (Sat_handle (R:=KeepsStatus)).
  by apply Keeps_notified.
Qed.

(** A create on a peer that succeeds has returned success. *)
Lemma createOnPeer_returned (peer project : string) (nodeReq : NetworksPost) (w : World) :
  is_ok (createOnPeer IsNodeSpecificNetworkConfig env peer project nodeReq w).1 = true ->
  EvPeerReturn peer true ∈
    since w (createOnPeer IsNodeSpecificNetworkConfig env peer project nodeReq w).2.
Proof.
  unfold createOnPeer.
  apply callPeer_returned.
  intros w0. cbv beta.
  refine (proj1 (Sat_handle (R:=Emits actuationEvent) _ _ w0)).
  by apply Emits_notified.
Qed.

(** The hook of the create leaves actuation events only. *)
Lemma Emits_postClusterHook (n : Network) (netConfig : Config)
    (nodeConfigs : gmap string Config) (peer : string) :
  Sat (Emits actuationEvent)
    (postClusterHook env (createOnPeer IsNodeSpecificNetworkConfig env) n netConfig nodeConfigs peer).
Proof. unfold postClusterHook. sat' env. apply Emits_createOnPeer. Qed.

(** The hook of the create keeps the global status of every record. *)
Lemma Keeps_postClusterHook (n : Network) (netConfig : Config)
    (nodeConfigs : gmap string Config) (peer : string) :
  Sat KeepsStatus
    (postClusterHook env (createOnPeer IsNodeSpecificNetworkConfig env) n netConfig nodeConfigs peer).
Proof. unfold postClusterHook. sat' env. apply Keeps_createOnPeer. Qed.

(** A hook that succeeds has had its peer return success. *)
Lemma postClusterHook_returned (n : Network) (netConfig : Config)
    (nodeConfigs : gmap string Config) (peer : string) (w : World) :
  let hook := postClusterHook env (createOnPeer IsNodeSpecificNetworkConfig env) n netConfig nodeConfigs in
  is_ok (hook peer w).1 = true -> EvPeerReturn peer true ∈ since w (hook peer w).2.
Proof.
  cbv zeta. unfold postClusterHook, bindM, faultM.
  destruct (fault env (OpGetServer peer) w); [done|].
  apply createOnPeer_returned.
Qed.

End PeerHandler.

(** ** Two-phase create *)

Section DefinePhase.
Variable IsNodeSpecificNetworkConfig : string -> bool.
Variable env : Env.

(** The first transaction of a create on the fresh path: committed with the
    global config, filled with its defaults, on the record and the errored
    marker set, or rolled back with nothing done. *)
Lemma postClusterDefine_fresh (projectName : string) (netInfo : option Network)
    (req : NetworksPost) (w : World) :
  partiallyCreated IsNodeSpecificNetworkConfig netInfo = false ->
  let run := postClusterDefine IsNodeSpecificNetworkConfig env projectName netInfo req w in
  extends w run.2 /\
  match run.1 with
  | Ok _ =>
      exists cfg row0,
        since w run.2 =
          defineEvents (postType req) (rowID row0) cfg projectName (postName req) /\
        catalog w !! (projectName, postName req) = Some row0 /\
        fillConfig env (postType req) (postConfig req) = Ok cfg /\
        catalog run.2 !! (projectName, postName req) = Some (definedRow cfg row0)
  | Ret _ =>
      catalog run.2 = catalog w /\
      Forall (fun e => isDriverOrPeer e = false /\ e <> EvTxCommit) (since w run.2)
  end.
Proof.
  intros Hfresh. cbv zeta.
  unfold postClusterDefine. rewrite Hfresh.
  unfold Transaction, GetNetworkID, NetworkNodeConfigs, readM, faultM, FillConfig,
    CreateNetworkConfig, NetworkErrored, writeM, networkState, bindM, retM.
  cbv beta iota zeta.
  repeat (match goal with
  | |- context [match fault env ?op ?w with _ => _ end] => destruct (fault env op w) eqn:?
  | |- context [match catalog ?w !! ?k with _ => _ end] => destruct (catalog w !! k) eqn:?
  | |- context [match rowByID ?i ?c with _ => _ end] => destruct (rowByID i c) eqn:?
  | |- context [if forallb ?f ?l then _ else _] => destruct (forallb f l) eqn:?
  | |- context [match fillConfig ?e ?t ?c with _ => _ end] => destruct (fillConfig e t c) eqn:?
  | |- context [match (updateRowsByID ?i ?f ?c) !! ?k with _ => _ end] =>
      destruct (updateRowsByID i f c !! k) eqn:?
  end; cbn [Z.eqb]; cbv beta iota zeta); cbn [fst snd].
  all: (split; [eapply extends_intro; trace_eq|]).
  all: try (split; [reflexivity|]; erewrite since_app by trace_eq;
            repeat constructor; done).
  match goal with
  | H0 : catalog (emit EvTxBegin w) !! _ = Some ?r0,
    H1 : catalog (emit (EvDb (DbNetworkErrored _ _)) _) !! _ = Some ?r1,
    H2 : fillConfig _ _ _ = Ok ?c |- _ =>
      cbn [catalog emit setCatalog] in H0, H1;
      unfold updateRowsByID in H1;
      rewrite lookup_fmap, H0 in H1; cbn in H1; rewrite Z.eqb_refl in H1;
      injection H1 as <-;
      exists c, r0; split; [erewrite since_app by trace_eq; reflexivity|];
      split; [exact H0|]
  end.
  split; [done|].
  cbn. by rewrite lookup_insert_eq.
Qed.

End DefinePhase.

Section LocalRuns.
Variable env : Env.

(** The runs of [doNetworksCreate] on a network that is not created on the
    member yet. *)
Lemma doNetworksCreate_runs (n : Network) (clientType : ClientType) (w : World) :
  netLocalStatus n <> NetworkStatusCreated ->
  let run := doNetworksCreate env n clientType w in
  let drv call := EvDriver (netMember n) (netProject n) (netName n) call in
  let cfg := validateConfigOf clientType n in
  let start ok := if decide (clientType = ClientTypeJoiner) then [] else [drv DrvStart ok] in
  let marker := EvDb (DbNetworkNodeCreated (netMember n) (netID n)) in
  (is_ok run.1 = false /\ catalog run.2 = catalog w /\
   (since w run.2 = [drv (DrvValidate cfg) false] \/
    since w run.2 = [drv (DrvValidate cfg) true; drv (DrvCreate clientType) false] \/
    (clientType <> ClientTypeJoiner /\ exists undone,
       since w run.2 = [drv (DrvValidate cfg) true; drv (DrvCreate clientType) true;
                        drv DrvStart false; drv (DrvDelete clientType) undone]) \/
    (exists undone,
       since w run.2 = [drv (DrvValidate cfg) true; drv (DrvCreate clientType) true] ++
                       start true ++ [EvTxBegin; marker; EvTxRollback;
                                      drv (DrvDelete clientType) undone]))) \/
  (run.1 = Ok tt /\
   catalog run.2 = updateRowsByID (netID n) (setNodeCreated (netMember n)) (catalog w) /\
   since w run.2 = [drv (DrvValidate cfg) true; drv (DrvCreate clientType) true] ++
                   start true ++ [EvTxBegin; marker; EvTxCommit]).
Proof.
  intros Hst. cbv zeta. unfold doNetworksCreate. fold (validateConfigOf clientType n).
  set (cfg := validateConfigOf clientType n).
  unfold driverCall, withRevert, Transaction, NetworkNodeCreated, writeM. runM.
  destruct (driver env n (DrvValidate cfg) w).
  { left. split; [done|]. split; [done|]. left. by apply since_app. }
  rewrite decide_False by done.
  destruct (driver env n (DrvCreate clientType) _).
  { left. split; [done|]. split; [done|]. right. left. apply since_app. cbn.
    by rewrite <- app_assoc. }
  destruct (decide (clientType = ClientTypeJoiner)) as [Hj|Hj].
  - cbn [app].
    repeat match goal with
    | |- context [match ?x with _ => _ end] =>
        match x with
        | driver _ _ _ _ => destruct x eqn:?
        | fault _ _ _ => destruct x eqn:?
        end
    end.
    all: try (left; split; [done|]; split; [done|]; right; right; right;
              eexists; apply since_app; cbn; rewrite <- ?app_assoc; reflexivity).
    right. split; [done|]. split; [done|]. apply since_app; cbn; rewrite <- ?app_assoc; reflexivity.
  - destruct (driver env n DrvStart _) eqn:Hs.
    { left. split; [done|]. split; [by destruct (driver env n (DrvDelete _) _)|].
      right. right. left. split; [done|].
      destruct (driver env n (DrvDelete _) _); eexists; apply since_app; cbn;
        rewrite <- ?app_assoc; reflexivity. }
    repeat match goal with
    | |- context [match ?x with _ => _ end] =>
        match x with
        | driver _ _ _ _ => destruct x eqn:?
        | fault _ _ _ => destruct x eqn:?
        end
    end.
    all: try (left; split; [done|]; split; [done|]; right; right; right;
              eexists; apply since_app; cbn; rewrite <- ?app_assoc; reflexivity).
    right. split; [done|]. split; [done|]. apply since_app; cbn; rewrite <- ?app_assoc; reflexivity.
Qed.

(** The events of a local actuation that went well. *)
Lemma doNetworksCreate_ok (n : Network) (clientType : ClientType) (w w' : World) :
  doNetworksCreate env n clientType w = (Ok tt, w') ->
  since w w' = actuatedEvents clientType n.
Proof.
  intros Hrun. unfold actuatedEvents. cbv zeta.
  destruct (decide (netLocalStatus n = NetworkStatusCreated)) as [Hst|Hst].
  - revert Hrun. unfold doNetworksCreate, driverCall. runM.
    fold (validateConfigOf clientType n).
    destruct (driver env n _ w); [done|]. rewrite decide_True by done.
    intros [= <-]. by apply since_app.
  - destruct (doNetworksCreate_runs n clientType w Hst) as [(Hno & _)|(_ & _ & Hs)];
      cbv zeta in *; rewrite Hrun in *; [done|].
    cbn [snd] in Hs. rewrite Hs. by destruct (decide (clientType = ClientTypeJoiner)).
Qed.

End LocalRuns.

Section ActuatePhase.
Variable IsNodeSpecificNetworkConfig : string -> bool.
Variable env : Env.

(** The local actuation starts with its only [Validate] call. *)
Lemma doNetworksCreate_trace (n : Network) (clientType : ClientType) (w : World) :
  let run := doNetworksCreate env n clientType w in
  exists ok rest,
    since w run.2 =
      EvDriver (netMember n) (netProject n) (netName n)
        (DrvValidate (validateConfigOf clientType n)) ok :: rest /\
    Forall (fun e => isValidate e = false) rest /\
    (is_ok run.1 = true -> ok = true).
Proof.
  cbv zeta. unfold doNetworksCreate. fold (validateConfigOf clientType n).
  set (cfg := validateConfigOf clientType n).
  unfold driverCall, withRevert, Transaction, NetworkNodeCreated, writeM. runM.
  destruct (driver env n (DrvValidate cfg) w).
  { exists false, []. split; [by apply since_app|]. split; [constructor|done]. }
  exists true.
  destruct (decide (netLocalStatus n = NetworkStatusCreated)).
  { exists []. split; [by apply since_app|]. split; [constructor|done]. }
  repeat match goal with
  | |- context [match ?x with _ => _ end] =>
      match x with
      | driver _ _ _ _ => destruct x eqn:?
      | fault _ _ _ => destruct x eqn:?
      | decide _ => destruct x
      end
  end; eexists; (split; [apply since_app; trace_eq|]); (split; [|done]); repeat constructor.
Qed.

(** The actuation phase of a cluster create on a record that is there: the
    local actuation with all of its calls, the fan-out, then the created
    marker once everything before it succeeded; every error keeps the global
    status. *)
Lemma postClusterActuate_outcome (self projectName : string) (req : NetworksPost)
    (clientType : ClientType) (nodeConfigs : gmap string Config) (row : NetRow) (w : World) :
  catalog w !! (projectName, postName req) = Some row ->
  let run := postClusterActuate IsNodeSpecificNetworkConfig env
               (createOnPeer IsNodeSpecificNetworkConfig env)
               self projectName req clientType nodeConfigs w in
  let n := viewRow self projectName (postName req) row in
  let status := globalStatus projectName (postName req) in
  extends w run.2 /\
  exists act fin,
    since w run.2 = act ++ fin /\
    Forall (fun e => actuationEvent e = true) act /\
    (fault env (OpNewNotifier self) w = None ->
     fault env (OpLoadByName self projectName (postName req)) w = None ->
     exists went rest,
       act ++ fin = EvDriver self projectName (postName req)
                      (DrvValidate (validateConfigOf clientType n)) went :: rest) /\
    ((fin = [] /\ is_ok run.1 = false /\ status run.2 = status w) \/
     (Forall (fun e => failed e = false) act /\
      (exists remote,
         act = actuatedEvents clientType n ++ remote /\
         forall peer, peer ∈ members env -> peer <> self -> EvPeerReturn peer true ∈ remote) /\
      ((fin = createdEvents projectName (postName req) true /\ is_ok run.1 = true /\
        status run.2 = Some NetworkStatusCreated) \/
       (fin = createdEvents projectName (postName req) false /\ is_ok run.1 = false /\
        status run.2 = status w)))).
Proof.
  intros Hrow. cbv zeta.
  unfold postClusterActuate, NewNotifier, LoadByName.
  assert (extends w w) as Hrefl.
  { apply (extends_intro _ _ []). by rewrite app_nil_r. }
  runM.
  destruct (fault env (OpNewNotifier self) w) eqn:Hf1.
  { split; [done|]. exists [], []. rewrite since_refl. split; [done|].
    split; [constructor|]. split; [done|]. by left. }
  destruct (fault env (OpLoadByName self projectName (postName req)) w) eqn:Hf2.
  { split; [done|]. exists [], []. rewrite since_refl. split; [done|].
    split; [constructor|]. split; [done|]. by left. }
  rewrite Hrow.
  set (n := viewRow self projectName (postName req) row).
  pose proof (Emits_doNetworksCreate env n clientType w) as (E1 & A1 & C1).
  pose proof (Keeps_doNetworksCreate env n clientType w) as K1.
  pose proof (doNetworksCreate_trace n clientType w) as (went & rest & Hv & _ & Hok).
  pose proof (doNetworksCreate_ok env n clientType w) as Hlocal.
  destruct (doNetworksCreate env n clientType w) as [[[]|e1] w1]; cbn [fst snd] in *.
  2:{ split; [done|]. exists (since w w1), []. rewrite app_nil_r.
      split; [done|]. split; [done|]. split; [intros _ _; by exists went, rest|].
      left. split; [done|]. split; [done|]. unfold globalStatus. by rewrite K1. }
  specialize (Hlocal w1 eq_refl).
  set (hook := postClusterHook env (createOnPeer IsNodeSpecificNetworkConfig env) n
                 (StripNodeSpecificNetworkConfig IsNodeSpecificNetworkConfig (netConfig n))
                 nodeConfigs).
  set (peers := filter (fun m => m <> self) (members env)).
  pose proof (Sat_notifier (R:=Emits actuationEvent) peers hook
                (Emits_postClusterHook _ env _ _ _) w1) as (E2 & A2 & C2).
  pose proof (Sat_notifier (R:=KeepsStatus) peers hook
                (Keeps_postClusterHook _ env _ _ _) w1) as K2.
  pose proof (notifier_all_returned peers hook actuationEvent w1
                (Emits_postClusterHook _ env _ _ _)
                (postClusterHook_returned _ env _ _ _)) as Hall.
  fold hook in Hall.
  destruct (since_trans _ _ _ E1 E2) as [E12 S12].
  assert (forall rest', exists went' rest'',
            (since w w1 ++ since w1 (notifier peers hook w1).2) ++ rest' =
            EvDriver self projectName (postName req)
              (DrvValidate (validateConfigOf clientType n)) went' :: rest'') as Hfirst.
  { intros rest'. rewrite Hv. cbn. by eexists _, _. }
  destruct (notifier peers hook w1) as [[[]|e2] w2]; cbn [fst snd wentWell] in *.
  2:{ split; [done|]. exists (since w w2), []. rewrite app_nil_r.
      split; [done|]. split; [rewrite S12; by apply Forall_app|].
      split; [intros _ _; rewrite S12; destruct (Hfirst []) as (a & b & Hab);
              rewrite app_nil_r in Hab; by exists a, b|].
      left. split; [done|]. split; [done|].
      unfold globalStatus. rewrite K2. by rewrite K1. }
  assert (globalStatus projectName (postName req) w2 =
          globalStatus projectName (postName req) w) as Hst2.
  { unfold globalStatus. rewrite K2. by rewrite K1. }
  assert (exists row2, catalog w2 !! (projectName, postName req) = Some row2) as [row2 Hrow2].
  { unfold globalStatus in Hst2. rewrite Hrow in Hst2.
    destruct (catalog w2 !! _); [eauto|done]. }
  assert (Forall (fun e => actuationEvent e = true) (since w w2)) as Aall.
  { rewrite S12. by apply Forall_app. }
  assert (Forall (fun e => failed e = false) (since w w2)) as Call.
  { rewrite S12. apply Forall_app; auto. }
  assert (exists remote,
            since w w2 = actuatedEvents clientType n ++ remote /\
            forall peer, peer ∈ members env -> peer <> self ->
                         EvPeerReturn peer true ∈ remote) as Hparts.
  { exists (since w1 w2). split; [by rewrite S12, Hlocal|].
    intros peer Hin Hne. apply Hall; [done|]. subst peers. by apply list_elem_of_filter. }
  unfold Transaction, NetworkCreated, writeM, networkState. cbv beta iota zeta.
  cbn [catalog emit]. rewrite Hrow2.
  destruct (fault env (OpWrite (DbNetworkCreated projectName (postName req))) _) eqn:Hf3;
    [|destruct (fault env OpTxCommit _) eqn:Hf4]; cbn [fst snd].
  all: assert (forall l w' , trace w' = trace w2 ++ l ->
                extends w w' /\ since w w' = since w w2 ++ l) as Hext
    by (intros l w' Hw'; rewrite <- (since_app _ _ _ Hw');
        apply since_trans; [done|by eapply extends_intro]).
  all: assert (forall fin, exists went' rest'',
                 since w w2 ++ fin =
                 EvDriver self projectName (postName req)
                   (DrvValidate (validateConfigOf clientType n)) went' :: rest'') as Hfirst2
    by (intros fin0; rewrite S12; apply Hfirst).
  - edestruct Hext as [Ex Sx]; [|split; [exact Ex|]]; [trace_eq|].
    exists (since w w2), (createdEvents projectName (postName req) false).
    split; [done|]. split; [done|]. split; [intros _ _; apply Hfirst2|].
    right. do 2 (split; [done|]). right. by split.
  - edestruct Hext as [Ex Sx]; [|split; [exact Ex|]]; [trace_eq|].
    exists (since w w2), (createdEvents projectName (postName req) false).
    split; [done|]. split; [done|]. split; [intros _ _; apply Hfirst2|].
    right. do 2 (split; [done|]). right. by split.
  - edestruct Hext as [Ex Sx]; [|split; [exact Ex|]]; [trace_eq|].
    exists (since w w2), (createdEvents projectName (postName req) true).
    split; [done|]. split; [done|]. split; [intros _ _; apply Hfirst2|].
    right. do 2 (split; [done|]). left.
    split; [done|]. split; [done|]. unfold globalStatus. cbn. by rewrite lookup_insert_eq.
Qed.

End ActuatePhase.

(** A run may be read with more events allowed. *)
Lemma Sat_Emits_mono {E A} `{Early E} (allowed allowed' : Event -> bool) (c : M E A) :
  (forall e, allowed e = true -> allowed' e = true) ->
  Sat (Emits allowed) c -> Sat (Emits allowed') c.
Proof. intros Hsub Hc w. eapply Emits_mono; [exact Hsub|apply Hc]. Qed.

Section TwoPhaseCreate.
Variable IsNodeSpecificNetworkConfig : string -> bool.
Variable env : Env.

(** The actuation phase neither defaults nor inserts the global config. *)
Lemma Emits_postClusterActuate (self projectName : string) (req : NetworksPost)
    (clientType : ClientType) (nodeConfigs : gmap string Config) :
  Sat (Emits (fun e => negb (isGlobalConfigInsert e)))
    (postClusterActuate IsNodeSpecificNetworkConfig env
       (createOnPeer IsNodeSpecificNetworkConfig env) self projectName req clientType nodeConfigs).
Proof.
  assert (forall e, actuationEvent e = true -> negb (isGlobalConfigInsert e) = true) as Hsub.
  { intros [| | |[]| | | | | | |]; done. }
  unfold postClusterActuate, NewNotifier, LoadByName, NetworkCreated. sat' env.
  - eapply Sat_Emits_mono; [exact Hsub|apply Emits_doNetworksCreate].
  - apply Sat_notifier. intros peer.
    eapply Sat_Emits_mono; [exact Hsub|apply Emits_postClusterHook].
Qed.

(** C1.  Order of the catalog writes of a cluster create on the fresh path
    (the record is not partially created).  Either the run stops in its
    checks or in its first transaction, and then the catalog is as before and
    no driver was called, no peer was asked and nothing was committed; or its
    trace is the committed transaction that defaults and inserts the global
    config and sets the errored marker, followed by the events [act] of the
    actuation, followed by [fin].  The transaction that sets the global
    created marker appears in [fin] only, and only when [act] is the whole
    local actuation of the record as the first transaction left it (the
    driver's [Validate], and on a member that has not created the network
    its [Create], its [Start] unless the member is joining, and the committed
    created marker of the member), followed by the traffic with the peers,
    in which every other member returned success, and no event of [act]
    failed; the record ends up created when that transaction commits.  Every
    run that returns an error after the first commit leaves the record
    errored. *)
Theorem two_phase_create_order (self projectName : string) (netInfo : option Network)
    (req : NetworksPost) (clientType : ClientType) (w : World) :
  partiallyCreated IsNodeSpecificNetworkConfig netInfo = false ->
  let run := networksPostCluster IsNodeSpecificNetworkConfig env
               (createOnPeer IsNodeSpecificNetworkConfig env)
               self projectName netInfo req clientType w in
  let status := globalStatus projectName (postName req) run.2 in
  extends w run.2 /\
  ((is_ok run.1 = false /\ catalog run.2 = catalog w /\
    Forall (fun e => isDriverOrPeer e = false /\ e <> EvTxCommit) (since w run.2)) \/
   exists cfg row0 act fin,
     let n := viewRow self projectName (postName req) (definedRow cfg row0) in
     catalog w !! (projectName, postName req) = Some row0 /\
     fillConfig env (postType req) (postConfig req) = Ok cfg /\
     since w run.2 =
       defineEvents (postType req) (rowID row0) cfg projectName (postName req) ++ act ++ fin /\
     Forall (fun e => actuationEvent e = true) act /\
     ((fin = [] /\ is_ok run.1 = false /\ status = Some NetworkStatusErrored) \/
      (Forall (fun e => failed e = false) act /\
       (exists remote,
          act = actuatedEvents clientType n ++ remote /\
          forall peer, peer ∈ members env -> peer <> self -> EvPeerReturn peer true ∈ remote) /\
       ((fin = createdEvents projectName (postName req) true /\ is_ok run.1 = true /\
         status = Some NetworkStatusCreated) \/
        (fin = createdEvents projectName (postName req) false /\ is_ok run.1 = false /\
         status = Some NetworkStatusErrored))))).
Proof.
  intros Hfresh. cbv zeta. unfold networksPostCluster.
  assert (extends w w /\
          (@is_ok error unit (Ret (ErrNew "")) = false /\ catalog w = catalog w /\
           Forall (fun e => isDriverOrPeer e = false /\ e <> EvTxCommit) (since w w))) as Hstop.
  { split; [apply (extends_intro _ _ []); by rewrite app_nil_r|].
    rewrite since_refl. by repeat split. }
  assert (Sat Same (postClusterChecks IsNodeSpecificNetworkConfig netInfo req)) as Hchecks.
  { unfold postClusterChecks. sat' env. }
  unfold bindM, orReturn. specialize (Hchecks w). unfold Same in Hchecks.
  destruct (postClusterChecks IsNodeSpecificNetworkConfig netInfo req w) as [[[]|e0] w0];
    cbn [fst snd] in Hchecks; subst w0.
  2:{ split; [apply Hstop|]. left. apply Hstop. }
  pose proof (postClusterDefine_fresh IsNodeSpecificNetworkConfig env projectName netInfo req w
                Hfresh) as [E1 Hdef].
  cbv zeta in E1, Hdef.
  destruct (postClusterDefine IsNodeSpecificNetworkConfig env projectName netInfo req w)
    as [[nodeConfigs|e1] w1]; cbn [fst snd] in *.
  2:{ split; [done|]. left. destruct Hdef. by repeat split. }
  destruct Hdef as (cfg & row0 & Hsince & Hrow0 & Hfill & Hrow1).
  pose proof (postClusterActuate_outcome IsNodeSpecificNetworkConfig env self projectName req
                clientType nodeConfigs _ w1 Hrow1)
    as (E2 & act & fin & Hact & Aact & _ & Hcases).
  cbv zeta in E2, Hact, Hcases.
  assert (globalStatus projectName (postName req) w1 = Some NetworkStatusErrored) as Hst.
  { unfold globalStatus. by rewrite Hrow1. }
  rewrite Hst in Hcases.
  destruct (since_trans _ _ _ E1 E2) as [E12 S12].
  split; [done|]. right. exists cfg, row0, act, fin.
  do 2 (split; [done|]). split; [by rewrite S12, Hsince, Hact|]. by split.
Qed.

(** C2.  A cluster create on a partially created record (global status
    errored, or a key that is not member-specific already stored) never
    defaults or inserts the global config.  With a non-empty [Config] it
    returns an error and leaves the catalog as it was.  With an empty
    [Config], on a record that is there, is not yet created and has the
    requested type, its transaction is empty; when the commit fails the run
    returns that error, and otherwise the actuation follows the commit at
    once: the next event is the driver's [Validate] on the member (when the
    notifier and the load succeed), the created marker is reached only after
    the whole local actuation and a success of every other member, the record
    then ends up created, and a run that fails keeps the global status. *)
Theorem partially_created_rerun (self projectName : string) (info : Network)
    (req : NetworksPost) (clientType : ClientType) (w : World) :
  networkPartiallyCreated IsNodeSpecificNetworkConfig info = true ->
  let run := networksPostCluster IsNodeSpecificNetworkConfig env
               (createOnPeer IsNodeSpecificNetworkConfig env)
               self projectName (Some info) req clientType w in
  Forall (fun e => isGlobalConfigInsert e = false) (since w run.2) /\
  (postConfig req <> ∅ -> is_ok run.1 = false /\ catalog run.2 = catalog w) /\
  (postConfig req = ∅ ->
   netStatus info <> NetworkStatusCreated ->
   postType req = netType info ->
   forall row, catalog w !! (projectName, postName req) = Some row ->
   let n := viewRow self projectName (postName req) row in
   let status := globalStatus projectName (postName req) in
   match fault env OpTxCommit (emit EvTxBegin w) with
   | Some err =>
       run = (Ret (if IsNotFoundError err
                   then ErrNew "Network not pending on any node (use --target <node> first)"
                   else err),
              setCatalog (catalog w) (emit EvTxRollback (emit EvTxBegin w)))
   | None =>
       let w1 := emit EvTxCommit (emit EvTxBegin w) in
       exists act fin,
         since w run.2 = [EvTxBegin; EvTxCommit] ++ act ++ fin /\
         Forall (fun e => actuationEvent e = true) act /\
         (fault env (OpNewNotifier self) w1 = None ->
          fault env (OpLoadByName self projectName (postName req)) w1 = None ->
          exists went rest,
            act ++ fin = EvDriver self projectName (postName req)
                           (DrvValidate (validateConfigOf clientType n)) went :: rest) /\
         ((fin = [] /\ is_ok run.1 = false /\ status run.2 = status w) \/
          (Forall (fun e => failed e = false) act /\
           (exists remote,
              act = actuatedEvents clientType n ++ remote /\
              forall peer, peer ∈ members env -> peer <> self ->
                           EvPeerReturn peer true ∈ remote) /\
           ((fin = createdEvents projectName (postName req) true /\ is_ok run.1 = true /\
             status run.2 = Some NetworkStatusCreated) \/
            (fin = createdEvents projectName (postName req) false /\ is_ok run.1 = false /\
             status run.2 = status w))))
   end).
Proof.
  intros Hpartial. cbv zeta.
  split; [|split].
  - assert (Sat (Emits cfgFree)
              (networksPostCluster IsNodeSpecificNetworkConfig env
                 (createOnPeer IsNodeSpecificNetworkConfig env)
                 self projectName (Some info) req clientType)) as Hsat.
    { unfold networksPostCluster.
      apply Sat_bind; [unfold postClusterChecks; sat' env|]. intros _.
      apply Sat_bind; [|intros nodeConfigs; apply Emits_postClusterActuate].
      unfold postClusterDefine, partiallyCreated. rewrite Hpartial. sat' env. }
    destruct (Hsat w) as (_ & Hall & _).
    eapply Forall_impl; [exact Hall|]. intros e He. unfold cfgFree in He.
    by destruct (isGlobalConfigInsert e).
  - intros Hne. unfold networksPostCluster, bindM.
    assert (Sat Same (postClusterChecks IsNodeSpecificNetworkConfig (Some info) req)) as Hchecks.
    { unfold postClusterChecks. sat' env. }
    specialize (Hchecks w). unfold Same in Hchecks.
    destruct (postClusterChecks IsNodeSpecificNetworkConfig (Some info) req w) as [[[]|e0] w0];
      cbn [fst snd] in Hchecks; subst w0; [|done].
    unfold orReturn, postClusterDefine, partiallyCreated. rewrite Hpartial.
    destruct (decide (postConfig req = ∅)); [done|].
    unfold Transaction, failM. done.
  - intros Hempty Hst Hty row Hrow.
    assert (networksPostCluster IsNodeSpecificNetworkConfig env
              (createOnPeer IsNodeSpecificNetworkConfig env)
              self projectName (Some info) req clientType w =
            match fault env OpTxCommit (emit EvTxBegin w) with
            | None =>
                postClusterActuate IsNodeSpecificNetworkConfig env
                  (createOnPeer IsNodeSpecificNetworkConfig env) self projectName req
                  clientType ∅ (emit EvTxCommit (emit EvTxBegin w))
            | Some err =>
                (Ret (if IsNotFoundError err
                      then ErrNew "Network not pending on any node (use --target <node> first)"
                      else err),
                 setCatalog (catalog w) (emit EvTxRollback (emit EvTxBegin w)))
            end) as ->.
    { unfold networksPostCluster, postClusterChecks.
      rewrite Hempty.
      replace (anyKey IsNodeSpecificNetworkConfig ∅) with false by done.
      rewrite bool_decide_eq_false_2 by done. rewrite Hty, String.eqb_refl.
      unfold postClusterDefine, partiallyCreated. rewrite Hpartial, Hempty.
      rewrite decide_True by done.
      unfold Transaction. cbv beta iota zeta delta [bindM guardM retM failM orReturn negb].
      by destruct (fault env OpTxCommit (emit EvTxBegin w)). }
    destruct (fault env OpTxCommit (emit EvTxBegin w)); [done|].
    set (w1 := emit EvTxCommit (emit EvTxBegin w)).
    assert (catalog w1 !! (projectName, postName req) = Some row) as Hrow1 by done.
    pose proof (postClusterActuate_outcome IsNodeSpecificNetworkConfig env self projectName req
                  clientType ∅ row w1 Hrow1)
      as (E2 & act & fin & Hact & Aact & Hfirst & Hcases).
    cbv zeta in E2, Hact, Hfirst, Hcases.
    assert (extends w w1) as E1 by (by apply (extends_intro _ _ [EvTxBegin; EvTxCommit]);
                                    cbn; rewrite <- app_assoc).
    destruct (since_trans _ _ _ E1 E2) as [_ S12].
    exists act, fin. split.
    { rewrite S12, Hact. by erewrite (since_app w w1) by (cbn; rewrite <- app_assoc; reflexivity). }
    split; [done|]. split; [done|]. exact Hcases.
Qed.
End TwoPhaseCreate.

(** ** Local actuation *)

Section JoinerValidation.
Variable env : Env.

(** C4.  [doNetworksCreate] starts with exactly one call of the driver's
    [Validate].  For the joiner client type the config of that call is the
    config of the network without the key [security.acls] and without the
    keys that start with [security.acls.], the dot included; every other key
    is kept with its value.  For every other client type it is the whole
    config of the network. *)
Theorem joiner_validation_skips_acl_keys (n : Network) (clientType : ClientType) (w : World) :
  exists cfg ok rest,
    trace (doNetworksCreate env n clientType w).2 =
      trace w ++ EvDriver (netMember n) (netProject n) (netName n) (DrvValidate cfg) ok :: rest /\
    Forall (fun e => isValidate e = false) rest /\
    forall k, cfg !! k =
              if bool_decide (clientType = ClientTypeJoiner) && isACLKey k then None
              else netConfig n !! k.
Proof.
  destruct (doNetworksCreate_trace env n clientType w) as (ok & rest & Hs & Hrest & _).
  destruct (Emits_doNetworksCreate env n clientType w) as (Hext & _).
  exists (validateConfigOf clientType n), ok, rest.
  split; [by rewrite Hext, Hs|]. split; [done|].
  intros k. unfold validateConfigOf.
  destruct (decide (clientType = ClientTypeJoiner)) as [->|Hne].
  - rewrite bool_decide_eq_true_2 by done. apply joinerValidateConfig_lookup.
  - by rewrite bool_decide_eq_false_2.
Qed.

End JoinerValidation.

Section Refusals.
Variable IsNodeSpecificNetworkConfig : string -> bool.
Variable env : Env.

(** C7.  On a clustered server every rename request is answered with bad
    request and leaves the world as it was: nothing is read, checked or
    written before the refusal, and the driver is not called. *)
Theorem rename_refused_when_clustered (self : string) (r : Request) (w : World) :
  serverClustered env = true ->
  networkPost env self r w =
    (BadRequest (ErrNew "Renaming clustered network not supported"), w).
Proof.
  intros Hc. unfold networkPost. runM. rewrite Hc. reflexivity.
Qed.

(** C10.  A delete request that is not a cluster notification, for a network
    that loads, passes the project's access check and reports to be in use,
    is answered with bad request and leaves the world as it was: no driver
    [Delete], no request to a peer, no write to the catalog. *)
Theorem delete_in_use_refused (self : string) (r : Request) (w : World)
    (projectName networkName : string) (reqProject : Project) (row : NetRow) :
  isClusterNotification r = false ->
  networkProject env (reqProjectParam r) w = Ok (projectName, reqProject) ->
  reqNetworkName r = Ok networkName ->
  fault env (OpLoadByName self projectName networkName) w = None ->
  catalog w !! (projectName, networkName) = Some row ->
  networkAllowed env (projConfig reqProject) networkName true = true ->
  driverIsUsed env (viewRow self projectName networkName row) false w = Ok true ->
  networkDelete env self r w = (BadRequest (ErrNew "The network is currently in use"), w).
Proof.
  intros Hn Hp Hname Hf Hrow Hallow Hused.
  unfold networkDelete, networkDeleteWith, LoadByName.
  runM. rewrite Hp. runM. rewrite Hname. runM. rewrite Hf. runM. rewrite Hrow.
  runM. cbn [netManaged viewRow]. rewrite Hallow.
  runM. rewrite Hn. cbn [negb]. runM. rewrite Hused. reflexivity.
Qed.

(** C6.  On a network whose local status is created, [doNetworksCreate] is
    the driver's [Validate] call and nothing else: it returns success when
    the validation passes and the validation error otherwise, and neither
    calls [Create] or [Start] nor marks the member created. *)
Theorem doNetworksCreate_already_created (n : Network) (clientType : ClientType) (w : World) :
  netLocalStatus n = NetworkStatusCreated ->
  let cfg := if decide (clientType = ClientTypeJoiner)
             then joinerValidateConfig (netConfig n) else netConfig n in
  let validated ok := EvDriver (netMember n) (netProject n) (netName n) (DrvValidate cfg) ok in
  doNetworksCreate env n clientType w =
    match driver env n (DrvValidate cfg) w with
    | None => (Ok tt, emit (validated true) w)
    | Some err => (Ret err, emit (validated false) w)
    end.
Proof.
  intros Hst cfg validated. unfold doNetworksCreate, driverCall. runM.
  fold cfg. destruct (driver env n (DrvValidate cfg) w); [reflexivity|].
  rewrite Hst. reflexivity.
Qed.
End Refusals.

(** ** Update *)

Section UpdateScope.
Variable IsNodeSpecificNetworkConfig : string -> bool.
Variable env : Env.

(** The checks of an update read only. *)
Lemma networkPutChecks_pure (self : string) (r : Request) (w w1 : World) x :
  networkPutChecks IsNodeSpecificNetworkConfig env self r w = (x, w1) -> w1 = w.
Proof.
  intros Hrun.
  assert (Sat Same (networkPutChecks IsNodeSpecificNetworkConfig env self r)) as Hsat.
  { unfold networkPutChecks, requestProject, requestNetworkName, LoadByName. sat' env. }
  specialize (Hsat w). rewrite Hrun in Hsat. exact Hsat.
Qed.

(** The keys of the changed config are the changed keys. *)
Lemma changedConfig_changedKey (n : Network) (req : NetworkPut) (k : string) :
  is_Some (changedConfig (netConfig n) (putConfig req) !! k) <-> changedKey n req k.
Proof.
  unfold changedKey. rewrite changedConfig_lookup.
  destruct (putConfig req !! k) as [v|]; cbn.
  - destruct (String.eqb_spec (cfg_get (netConfig n) k) v) as [Heq|Hne].
    + split; [by intros [? ?]|]. intros (v' & [= <-] & Hv). done.
    + split; [eauto|]. intros _. by eexists.
  - split; [by intros [? ?]|]. by intros (v & ? & _).
Qed.

(** C5.  Key scope of [PUT] and [PATCH] on a clustered server, for a request
    that passed the checks before it.  A key is changed when the request
    gives it a value that differs from the current one.  Without a target,
    one changed member-specific key makes the answer bad request; with a
    target, one changed key that is not member-specific does; in both cases
    nothing is written.  When every changed key has the scope that the
    request asks for, whatever the unchanged keys are, the update goes on to
    [doNetworkUpdate]. *)
Theorem networkPut_key_scope (self : string) (r : Request) (w : World)
    (projectName targetNode : string) (n : Network) (req : NetworkPut) :
  serverClustered env = true ->
  networkPutChecks IsNodeSpecificNetworkConfig env self r w = (Ok (projectName, n, targetNode, req), w) ->
  (targetNode = "" ->
   (exists k, changedKey n req k /\ IsNodeSpecificNetworkConfig k = true) ->
   networkPutLocal IsNodeSpecificNetworkConfig env self r w =
     (BadRequest (ErrNew "Config key is cluster member specific"), w)) /\
  (targetNode <> "" ->
   (exists k, changedKey n req k /\ IsNodeSpecificNetworkConfig k = false) ->
   networkPutLocal IsNodeSpecificNetworkConfig env self r w =
     (BadRequest (ErrNew "Config key may not be used as member-specific key"), w)) /\
  ((forall k, changedKey n req k ->
      IsNodeSpecificNetworkConfig k = negb (String.eqb targetNode "")) ->
   networkPutLocal IsNodeSpecificNetworkConfig env self r w =
     let upd := doNetworkUpdate IsNodeSpecificNetworkConfig env n req targetNode
                  (reqClientType r) (reqMethod r) true w in
     (upd.1, emit (EvLifecycle projectName (netName n) LifecycleNetworkUpdated) upd.2)).
Proof.
  intros Hc Hchecks.
  assert (forall p, anyKey p (changedConfig (netConfig n) (putConfig req)) = true <->
            exists k, changedKey n req k /\ p k = true) as Hany.
  { intros p. rewrite anyKey_true. split.
    - intros (k & v & Hl & Hp). exists k. split; [|done].
      apply changedConfig_changedKey. eauto.
    - intros (k & Hk & Hp). apply changedConfig_changedKey in Hk as [v Hv]. eauto. }
  unfold networkPutLocal.
  cbv beta iota zeta delta [handle bindM]. rewrite Hchecks.
  cbv beta iota zeta delta [handle bindM].
  unfold networkPutScope. rewrite Hc.
  split; [|split].
  - intros -> Hex. cbn [String.eqb].
    apply Hany in Hex. rewrite Hex. reflexivity.
  - intros Hne Hex. apply String.eqb_neq in Hne. rewrite Hne.
    assert (anyKey (fun k => negb (IsNodeSpecificNetworkConfig k))
              (changedConfig (netConfig n) (putConfig req)) = true) as ->.
    { apply Hany. destruct Hex as (k & Hk & Hs). exists k. by rewrite Hs. }
    reflexivity.
  - intros Hall. destruct (String.eqb targetNode "") eqn:Ht.
    + assert (anyKey IsNodeSpecificNetworkConfig
                (changedConfig (netConfig n) (putConfig req)) = false) as ->.
      { apply not_true_iff_false. intros Ha. apply Hany in Ha as (k & Hk & Hs).
        rewrite (Hall k Hk) in Hs. done. }
      runM. cbn [negb]. unfold SendLifecycle. runM.
      by destruct (doNetworkUpdate _ _ _ _ _ _ _ _ _).
    + assert (anyKey (fun k => negb (IsNodeSpecificNetworkConfig k))
                (changedConfig (netConfig n) (putConfig req)) = false) as ->.
      { apply not_true_iff_false. intros Ha. apply Hany in Ha as (k & Hk & Hs).
        rewrite (Hall k Hk) in Hs. done. }
      runM. cbn [negb]. unfold SendLifecycle. runM.
      by destruct (doNetworkUpdate _ _ _ _ _ _ _ _ _).
Qed.
End UpdateScope.

(** ** List *)

(** What a sequence yields is what its last step yields. *)
Lemma Yields_bind {E A B} (P : B -> Prop) (c : M E A) (k : A -> M E B) :
  (forall a, Yields P (k a)) -> Yields P (bindM c k).
Proof.
  intros Hk w b w'. unfold bindM. destruct (c w) as [[a|e] w1]; [apply Hk|done].
Qed.

(** What a return yields. *)
Lemma Yields_ret {E A} (P : A -> Prop) (a : A) : P a -> Yields P (retM (E:=E) a).
Proof. intros Ha w a' w' [= <- _]. exact Ha. Qed.

(** Two networks with the same link have the same name. *)
Lemma networkLink_inj (x y : string) : networkLink x = networkLink y -> x = y.
Proof. unfold networkLink, APIVersion. cbv [String.append]. congruence. Qed.

(** The names that the catalog lists. *)
Lemma elem_of_networkNamesOf (keep : string -> NetRow -> bool) (c : Catalog) (x : string) :
  x ∈ networkNamesOf keep c <-> exists p row, c !! (p, x) = Some row /\ keep p row = true.
Proof.
  unfold networkNamesOf. rewrite list_elem_of_omap. split.
  - intros ([[p n] row] & Hin & Hx). cbn in Hx.
    destruct (keep p row) eqn:Hk; [|done]. injection Hx as ->.
    exists p, row. split; [by apply elem_of_map_to_list|done].
  - intros (p & row & Hl & Hk). exists (p, x, row).
    split; [by apply elem_of_map_to_list|]. cbn. by rewrite Hk.
Qed.

(** The catalog lists no name of a project twice. *)
Lemma NoDup_networkNamesOf (project : string) (c : Catalog) :
  NoDup (networkNamesOf (fun p _ => bool_decide (p = project)) c).
Proof.
  unfold networkNamesOf.
  pose proof (NoDup_fst_map_to_list c) as Hnd.
  induction (map_to_list c) as [|[[p n] row] l IH]; cbn; [constructor|].
  apply NoDup_cons in Hnd as [Hnin Hnd]. specialize (IH Hnd).
  case_bool_decide as Hp; cbn; [|done].
  constructor; [|done]. subst p.
  rewrite list_elem_of_omap. intros ([[p' n'] row'] & Hin & Hx). cbn in Hx.
  case_bool_decide as Hp'; [|done]. injection Hx as ->. subst p'.
  apply Hnin. apply list_elem_of_fmap. by exists (project, n, row').
Qed.

Section GetNetwork.
Variable IsNodeSpecificNetworkConfig : string -> bool.
Variable env : Env.

(** Loading the view of a network reads only. *)
Lemma Same_doNetworkGet (self : string) (r : Request) (allNodes : bool)
    (projectName : string) (cfg : Config) (networkName : string) :
  Sat Same (doNetworkGet IsNodeSpecificNetworkConfig env self r allNodes projectName cfg networkName).
Proof.
  unfold doNetworkGet, LoadByName, probeType. sat' env.
  all: try apply Same_attempt; sat' env.
  - intros w. by destruct (checkPermission env r projectName networkName w) as [err|];
      [destruct (StatusErrorCheck err StatusForbidden)|].
  - intros w. unfold Same.
    repeat match goal with
    | |- context [if ?b then _ else _] => destruct b
    | |- context [match ?x with _ => _ end] => destruct x
    end; done.
Qed.

(** The view of a network carries the name that was asked for. *)
Lemma doNetworkGet_name (self : string) (r : Request) (allNodes : bool)
    (projectName : string) (cfg : Config) (networkName : string) :
  Yields (fun info => apiName info = networkName)
    (doNetworkGet IsNodeSpecificNetworkConfig env self r allNodes projectName cfg networkName).
Proof.
  unfold doNetworkGet.
  repeat (apply Yields_bind; intros ?).
  repeat match goal with a : _ * _ |- _ => destruct a end.
  apply Yields_bind; intros ?. by apply Yields_ret.
Qed.

End GetNetwork.

(** The loop over the host interfaces appends the names that do not start
    with [veth] and are not in the list yet. *)
Lemma appendInterfaces (projectName : string) (ifaces : list Interface) (names : list string) :
  exists names',
    foldl (appendInterface projectName) {[projectName := names]} ifaces =
      {[projectName := names']} /\
    (NoDup names -> NoDup names') /\
    forall x, x ∈ names' <->
              x ∈ names \/ (x ∈ ifName <$> ifaces /\ String.prefix "veth" x = false).
Proof.
  revert names. induction ifaces as [|iface ifaces IH]; intros names; cbn [foldl].
  - exists names. split; [done|]. split; [done|]. intros x. rewrite fmap_nil.
    split; [tauto|]. intros [?|[Hx _]]; [done|]. by apply elem_of_nil in Hx.
  - unfold appendInterface at 2. rewrite lookup_singleton_eq.
    change (default [] (Some names)) with names.
    destruct (String.prefix "veth" (ifName iface)) eqn:Hveth.
    { destruct (IH names) as (names' & -> & Hnd & Hin). exists names'.
      split; [done|]. split; [done|]. intros x. rewrite Hin, fmap_cons, elem_of_cons.
      split; [tauto|]. intros [?|[[ -> |?] ?]]; [tauto|congruence|tauto]. }
    unfold Contains. case_bool_decide as Hc.
    { destruct (IH names) as (names' & -> & Hnd & Hin). exists names'.
      split; [done|]. split; [done|]. intros x. rewrite Hin, fmap_cons, elem_of_cons.
      split; [tauto|]. intros [?|[[ -> |?] ?]]; tauto. }
    rewrite insert_singleton_eq.
    destruct (IH (names ++ [ifName iface])) as (names' & -> & Hnd & Hin). exists names'.
    split; [done|]. split.
    + intros Hn. apply Hnd. apply NoDup_app. split; [done|].
      split; [|apply NoDup_singleton]. intros x Hx Hx'. apply list_elem_of_singleton in Hx'.
      by subst.
    + intros x. rewrite Hin, fmap_cons, elem_of_cons, elem_of_app, list_elem_of_singleton.
      split; [|tauto]. intros [[?| ->]|[? ?]]; tauto.
Qed.

Section ListLoop.
Variable IsNodeSpecificNetworkConfig : string -> bool.
Variable env : Env.

(** The filter loop of the list: it reads only and keeps, in order, some of
    the names that the caller may view; without loading the objects it keeps
    exactly the names that pass the permission check and the access check. *)
Lemma foldM_listEntry (self : string) (r : Request) (reqProject : Project)
    (mustLoadObjects : bool) (clauses : list string)
    (userHasPermission : string -> string -> bool) (projectName : string)
    (names : list string) (acc res : list string * list ApiNetwork) (w w' : World) :
  foldM (listEntry IsNodeSpecificNetworkConfig env self r reqProject mustLoadObjects clauses
           userHasPermission projectName) names acc w = (Ok res, w') ->
  w' = w /\
  exists kept,
    res.1 = acc.1 ++ (networkLink <$> kept) /\
    (mustLoadObjects = true -> apiName <$> res.2 = (apiName <$> acc.2) ++ kept) /\
    sublist kept names /\
    (forall x, x ∈ kept -> userHasPermission projectName x = true) /\
    (mustLoadObjects = false ->
     kept = filter (fun x => userHasPermission projectName x = true /\
                             networkAllowed env (projConfig reqProject) x true = true) names).
Proof.
  revert acc w. induction names as [|x names IH]; intros acc w; cbn [foldM].
  - intros [= <- <-]. split; [done|]. exists []. rewrite !app_nil_r.
    split; [done|]. split; [done|]. split; [done|]. split; [|done].
    intros x Hx. by apply elem_of_nil in Hx.
  - unfold bindM at 1.
    destruct (listEntry _ _ _ _ _ _ _ _ _ _ x w) as [[acc1|e] w1] eqn:Hentry; [|done].
    intros Hrest. apply IH in Hrest as (-> & kept & H1 & H2 & Hsub & Hperm & Hfilter).
    revert Hentry. unfold listEntry.
    destruct (userHasPermission projectName x) eqn:Hp; cbn [negb].
    2:{ intros [= <- <-]. split; [done|]. exists kept. split; [done|]. split; [done|].
        split; [by apply sublist_cons|]. split; [done|].
        intros Hm. rewrite (Hfilter Hm). rewrite filter_cons_False; [done|]. intros [? ?]. congruence. }
    destruct mustLoadObjects.
    + unfold bindM at 1, attemptM.
      pose proof (Same_doNetworkGet IsNodeSpecificNetworkConfig env self r (serverClustered env)
                    projectName (projConfig reqProject) x w) as Hsame.
      pose proof (doNetworkGet_name IsNodeSpecificNetworkConfig env self r (serverClustered env)
                    projectName (projConfig reqProject) x w) as Hname.
      unfold Same in Hsame.
      destruct (doNetworkGet _ _ _ _ _ _ _ x w) as [[info|e] w2]; cbn [fst snd] in *; subst w2.
      2:{ intros [= <- <-]. split; [done|]. exists kept. split; [done|]. split; [done|].
          split; [by apply sublist_cons|]. split; [done|]. done. }
      specialize (Hname info w eq_refl).
      assert (forall res1 : list string * list ApiNetwork,
                res1 = (acc.1 ++ [networkLink x], acc.2 ++ [info]) ->
                acc1 = res1 ->
                w = w /\ exists kept0,
                  res.1 = acc.1 ++ (networkLink <$> kept0) /\
                  (true = true -> apiName <$> res.2 = (apiName <$> acc.2) ++ kept0) /\
                  sublist kept0 (x :: names) /\
                  (forall y, y ∈ kept0 -> userHasPermission projectName y = true) /\
                  (true = false -> kept0 = filter (fun x => userHasPermission projectName x = true /\
                             networkAllowed env (projConfig reqProject) x true = true) (x :: names)))
        as Hkeep.
      { intros res1 -> ->. cbn [fst snd] in *. split; [done|]. exists (x :: kept).
        split; [rewrite H1, fmap_cons, <- app_assoc; done|].
        split; [intros _; rewrite (H2 eq_refl), fmap_app, <- app_assoc; cbn; by rewrite Hname|].
        split; [by apply sublist_skip|]. split; [|done].
        intros y Hy. apply elem_of_cons in Hy as [->|Hy]; auto. }
      assert (acc1 = acc ->
                w = w /\ exists kept0,
                  res.1 = acc.1 ++ (networkLink <$> kept0) /\
                  (true = true -> apiName <$> res.2 = (apiName <$> acc.2) ++ kept0) /\
                  sublist kept0 (x :: names) /\
                  (forall y, y ∈ kept0 -> userHasPermission projectName y = true) /\
                  (true = false -> kept0 = filter (fun x => userHasPermission projectName x = true /\
                             networkAllowed env (projConfig reqProject) x true = true) (x :: names)))
        as Hskip.
      { intros ->. split; [done|]. exists kept. split; [done|]. split; [done|].
        split; [by apply sublist_cons|]. split; [done|]. done. }
      cbv beta iota zeta delta [bindM retM orReturn liftM].
      destruct (negb (bool_decide (clauses = []))).
      * destruct (filterMatch env info clauses) as [[]|e]; intros [= <- <-];
          [by eapply Hkeep|by apply Hskip].
      * intros [= <- <-]. by eapply Hkeep.
    + destruct (networkAllowed env (projConfig reqProject) x true) eqn:Ha; cbn [negb].
      * intros [= <- <-]. cbn [fst snd] in *. split; [done|]. exists (x :: kept).
        split; [rewrite H1, fmap_cons, <- app_assoc; done|]. split; [done|].
        split; [by apply sublist_skip|]. split.
        { intros y Hy. apply elem_of_cons in Hy as [->|Hy]; auto. }
        intros _. rewrite filter_cons_True by done. by rewrite <- Hfilter.
      * intros [= <- <-]. split; [done|]. exists kept. split; [done|]. split; [done|].
        split; [by apply sublist_cons|]. split; [done|].
        intros Hm. rewrite (Hfilter Hm). rewrite filter_cons_False; [done|]. intros [? ?]. congruence.
Qed.

(** The filter loop leaves early with an error response only. *)
Lemma foldM_listEntry_ret (self : string) (r : Request) (reqProject : Project)
    (mustLoadObjects : bool) (clauses : list string)
    (userHasPermission : string -> string -> bool) (projectName : string)
    (names : list string) (acc : list string * list ApiNetwork) (resp : Response)
    (w w' : World) :
  foldM (listEntry IsNodeSpecificNetworkConfig env self r reqProject mustLoadObjects clauses
           userHasPermission projectName) names acc w = (Ret resp, w') ->
  isErrorResponse resp = true.
Proof.
  revert acc w. induction names as [|x names IH]; intros acc w; cbn [foldM]; [done|].
  unfold bindM at 1.
  destruct (listEntry _ _ _ _ _ _ _ _ _ _ x w) as [[acc1|e] w1] eqn:Hentry; [by apply IH|].
  intros [= <- <-]. revert Hentry. unfold listEntry.
  cbv beta iota zeta delta [bindM retM orReturn liftM attemptM fst snd].
  destruct (userHasPermission projectName x); cbn [negb]; [|done].
  destruct mustLoadObjects.
  - destruct (doNetworkGet _ _ _ _ _ _ _ x w) as [[info|e0] w2]; cbn [fst snd]; [|done].
    destruct (negb (bool_decide (clauses = []))); [|done].
    destruct (filterMatch env info clauses) as [[]|e0]; intros H; by simplify_eq.
  - by destruct (negb (networkAllowed env (projConfig reqProject) x true)).
Qed.

End ListLoop.

Section ListDefault.
Variable IsNodeSpecificNetworkConfig : string -> bool.
Variable env : Env.

(** C8.  A list request for the default project only, when it succeeds.  The
    candidates are the managed networks of the project and the host
    interfaces whose name does not start with [veth].  No link is returned
    twice, every returned link names a candidate that the caller may view,
    and without recursion and without filter the returned links are exactly
    those of the candidates that pass the permission check and the access
    check of the project. *)
Theorem list_default_project (self : string) (r : Request) (reqProject : Project)
    (w : World) :
  reqAllProjects r = false ->
  networkProject env (reqProjectParam r) w = Ok (ProjectDefaultName, reqProject) ->
  let run := networksGet IsNodeSpecificNetworkConfig env self r w in
  isErrorResponse run.1 = false ->
  let w1 := emit EvTxCommit (emit EvTxBegin w) in
  exists ifaces userHasPermission,
    interfaces env self w1 = Ok ifaces /\
    permissionChecker env r w1 = Ok userHasPermission /\
    let candidate x :=
      is_Some (catalog w !! (ProjectDefaultName, x)) \/
      (x ∈ ifName <$> ifaces /\ String.prefix "veth" x = false) in
    NoDup (listedLinks run.1) /\
    (forall link, link ∈ listedLinks run.1 ->
       exists x, link = networkLink x /\ candidate x /\
                 userHasPermission ProjectDefaultName x = true) /\
    (reqRecursion r = false -> reqFilter r = Ok [] ->
     forall x, networkLink x ∈ listedLinks run.1 <->
       candidate x /\ userHasPermission ProjectDefaultName x = true /\
       networkAllowed env (projConfig reqProject) x true = true).
Proof.
  intros Hall Hp. cbv zeta.
  destruct (networksGet IsNodeSpecificNetworkConfig env self r w) as [resp w'] eqn:Hrun.
  cbn [fst snd]. intros Herr. revert Hrun.
  unfold networksGet, networksGetNames, Transaction, GetNetworks.
  cbv beta iota zeta delta [handle bindM orReturn retM liftM readM faultM requestProject].
  rewrite Hp, Hall. cbv beta iota.
  destruct (reqFilter r) as [clauses|e]; [|by intros [= <- <-]].
  destruct (fault env (OpGetNetworks ProjectDefaultName) (emit EvTxBegin w)) as [e|];
    [by intros [= <- <-]|].
  destruct (fault env OpTxCommit (emit EvTxBegin w)) as [e|]; [by intros [= <- <-]|].
  rewrite decide_True by done.
  set (w1 := emit EvTxCommit (emit EvTxBegin w)).
  change (catalog (emit EvTxBegin w)) with (catalog w).
  destruct (interfaces env self w1) as [ifaces|e]; [|by intros [= <- <-]].
  destruct (permissionChecker env r w1) as [userHasPermission|e]; [|by intros [= <- <-]].
  set (managed := networkNamesOf (fun p _ => bool_decide (p = ProjectDefaultName)) (catalog w)).
  destruct (appendInterfaces ProjectDefaultName ifaces managed) as (names & -> & Hnd & Hin).
  specialize (Hnd (NoDup_networkNamesOf _ _)).
  rewrite map_to_list_singleton. cbn [foldM fst snd].
  cbv beta iota zeta delta [bindM retM].
  match goal with
  | |- context [foldM ?f names ?acc w1] =>
      pose proof (fun res w' => foldM_listEntry IsNodeSpecificNetworkConfig env self r reqProject
                    (reqRecursion r || negb (bool_decide (clauses = []))) clauses
                    userHasPermission ProjectDefaultName names acc res w1 w') as Hfold;
      pose proof (fun resp w' => foldM_listEntry_ret IsNodeSpecificNetworkConfig env self r
                    reqProject (reqRecursion r || negb (bool_decide (clauses = []))) clauses
                    userHasPermission ProjectDefaultName names acc resp w1 w') as Hret;
      destruct (foldM f names acc w1) as [[res|e] w2]
  end; [|intros [= <- <-]; rewrite (Hret e w2 eq_refl) in Herr; done].
  destruct (Hfold res w2 eq_refl) as (-> & kept & H1 & H2 & Hsub & Hperm & Hfilter).
  clear Hfold. cbn [fst snd app fmap list_fmap] in H1, H2.
  assert (NoDup kept) as Hkept by by eapply sublist_NoDup.
  assert (forall x, x ∈ kept ->
            is_Some (catalog w !! (ProjectDefaultName, x)) \/
            (x ∈ ifName <$> ifaces /\ String.prefix "veth" x = false)) as Hcand.
  { intros x Hx. eapply elem_of_sublist in Hx; [|exact Hsub].
    apply Hin in Hx as [Hx|Hx]; [left|by right].
    subst managed. apply elem_of_networkNamesOf in Hx as (p & row & Hl & Hk).
    apply bool_decide_eq_true in Hk. subst p. by eexists. }
  assert (listedLinks (if negb (reqRecursion r) then SyncResponseLinks res.1
                       else SyncResponseNetworks res.2) = networkLink <$> kept) as Hlinks.
  { destruct (reqRecursion r); cbn [negb listedLinks orb] in *.
    - rewrite <- (H2 eq_refl). by rewrite <- list_fmap_compose.
    - done. }
  intros Hrun.
  assert (resp = if negb (reqRecursion r) then SyncResponseLinks res.1
                 else SyncResponseNetworks res.2) as ->.
  { destruct (negb (reqRecursion r)); by injection Hrun as <- _. }
  clear Hrun Herr.
  exists ifaces, userHasPermission. split; [done|]. split; [done|].
  rewrite Hlinks.
  split; [apply NoDup_fmap_2; [intros ? ?; apply networkLink_inj|done]|].
  split;
    [intros link Hl; apply list_elem_of_fmap in Hl as (x & -> & Hx);
     exists x; split; [done|]; split; [by apply Hcand|by apply Hperm]|].
  intros Hr [= ->]. intros x.
  rewrite Hr in Hfilter. specialize (Hfilter eq_refl).
  rewrite list_elem_of_fmap. split.
  - intros (y & Hy & Hk). apply networkLink_inj in Hy. subst y.
    split; [by apply Hcand|]. rewrite Hfilter in Hk.
    by apply list_elem_of_filter in Hk as [? _].
  - intros (Hc & Hpx & Hax). exists x. split; [done|]. rewrite Hfilter.
    apply list_elem_of_filter. split; [done|]. apply Hin.
    destruct Hc as [[row Hrow]|Hc]; [left|by right].
    subst managed. apply elem_of_networkNamesOf. exists ProjectDefaultName, row.
    split; [done|]. by apply bool_decide_eq_true.
Qed.

End ListDefault.

(** ** Startup *)

Section Startup.
Variable env : Env.



End Startup.

(** ** Runs that keep the catalog *)

(** Leaving the catalog as it was survives sequencing. *)
#[global] Instance KeepsCatalog_composable : Composable KeepsCatalog.
Proof.
  split; unfold KeepsCatalog.
  - done.
  - intros b w w1 w2 H1 H2. by rewrite H2.
  - intros b w w1 w2 H1 H2. by rewrite H2.
  - done.
Qed.

(** Adding events among [allowed] survives sequencing. *)
#[global] Instance Within_composable (allowed : Event -> bool) : Composable (Within allowed).
Proof.
  split.
  - intros b w. unfold Within. rewrite since_refl. split; [|done].
    apply (extends_intro _ _ []). by rewrite app_nil_r.
  - intros b w w1 w2 (E1 & A1) (E2 & A2).
    unfold Within. destruct (since_trans _ _ _ E1 E2) as [E ->].
    split; [done|]. by apply Forall_app.
  - intros b w w1 w2 (E1 & A1) (E2 & A2).
    unfold Within. destruct (since_trans _ _ _ E1 E2) as [E ->].
    split; [done|]. by apply Forall_app.
  - done.
Qed.

(** Leaving the world as it was does not depend on how the run ends. *)
#[global] Instance Same_unconditional : Unconditional Same.
Proof. by intros b b' w w'. Qed.

(** Leaving the catalog as it was does not depend on how the run ends. *)
#[global] Instance KeepsCatalog_unconditional : Unconditional KeepsCatalog.
Proof. by intros b b' w w'. Qed.

(** Keeping every global status does not depend on how the run ends. *)
#[global] Instance KeepsStatus_unconditional : Unconditional KeepsStatus.
Proof. by intros b b' w w'. Qed.

(** Adding events among [allowed] does not depend on how the run ends. *)
#[global] Instance Within_unconditional (allowed : Event -> bool) : Unconditional (Within allowed).
Proof. by intros b b' w w'. Qed.

Section UnconditionalClosure.
Context {R : bool -> World -> World -> Prop} `{!Composable R, !Unconditional R}.

(** A step whose outcome is looked at leaves what the step leaves. *)
Lemma Sat_attemptM {E E' A} `{Early E, Early E'} (c : M E A) :
  Sat R c -> Sat R (attemptM (E':=E') c).
Proof. intros Hc w. eapply unconditional, Hc. Qed.

(** A step whose error is dropped leaves what the step leaves. *)
Lemma Sat_ignoreM {E E' A} `{Early E, Early E'} (c : M E A) :
  Sat R c -> Sat R (ignoreM (E':=E') c).
Proof. intros Hc w. eapply unconditional, Hc. Qed.

(** A helper written as a handler leaves what its run leaves. *)
Lemma Sat_respondM {E} `{Early E} (h : World -> Response * World) :
  (forall b w, R b w (h w).2) -> Sat R (respondM (E:=E) h).
Proof. intros Hh w. apply Hh. Qed.

(** A body under a reverter leaves what the body and the undo leave. *)
Lemma Sat_reverted {A} (undo : M error unit) (body : M error A) :
  Sat R undo -> Sat R body -> Sat R (withRevert undo body).
Proof. intros Hu Hb. apply Sat_withRevert; [by apply Sat_weak|done]. Qed.

(** What a handler leaves, whatever its response. *)
Lemma Sat_handled (c : M Response Response) :
  Sat R c -> forall b w, R b w (handle c w).2.
Proof.
  intros Hc b w. eapply unconditional. apply (Sat_handle c Hc).
Qed.

End UnconditionalClosure.

(** A run that emits among [allowed] stays within [allowed]. *)
Lemma Within_of_Emits {E A} `{Early E} (allowed : Event -> bool) (c : M E A) :
  Sat (Emits allowed) c -> Sat (Within allowed) c.
Proof. intros Hc w. destruct (Hc w) as (? & ? & _). by split. Qed.

(** A run within [allowed] is within every larger set of events. *)
Lemma Within_mono {E A} `{Early E} (allowed allowed' : Event -> bool) (c : M E A) :
  (forall e, allowed e = true -> allowed' e = true) ->
  Sat (Within allowed) c -> Sat (Within allowed') c.
Proof.
  intros Hsub Hc w. destruct (Hc w) as (? & Ha). split; [done|].
  eapply Forall_impl; [exact Ha|]. auto.
Qed.

Section CatalogPrimitives.
Variable env : Env.

(** An event leaves the catalog as it was. *)
Lemma KeepsCatalog_emitM {E} `{Early E} (e : Event) : Sat KeepsCatalog (emitM (E:=E) e).
Proof. done. Qed.

(** A call into the driver leaves the catalog as it was. *)
Lemma KeepsCatalog_driverCall (n : Network) (call : DriverCall) :
  Sat KeepsCatalog (driverCall env n call).
Proof. intros w. unfold driverCall. by destruct (driver env n call w). Qed.

(** A call of the authorizer leaves the catalog as it was. *)
Lemma KeepsCatalog_authorizerCall {E} `{Early E} (call : AuthorizerCall) :
  Sat KeepsCatalog (authorizerCall env (E:=E) call).
Proof. intros w. unfold authorizerCall. by destruct (fault env (OpAuthorizer call) w). Qed.

(** Filling the defaults leaves the catalog as it was. *)
Lemma KeepsCatalog_FillConfig (type : string) (cfg : Config) :
  Sat KeepsCatalog (FillConfig env type cfg).
Proof. intros w. unfold FillConfig. by destruct (fillConfig env type cfg). Qed.

(** A transaction whose body leaves the catalog as it was leaves it as it was. *)
Lemma KeepsCatalog_Transaction {A} (body : M error A) :
  Sat KeepsCatalog body -> Sat KeepsCatalog (Transaction env body).
Proof.
  intros Hbody w. unfold Transaction.
  specialize (Hbody (emit EvTxBegin w)).
  destruct (body (emit EvTxBegin w)) as [[a|e] w1]; cbn in *; [|done].
  destruct (fault env OpTxCommit w1); cbn; done.
Qed.

(** A transaction that fails leaves the catalog as it was, whatever its
    body wrote. *)
Lemma Transaction_failed {A} (body : M error A) (w : World) :
  is_ok (Transaction env body w).1 = false ->
  catalog (Transaction env body w).2 = catalog w.
Proof.
  unfold Transaction.
  destruct (body (emit EvTxBegin w)) as [[a|e] w1]; cbn; [|done].
  destruct (fault env OpTxCommit w1); cbn; done.
Qed.

(** A write to the warnings store leaves the catalog as it was. *)
Lemma KeepsCatalog_warning (wr : DbWrite) : Sat KeepsCatalog (writeM env wr (fun c => Ok c)).
Proof.
  intros w. unfold writeM. cbv zeta.
  destruct (fault env (OpWrite wr) (emit (EvDb wr) w)); done.
Qed.

(** A call of the authorizer records its own event. *)
Lemma Within_authorizerCall {E} `{Early E} (allowed : Event -> bool) (call : AuthorizerCall) :
  (forall ok, allowed (EvAuthorizer call ok) = true) ->
  Sat (Within allowed) (authorizerCall env (E:=E) call).
Proof.
  intros Ha w. unfold authorizerCall.
  destruct (fault env (OpAuthorizer call) w); cbn.
  all: split; [by eapply extends_intro|]; erewrite since_app by (cbn; reflexivity); by repeat constructor.
Qed.

End CatalogPrimitives.

(** The steps of a handler that leave an unconditional property of runs. *)
Ltac usat_prim env :=
  first
    [ apply (Sat_same (faultM env _)), Same_faultM
    | apply (Sat_same (readM env _ _)), Same_readM
    | apply KeepsCatalog_driverCall
    | apply KeepsCatalog_Transaction
    | apply KeepsCatalog_emitM
    | apply KeepsCatalog_authorizerCall
    | apply KeepsCatalog_FillConfig
    | apply KeepsCatalog_warning
    | apply Within_authorizerCall; intros ?; reflexivity
    | apply Within_of_Emits; sat_prim env
    | sat_prim env ].

(** One step through a sequence, a branch, an attempt or a reverter. *)
Ltac usat_step :=
  first
    [ sat_case
    | sat_step
    | lazymatch goal with
      | |- Sat _ (attemptM _) => apply Sat_attemptM
      | |- Sat _ (ignoreM _) => apply Sat_ignoreM
      | |- Sat _ (withRevert _ _) => apply Sat_reverted
      end ].

(** A handler that is a sequence of such steps. *)
Ltac usat env := repeat first [usat_step | usat_prim env].

(** ** The merges of an update *)

Section UpdateMerge.
Variable IsNodeSpecificNetworkConfig : string -> bool.

(** The config of a [PUT] without target: a member-specific key keeps its
    current value, any other key has the value of the request. *)
Lemma mergeNodeSpecific_lookup (cur reqConfig : Config) (k : string) :
  mergeNodeSpecific IsNodeSpecificNetworkConfig cur reqConfig !! k =
    if IsNodeSpecificNetworkConfig k
    then match cur !! k with Some v => Some v | None => reqConfig !! k end
    else reqConfig !! k.
Proof.
  unfold mergeNodeSpecific.
  apply (map_fold_weak_ind (fun acc m =>
    acc !! k = if IsNodeSpecificNetworkConfig k
               then match m !! k with Some v => Some v | None => reqConfig !! k end
               else reqConfig !! k)).
  - rewrite lookup_empty. by destruct (IsNodeSpecificNetworkConfig k).
  - intros i x m acc Hi IH. destruct (decide (i = k)) as [->|Hne].
    + rewrite lookup_insert_eq. destruct (IsNodeSpecificNetworkConfig k) eqn:Hk.
      * by rewrite lookup_insert_eq.
      * by rewrite IH.
    + rewrite (lookup_insert_ne m) by done.
      destruct (IsNodeSpecificNetworkConfig i); [by rewrite lookup_insert_ne|done].
Qed.

(** The config of a [PATCH]: the request, then the current config for the keys
    that the request leaves out. *)
Lemma mergeMissing_union (cur reqConfig : Config) :
  mergeMissing cur reqConfig = reqConfig ∪ cur.
Proof.
  apply map_eq. intros k. rewrite lookup_union. unfold mergeMissing.
  apply (map_fold_weak_ind (fun acc m => acc !! k = union_with (fun x _ => Some x) (reqConfig !! k) (m !! k))).
  - rewrite lookup_empty. by destruct (reqConfig !! k).
  - intros i x m acc Hi IH. destruct (decide (i = k)) as [->|Hne].
    + rewrite lookup_insert_eq. rewrite Hi in IH.
      destruct (acc !! k) as [y|] eqn:Hacc.
      * rewrite Hacc. destruct (reqConfig !! k); by simplify_eq/=.
      * rewrite lookup_insert_eq. destruct (reqConfig !! k); by simplify_eq/=.
    + rewrite (lookup_insert_ne m) by done.
      destruct (acc !! i); [done|by rewrite lookup_insert_ne].
Qed.

End UpdateMerge.


(** ** Update ([doNetworkUpdate], [networkPut]) *)

Section Update.
Variable IsNodeSpecificNetworkConfig : string -> bool.
Variable env : Env.

(** The config that [doNetworkUpdate] validates and applies. *)
Lemma doNetworkUpdate_run (n : Network) (req : NetworkPut) (targetNode : string)
    (clientType : ClientType) (httpMethod : Method) (clustered : bool) (w : World) :
  let cfg :=
    if String.eqb targetNode "" && negb (bool_decide (httpMethod = MethodPatch)) && clustered
    then mergeNodeSpecific IsNodeSpecificNetworkConfig (netConfig n) (putConfig req)
    else if bool_decide (httpMethod = MethodPatch)
         then mergeMissing (netConfig n) (putConfig req)
         else putConfig req in
  let validated := EvDriver (netMember n) (netProject n) (netName n) (DrvValidate cfg) in
  let updated := EvDriver (netMember n) (netProject n) (netName n)
                   (DrvUpdate (withConfig req cfg) targetNode clientType) in
  let run := doNetworkUpdate IsNodeSpecificNetworkConfig env n req targetNode clientType
               httpMethod clustered w in
  catalog run.2 = catalog w /\
  ((exists err, run.1 = BadRequest err /\ trace run.2 = trace w ++ [validated false]) \/
   (exists err, run.1 = SmartError err /\
                trace run.2 = trace w ++ [validated true; updated false]) \/
   (run.1 = EmptySyncResponse /\ trace run.2 = trace w ++ [validated true; updated true])).
Proof.
  cbv zeta. unfold doNetworkUpdate.
  set (cfg := if String.eqb targetNode "" && _ && _ then _ else _).
  unfold driverCall. runM. cbn [putConfig withConfig].
  destruct (driver env n (DrvValidate cfg) w) as [err|].
  { split; [done|]. left. by exists err. }
  destruct (driver env n (DrvUpdate _ _ _) _) as [err|]; cbn.
  - split; [done|]. right. left. exists err. split; [done|]. by rewrite <- app_assoc.
  - split; [done|]. right. right. split; [done|]. by rewrite <- app_assoc.
Qed.

(** X21. [doNetworkUpdate] for a [PUT] without target on a clustered server: the
    config that is validated and applied has, for a member-specific key,
    the current value when there is one, and the value of the request for
    every other key; the driver is called for [Validate] first and then for
    [Update] only. *)
Theorem put_keeps_member_specific_keys (n : Network) (req : NetworkPut)
    (clientType : ClientType) (httpMethod : Method) (w : World) :
  httpMethod <> MethodPatch ->
  let run := doNetworkUpdate IsNodeSpecificNetworkConfig env n req "" clientType
               httpMethod true w in
  exists cfg ok rest,
    since w run.2 =
      EvDriver (netMember n) (netProject n) (netName n) (DrvValidate cfg) ok :: rest /\
    (forall e, e ∈ rest ->
       exists ok', e = EvDriver (netMember n) (netProject n) (netName n)
                         (DrvUpdate (withConfig req cfg) "" clientType) ok') /\
    forall k, cfg !! k =
              if IsNodeSpecificNetworkConfig k
              then match netConfig n !! k with
                   | Some v => Some v
                   | None => putConfig req !! k
                   end
              else putConfig req !! k.
Proof.
  intros Hm. cbv zeta.
  pose proof (doNetworkUpdate_run n req "" clientType httpMethod true w) as [_ Hrun].
  cbv zeta in Hrun. rewrite bool_decide_eq_false_2 in Hrun by done.
  cbn [String.eqb negb andb] in Hrun.
  exists (mergeNodeSpecific IsNodeSpecificNetworkConfig (netConfig n) (putConfig req)).
  destruct Hrun as [(err & _ & Ht)|[(err & _ & Ht)|(_ & Ht)]].
  - exists false, []. split; [by apply since_app|]. split; [|apply mergeNodeSpecific_lookup].
    intros e He. by apply elem_of_nil in He.
  - eexists true, [_]. split; [by apply since_app|]. split; [|apply mergeNodeSpecific_lookup].
    intros e He. apply list_elem_of_singleton in He. by eexists.
  - eexists true, [_]. split; [by apply since_app|]. split; [|apply mergeNodeSpecific_lookup].
    intros e He. apply list_elem_of_singleton in He. by eexists.
Qed.

(** X22. [doNetworkUpdate] for a [PATCH]: the config that is validated and
    applied has the value of the request for a key of the request and the
    current value for every other key. *)
Theorem patch_keeps_missing_keys (n : Network) (req : NetworkPut) (targetNode : string)
    (clientType : ClientType) (clustered : bool) (w : World) :
  let run := doNetworkUpdate IsNodeSpecificNetworkConfig env n req targetNode clientType
               MethodPatch clustered w in
  let cfg := putConfig req ∪ netConfig n in
  exists ok rest,
    since w run.2 =
      EvDriver (netMember n) (netProject n) (netName n) (DrvValidate cfg) ok :: rest /\
    (forall e, e ∈ rest ->
       exists ok', e = EvDriver (netMember n) (netProject n) (netName n)
                         (DrvUpdate (withConfig req cfg) targetNode clientType) ok') /\
    (forall k v, putConfig req !! k = Some v -> cfg !! k = Some v) /\
    (forall k, putConfig req !! k = None -> cfg !! k = netConfig n !! k).
Proof.
  cbv zeta.
  pose proof (doNetworkUpdate_run n req targetNode clientType MethodPatch clustered w) as [_ Hrun].
  cbv zeta in Hrun. rewrite bool_decide_eq_true_2 in Hrun by done.
  cbn [negb] in Hrun. rewrite andb_false_r in Hrun. cbn [andb] in Hrun.
  rewrite mergeMissing_union in Hrun.
  assert ((forall k v, putConfig req !! k = Some v ->
             (putConfig req ∪ netConfig n) !! k = Some v) /\
          (forall k, putConfig req !! k = None ->
             (putConfig req ∪ netConfig n) !! k = netConfig n !! k)) as [Hl Hr].
  { split.
    - intros k v Hk. by apply lookup_union_Some_l.
    - intros k Hk. by apply lookup_union_r. }
  destruct Hrun as [(err & _ & Ht)|[(err & _ & Ht)|(_ & Ht)]].
  - exists false, []. split; [by apply since_app|]. split; [|done].
    intros e He. by apply elem_of_nil in He.
  - eexists true, [_]. split; [by apply since_app|]. split; [|done].
    intros e He. apply list_elem_of_singleton in He. by eexists.
  - eexists true, [_]. split; [by apply since_app|]. split; [|done].
    intros e He. apply list_elem_of_singleton in He. by eexists.
Qed.

(** X23. [doNetworkUpdate] calls the driver's [Validate] on the merged config
    first.  When it fails, the answer is bad-request with its error and
    [Validate] is the only call; otherwise the driver's [Update] follows,
    with the request that carries the same config, and the answer is its
    error as a smart error, or the empty success. *)
Theorem update_only_after_validation (n : Network) (req : NetworkPut) (targetNode : string)
    (clientType : ClientType) (httpMethod : Method) (clustered : bool) (w : World) :
  let cfg :=
    if String.eqb targetNode "" && negb (bool_decide (httpMethod = MethodPatch)) && clustered
    then mergeNodeSpecific IsNodeSpecificNetworkConfig (netConfig n) (putConfig req)
    else if bool_decide (httpMethod = MethodPatch)
         then mergeMissing (netConfig n) (putConfig req)
         else putConfig req in
  let validated := EvDriver (netMember n) (netProject n) (netName n) (DrvValidate cfg) in
  let update := DrvUpdate (withConfig req cfg) targetNode clientType in
  let updated := EvDriver (netMember n) (netProject n) (netName n) update in
  let run := doNetworkUpdate IsNodeSpecificNetworkConfig env n req targetNode clientType
               httpMethod clustered w in
  match driver env n (DrvValidate cfg) w with
  | Some err => run.1 = BadRequest err /\ since w run.2 = [validated false]
  | None =>
      match driver env n update (emit (validated true) w) with
      | Some err => run.1 = SmartError err /\ since w run.2 = [validated true; updated false]
      | None => run.1 = EmptySyncResponse /\ since w run.2 = [validated true; updated true]
      end
  end.
Proof.
  cbv zeta. unfold doNetworkUpdate.
  set (cfg := if String.eqb targetNode "" && _ && _ then _ else _).
  unfold driverCall. runM. cbn [putConfig withConfig].
  destruct (driver env n (DrvValidate cfg) w) as [err|].
  { split; [done|]. by apply since_app. }
  destruct (driver env n (DrvUpdate _ _ _) _) as [err|]; cbn.
  - split; [done|]. apply since_app. cbn. by rewrite <- app_assoc.
  - split; [done|]. apply since_app. cbn. by rewrite <- app_assoc.
Qed.

(** X19. An update without target of a network that is not in the created state
    is refused with bad-request, and the world is as it was. *)
Theorem put_refused_unless_created (self : string) (r : Request) (w : World)
    (projectName networkName : string) (reqProject : Project) (row : NetRow) :
  networkProject env (reqProjectParam r) w = Ok (projectName, reqProject) ->
  reqNetworkName r = Ok networkName ->
  fault env (OpLoadByName self projectName networkName) w = None ->
  catalog w !! (projectName, networkName) = Some row ->
  networkAllowed env (projConfig reqProject) networkName true = true ->
  reqTarget r = "" ->
  rowStatus row <> NetworkStatusCreated ->
  networkPutLocal IsNodeSpecificNetworkConfig env self r w =
    (BadRequest (ErrNew "Cannot update network global config when not in created state"), w).
Proof.
  intros Hp Hname Hf Hrow Hallow Ht Hst.
  unfold networkPutLocal, networkPutChecks, LoadByName.
  runM. rewrite Hp. runM. rewrite Hname. runM. rewrite Hf. runM. rewrite Hrow.
  runM. cbn [netManaged viewRow]. rewrite Hallow. runM. rewrite Ht.
  cbn [String.eqb netStatus]. rewrite bool_decide_eq_false_2 by done. reflexivity.
Qed.

(** X20. An update whose entity tag does not match is refused with
    precondition-failed, and the world is as it was. *)
Theorem put_refused_on_stale_etag (self : string) (r : Request) (w : World)
    (projectName networkName : string) (reqProject : Project) (row : NetRow) (err : error) :
  networkProject env (reqProjectParam r) w = Ok (projectName, reqProject) ->
  reqNetworkName r = Ok networkName ->
  fault env (OpLoadByName self projectName networkName) w = None ->
  catalog w !! (projectName, networkName) = Some row ->
  networkAllowed env (projConfig reqProject) networkName true = true ->
  (reqTarget r = "" -> rowStatus row = NetworkStatusCreated) ->
  etagCheck env r (putEtag (serverClustered env) IsNodeSpecificNetworkConfig (reqTarget r)
                     (viewRow self projectName networkName row)) = Some err ->
  networkPutLocal IsNodeSpecificNetworkConfig env self r w = (PreconditionFailed err, w).
Proof.
  intros Hp Hname Hf Hrow Hallow Hst Hetag.
  unfold networkPutLocal, networkPutChecks, LoadByName.
  runM. rewrite Hp. runM. rewrite Hname. runM. rewrite Hf. runM. rewrite Hrow.
  runM. cbn [netManaged viewRow]. rewrite Hallow. runM.
  unfold putEtag in Hetag. cbn [netName netManaged netType netDescription netConfig netStatus viewRow] in *.
  destruct (String.eqb_spec (reqTarget r) "") as [Ht|Ht].
  - rewrite (Hst Ht). rewrite bool_decide_eq_true_2 by done. cbn [negb andb].
    cbn [andb] in *. rewrite Hetag. reflexivity.
  - cbn [andb negb] in *. rewrite Hetag. reflexivity.
Qed.

End Update.


(** ** Get *)

Section Get.
Variable IsNodeSpecificNetworkConfig : string -> bool.
Variable env : Env.

(** The stripped config has the keys that are not member-specific. *)
Lemma StripNodeSpecificNetworkConfig_lookup (c : Config) (k : string) :
  StripNodeSpecificNetworkConfig IsNodeSpecificNetworkConfig c !! k =
    if IsNodeSpecificNetworkConfig k then None else c !! k.
Proof.
  unfold StripNodeSpecificNetworkConfig.
  destruct (IsNodeSpecificNetworkConfig k) eqn:Hk.
  - apply map_lookup_filter_None. right. intros v _. cbn. by rewrite Hk.
  - destruct (c !! k) as [v|] eqn:Hc.
    + apply map_lookup_filter_Some. by split.
    + apply map_lookup_filter_None. by left.
Qed.

(** What a successful [doNetworkGet] returns. *)
Lemma doNetworkGet_ok (self : string) (r : Request) (allNodes : bool)
    (projectName : string) (cfg : Config) (networkName : string)
    (w w' : World) (info : ApiNetwork) :
  doNetworkGet IsNodeSpecificNetworkConfig env self r allNodes projectName cfg networkName w =
    (Ok info, w') ->
  w' = w /\ apiName info = networkName /\ apiProject info = projectName /\
  String.prefix "veth" networkName = false /\
  ((exists row,
      let n := viewRow self projectName networkName row in
      let visible := match checkPermission env r projectName networkName w with
                     | None => netConfig n
                     | Some _ => ∅
                     end in
      fault env (OpLoadByName self projectName networkName) w = None /\
      catalog w !! (projectName, networkName) = Some row /\
      apiManaged info = true /\
      networkAllowed env cfg networkName true = true /\
      apiType info = netType n /\
      apiDescription info = netDescription n /\
      apiStatus info = Some (if allNodes then netStatus n else netLocalStatus n) /\
      apiLocations info = netLocations n /\
      apiConfig info =
        if allNodes then StripNodeSpecificNetworkConfig IsNodeSpecificNetworkConfig visible
        else visible) \/
   (apiManaged info = false /\
    projectName = ProjectDefaultName /\
    networkAllowed env cfg networkName false = true /\
    is_Some (InterfaceByName env self networkName w) /\
    apiConfig info = ∅ /\ apiStatus info = None /\ apiLocations info = [])).
Proof.
  intros Hrun.
  pose proof (Same_doNetworkGet IsNodeSpecificNetworkConfig env self r allNodes projectName cfg
                networkName w) as Hsame.
  rewrite Hrun in Hsame. unfold Same in Hsame. cbn in Hsame. subst w'.
  split; [done|].
  pose proof (doNetworkGet_name IsNodeSpecificNetworkConfig env self r allNodes projectName cfg
                networkName w info w Hrun) as Hname.
  split; [done|].
  revert Hrun. unfold doNetworkGet, LoadByName.
  cbv beta iota zeta delta [bindM orReturn guardM retM failM liftM attemptM readM faultM fst snd].
  destruct (String.prefix "veth" networkName) eqn:Hveth; cbn [negb]; [done|].
  destruct (fault env (OpLoadByName self projectName networkName) w) as [err|] eqn:Hf.
  - (* the load failed *)
    cbv beta iota.
    destruct (StatusErrorCheck err StatusNotFound); [|done].
    cbv beta iota. cbn [is_Some]. rewrite orb_false_r.
    case_bool_decide as Hp; cbn [negb]; [|done].
    rewrite bool_decide_eq_false_2 by (by intros [? ?]).
    destruct (networkAllowed env cfg networkName false) eqn:Ha; cbn [negb]; [|done].
    cbv beta iota. rewrite orb_false_r.
    case_bool_decide as Hos; [|done]. cbv beta iota.
    unfold probeType.
    repeat match goal with
    | |- context [if ?b then _ else _] => destruct b eqn:?; cbv beta iota
    | |- context [match fault env ?op ?w with _ => _ end] => destruct (fault env op w); cbv beta iota
    | |- context [match networkUsedBy env ?a ?b ?c ?d ?w with _ => _ end] =>
        destruct (networkUsedBy env a b c d w); cbv beta iota
    end; try done.
    all: intros [= <-]; (split; [done|]); (split; [done|]); right; by repeat split.
  - destruct (catalog w !! (projectName, networkName)) as [row|] eqn:Hrow; cbv beta iota.
    + cbn [StatusErrorCheck is_Some]. rewrite orb_true_r.
      rewrite (bool_decide_eq_true_2 (is_Some (Some _))) by by eexists.
      cbn [negb netManaged viewRow].
      destruct (networkAllowed env cfg networkName true) eqn:Ha; cbn [negb]; [|done].
      cbv beta iota. rewrite orb_true_r. cbv beta iota.
      destruct (checkPermission env r projectName networkName w) as [perr|] eqn:Hperm;
        cbv beta iota.
      * destruct (StatusErrorCheck perr StatusForbidden); [|done]. cbv beta iota.
        repeat match goal with
        | |- context [if negb ?b then _ else _] => destruct b eqn:?; cbn [negb]; cbv beta iota
        | |- context [match networkUsedBy env ?a ?b ?c ?d ?w with _ => _ end] =>
            destruct (networkUsedBy env a b c d w); cbv beta iota
        end; try done.
        all: intros [= <-]; (split; [done|]); (split; [done|]); left; exists row;
          cbv zeta; by repeat split.
      * repeat match goal with
        | |- context [if negb ?b then _ else _] => destruct b eqn:?; cbn [negb]; cbv beta iota
        | |- context [match networkUsedBy env ?a ?b ?c ?d ?w with _ => _ end] =>
            destruct (networkUsedBy env a b c d w); cbv beta iota
        end; try done.
        all: intros [= <-]; (split; [done|]); (split; [done|]); left; exists row;
          cbv zeta; by repeat split.
    + (* no record *)
      unfold notFound. cbn [StatusErrorCheck]. unfold StatusNotFound. cbn [Z.eqb Pos.eqb].
      cbv beta iota. cbn [is_Some]. rewrite orb_false_r.
      case_bool_decide as Hp; cbn [negb]; [|done].
      rewrite bool_decide_eq_false_2 by (by intros [? ?]).
      destruct (networkAllowed env cfg networkName false) eqn:Ha; cbn [negb]; [|done].
      cbv beta iota. rewrite orb_false_r.
      case_bool_decide as Hos; [|done]. cbv beta iota.
      unfold probeType.
      repeat match goal with
      | |- context [if ?b then _ else _] => destruct b eqn:?; cbv beta iota
      | |- context [match fault env ?op ?w with _ => _ end] => destruct (fault env op w); cbv beta iota
      | |- context [match networkUsedBy env ?a ?b ?c ?d ?w with _ => _ end] =>
          destruct (networkUsedBy env a b c d w); cbv beta iota
      end; try done.
      all: intros [= <-]; (split; [done|]); (split; [done|]); right; by repeat split.
Qed.

(** X8. A [doNetworkGet] that succeeds leaves the world as it was and answers
    with the name and the project asked for; the name does not begin with
    [veth] and the project allows the network. *)
Theorem get_returns_the_network_asked_for (self : string) (r : Request) (allNodes : bool)
    (projectName : string) (cfg : Config) (networkName : string)
    (w w' : World) (info : ApiNetwork) :
  doNetworkGet IsNodeSpecificNetworkConfig env self r allNodes projectName cfg networkName w =
    (Ok info, w') ->
  w' = w /\
  apiName info = networkName /\ apiProject info = projectName /\
  String.prefix "veth" (apiName info) = false /\
  networkAllowed env cfg (apiName info) (apiManaged info) = true.
Proof.
  intros Hrun. apply doNetworkGet_ok in Hrun as (-> & Hn & Hp & Hveth & Hcases).
  rewrite Hn. do 4 (split; [done|]).
  destruct Hcases as [(row & Hrow)|Hun]; cbv zeta in *.
  - destruct Hrow as (_ & _ & -> & Ha & _). done.
  - destruct Hun as (-> & _ & Ha & _). done.
Qed.

(** X9. [doNetworkGet] answers with a network that is not managed only in the
    default project and for an interface of the host; its config is empty
    and it has no status and no locations. *)
Theorem get_interface_only_in_default_project (self : string) (r : Request) (allNodes : bool)
    (projectName : string) (cfg : Config) (networkName : string)
    (w w' : World) (info : ApiNetwork) :
  doNetworkGet IsNodeSpecificNetworkConfig env self r allNodes projectName cfg networkName w =
    (Ok info, w') ->
  apiManaged info = false ->
  projectName = ProjectDefaultName /\
  is_Some (InterfaceByName env self networkName w) /\
  apiConfig info = ∅ /\ apiStatus info = None /\ apiLocations info = [].
Proof.
  intros Hrun Hm. apply doNetworkGet_ok in Hrun as (-> & Hn & Hp & Hveth & Hcases).
  destruct Hcases as [(row & Hrow)|Hun]; cbv zeta in *.
  - destruct Hrow as (_ & _ & Hm' & _). congruence.
  - destruct Hun as (_ & ? & _ & ? & ? & ? & ?). done.
Qed.

(** X10. [doNetworkGet] returns an empty config to a caller who may not edit
    the network. *)
Theorem get_hides_config_without_permission (self : string) (r : Request) (allNodes : bool)
    (projectName : string) (cfg : Config) (networkName : string)
    (w w' : World) (info : ApiNetwork) (err : error) :
  checkPermission env r projectName networkName w = Some err ->
  doNetworkGet IsNodeSpecificNetworkConfig env self r allNodes projectName cfg networkName w =
    (Ok info, w') ->
  apiConfig info = ∅.
Proof.
  intros Hperm Hrun. apply doNetworkGet_ok in Hrun as (-> & Hn & Hp & Hveth & Hcases).
  destruct Hcases as [(row & Hrow)|Hun]; cbv zeta in *.
  - destruct Hrow as (_ & _ & _ & _ & _ & _ & _ & _ & ->). rewrite Hperm.
    destruct allNodes; [|done]. unfold StripNodeSpecificNetworkConfig. apply map_filter_empty.
  - by destruct Hun as (_ & _ & _ & _ & ? & _).
Qed.

(** X11. [networkGet] on a clustered server without target: neither the
    config of the answer nor the config under the entity tag has a
    member-specific key. *)
Theorem get_without_target_strips_member_keys (self : string) (r : Request)
    (w w' : World) (info : ApiNetwork) (etag : Etag) :
  serverClustered env = true ->
  reqTarget r = "" ->
  networkGetLocal IsNodeSpecificNetworkConfig env self r w = (Ok (info, etag), w') ->
  forall k, IsNodeSpecificNetworkConfig k = true ->
            apiConfig info !! k = None /\ etagConfig etag !! k = None.
Proof.
  intros Hc Ht. unfold networkGetLocal, requestProject, requestNetworkName.
  rewrite Hc, Ht. cbn [String.eqb andb].
  cbv beta iota zeta delta [bindM orReturn retM liftM fst snd].
  destruct (networkProject env (reqProjectParam r) w) as [[projectName reqProject]|]; [|done].
  destruct (reqNetworkName r) as [networkName|]; [|done].
  destruct (doNetworkGet _ _ _ _ _ _ _ _ _) as [[n|] w1] eqn:Hget; [|done].
  intros [= <- <- <-] k Hk. cbn [etagConfig].
  apply doNetworkGet_ok in Hget as (-> & Hn & Hp & Hveth & Hcases).
  assert (apiConfig n !! k = None); [|done].
  destruct Hcases as [(row & Hrow)|Hun]; cbv zeta in *.
  - destruct Hrow as (_ & _ & _ & _ & _ & _ & _ & _ & ->).
    rewrite StripNodeSpecificNetworkConfig_lookup. by rewrite Hk.
  - destruct Hun as (_ & _ & _ & _ & -> & _). apply lookup_empty.
Qed.

(** X12. The entity tag of [networkGet] for a managed network whose config the
    caller may see is the value that [networkPut] computes for the same
    project, name and target; when the tag of the request matches it, the
    update is not refused with precondition-failed. *)
Theorem put_accepts_etag_of_get (self : string) (get put : Request)
    (projectName networkName : string) (reqProject : Project)
    (w w' : World) (info : ApiNetwork) (etag : Etag) :
  networkProject env (reqProjectParam get) w = Ok (projectName, reqProject) ->
  reqNetworkName get = Ok networkName ->
  reqProjectParam put = reqProjectParam get ->
  reqNetworkName put = reqNetworkName get ->
  reqTarget put = reqTarget get ->
  networkGetLocal IsNodeSpecificNetworkConfig env self get w = (Ok (info, etag), w') ->
  apiManaged info = true ->
  checkPermission env get projectName networkName w = None ->
  exists n,
    LoadByName env self projectName networkName w = (Ok n, w) /\
    etag = putEtag (serverClustered env) IsNodeSpecificNetworkConfig (reqTarget put) n /\
    (etagCheck env put etag = None ->
     forall err, (networkPutChecks IsNodeSpecificNetworkConfig env self put w).1 <>
                 Ret (PreconditionFailed err)).
Proof.
  intros Hproj Hname Hpp Hpn Hpt. unfold networkGetLocal, requestProject, requestNetworkName.
  cbv beta iota zeta delta [bindM orReturn retM liftM fst snd].
  rewrite Hproj, Hname. cbv beta iota.
  destruct (doNetworkGet _ _ _ _ _ _ _ _ _) as [[n|] w1] eqn:Hget; [|done].
  intros [= <- <- <-] Hm Hperm.
  apply doNetworkGet_ok in Hget as (-> & Hn & Hp & Hveth & Hcases).
  destruct Hcases as [(row & Hrow)|Hun]; cbv zeta in *; [|destruct Hun; congruence].
  destruct Hrow as (Hf & Hrow & _ & Ha & Hty & Hd & _ & _ & Hcfg).
  rewrite Hperm in Hcfg.
  exists (viewRow self projectName networkName row).
  assert ({| etagName := apiName n; etagManaged := apiManaged n; etagType := apiType n;
             etagDescription := apiDescription n; etagConfig := apiConfig n |} =
          putEtag (serverClustered env) IsNodeSpecificNetworkConfig (reqTarget put)
            (viewRow self projectName networkName row)) as Hetag.
  { unfold putEtag. rewrite Hn, Hm, Hty, Hd, Hcfg, Hpt. cbn [netName netManaged viewRow].
    by rewrite andb_comm. }
  split.
  { unfold LoadByName, readM, faultM, bindM. by rewrite Hf, Hrow. }
  split; [done|]. rewrite Hetag. intros Hcheck err.
  unfold networkPutChecks, requestProject, requestNetworkName, LoadByName.
  cbv beta iota zeta delta [bindM orReturn guardM retM failM liftM readM faultM fst snd].
  rewrite Hpp, Hproj, Hpn, Hname. cbv beta iota. rewrite Hf. cbv beta iota. rewrite Hrow.
  cbv beta iota. cbn [netManaged viewRow]. rewrite Ha. cbv beta iota.
  destruct (negb (_ && _)); cbv beta iota; [|done].
  unfold putEtag in Hcheck. cbn [netName netManaged netType netDescription netConfig viewRow] in *.
  rewrite Hcheck. cbv beta iota.
  by destruct (decodeNetworkPut put).
Qed.

End Get.


(** ** Delete *)

(** A sequence, when the next step may rely on what the first one yields. *)
Lemma Sat_bind_yields {R : bool -> World -> World -> Prop} `{!Composable R}
    {E A B} `{Early E} (P : A -> Prop) (c : M E A) (k : A -> M E B) :
  Yields P c -> Sat R c -> (forall a, P a -> Sat R (k a)) -> Sat R (bindM c k).
Proof.
  intros Hy Hc Hk w. unfold bindM. specialize (Hc w). specialize (Hy w).
  destruct (c w) as [[a|e] w1]; cbn in *.
  - eapply comp_ok; [done|]. apply Hk. by eapply Hy.
  - done.
Qed.

(** The notifier leaves what the hook leaves on every peer in scope. *)
Lemma Sat_notifier_in {R : bool -> World -> World -> Prop} `{!Composable R}
    (peers : list string) (hook : string -> M error unit) :
  (forall peer, peer ∈ peers -> Sat R (hook peer)) -> Sat R (notifier peers hook).
Proof.
  induction peers as [|peer peers IH]; intros Hh; cbn.
  - apply Sat_ret.
  - intros w. cbv zeta.
    assert (Sat R (hook peer)) as Hp by (apply Hh; by left).
    assert (Sat R (notifier peers hook)) as Hrest by (apply IH; intros p Hin; apply Hh; by right).
    specialize (Hp w). specialize (Hrest (hook peer w).2).
    destruct (hook peer w) as [[[]|e] w1]; cbn in *.
    + by eapply comp_ok.
    + eapply comp_ret; [exact Hp|exact Hrest].
Qed.

(** Mapping the error keeps what a step yields. *)
Lemma Yields_orReturn {E E' A} (P : A -> Prop) (f : E -> E') (c : M E A) :
  Yields P c -> Yields P (orReturn f c).
Proof.
  intros Hc w a w'. unfold orReturn. specialize (Hc w).
  destruct (c w) as [[a0|e] w1]; [|done]. intros [= <- <-]. by eapply Hc.
Qed.

(** A call to a peer whose handler leaves the catalog as it was leaves it as
    it was. *)
Lemma KeepsCatalog_callPeer (handler : string -> Request -> World -> Response * World)
    (peer : string) (call : PeerCall) (r : Request) :
  (forall w, catalog (handler peer r w).2 = catalog w) ->
  Sat KeepsCatalog (callPeer handler peer call r).
Proof.
  intros Hh w. unfold callPeer. cbv zeta.
  specialize (Hh (emit (EvPeerCall peer call) w)).
  destruct (handler peer r (emit (EvPeerCall peer call) w)) as [resp w1]; cbn in *.
  by destruct (responseError resp).
Qed.

(** A call to a peer records the call, what the handler of the peer records,
    and the return. *)
Lemma Within_callPeer (allowed : Event -> bool)
    (handler : string -> Request -> World -> Response * World)
    (peer : string) (call : PeerCall) (r : Request) :
  allowed (EvPeerCall peer call) = true ->
  (forall ok, allowed (EvPeerReturn peer ok) = true) ->
  (forall b w, Within allowed b w (handler peer r w).2) ->
  Sat (Within allowed) (callPeer handler peer call r).
Proof.
  intros Hc Hr Hh w. unfold callPeer. cbv zeta.
  specialize (Hh true (emit (EvPeerCall peer call) w)).
  assert (forall e w0, allowed e = true -> Within allowed true w0 (emit e w0)) as Hemit.
  { intros e w0 He. split; [by eapply extends_intro|].
    erewrite since_app by (cbn; reflexivity). by repeat constructor. }
  destruct (handler peer r (emit (EvPeerCall peer call) w)) as [resp w1]; cbn in *.
  destruct (responseError resp); cbn.
  all: eapply (comp_ok (R:=Within allowed)); [by apply Hemit|];
       eapply (comp_ok (R:=Within allowed)); [exact Hh|]; by apply Hemit.
Qed.

Section Delete.
Variable env : Env.

(** A loaded network is the managed network of that name, as the member
    sees it. *)
Lemma LoadByName_yields (self project name : string) :
  Yields (fun n => netMember n = self /\ netProject n = project /\ netName n = name /\
                   netManaged n = true)
    (LoadByName env self project name).
Proof.
  intros w n w'. unfold LoadByName, readM, faultM, bindM.
  destruct (fault env _ w); [done|].
  destruct (catalog w !! (project, name)); [|done].
  by intros [= <- <-].
Qed.

(** A delete that the notifier of another member sent leaves the catalog as
    it was. *)
Lemma KeepsCatalog_delete_notification (cp : string -> string -> string -> M error unit)
    (self : string) (r : Request) :
  isClusterNotification r = true ->
  Sat KeepsCatalog (networkDeleteWith env cp self r).
Proof.
  intros Hn. unfold networkDeleteWith, requestProject, requestNetworkName, LoadByName.
  rewrite Hn. cbn [negb]. usat env.
Qed.

(** A delete that the notifier of another member sent calls the driver's
    [Delete] on the member, and nothing else. *)
Lemma Within_delete_notification (cp : string -> string -> string -> M error unit)
    (self : string) (r : Request) :
  isClusterNotification r = true ->
  Sat (Within (isDeleteOn self)) (networkDeleteWith env cp self r).
Proof.
  intros Hn. unfold networkDeleteWith, requestProject, requestNetworkName.
  rewrite Hn. cbn [negb].
  apply Sat_bind; [usat env|]. intros [projectName reqProject].
  apply Sat_bind; [usat env|]. intros networkName.
  eapply Sat_bind_yields.
  { apply Yields_orReturn, LoadByName_yields. }
  { unfold LoadByName. usat env. }
  intros n (Hm & _). usat env.
  apply Within_of_Emits, Emits_driverCall. intros ok. cbn. rewrite Hm.
  by apply bool_decide_eq_true.
Qed.

End Delete.


Section DeleteRun.
Variable env : Env.

(** The delete on a peer leaves the catalog as it was. *)
Lemma KeepsCatalog_deleteOnPeer (peer project name : string) :
  Sat KeepsCatalog (deleteOnPeer env peer project name).
Proof.
  unfold deleteOnPeer. apply KeepsCatalog_callPeer. intros w.
  cbv beta. refine (Sat_handled (R:=KeepsCatalog) _ _ true w).
  by apply KeepsCatalog_delete_notification.
Qed.

(** The delete on a peer records the call, the driver's [Delete] on the peer
    and the return. *)
Lemma Within_deleteOnPeer (self peer project name : string) :
  peer <> self ->
  Sat (Within (peerDeleteEvent self)) (deleteOnPeer env peer project name).
Proof.
  intros Hne. unfold deleteOnPeer.
  apply Within_callPeer.
  - cbn. by rewrite bool_decide_eq_false_2.
  - intros ok. cbn. by rewrite bool_decide_eq_false_2.
  - intros b w. cbv beta.
    refine (Sat_handled (R:=Within (peerDeleteEvent self)) _ _ b w).
    eapply Within_mono; [|by apply (Within_delete_notification env _ peer)].
    intros [| | | | |m p n [] ok| | | | |]; cbn; try done.
    intros Hm. apply bool_decide_eq_true in Hm. subst m. by rewrite bool_decide_eq_false_2.
Qed.

(** The notifier is over the other members. *)
Lemma NewNotifier_yields (self : string) :
  Yields (fun peers => forall peer, peer ∈ peers -> peer <> self) (NewNotifier env self).
Proof.
  intros w peers w'. unfold NewNotifier, faultM, bindM, retM.
  destruct (fault env _ w); [done|]. intros [= <- <-] peer Hin.
  by apply list_elem_of_filter in Hin as [? _].
Qed.

(** The fan-out of a delete. *)
Lemma delete_fan_out (self project name : string) (w : World) :
  let fan :=
    (do peers <- orReturn SmartError (NewNotifier env self);
     orReturn SmartError (notifier peers (fun peer => deleteOnPeer env peer project name))) in
  catalog (fan w).2 = catalog w /\
  extends w (fan w).2 /\
  Forall (fun e => peerDeleteEvent self e = true) (since w (fan w).2).
Proof.
  cbv zeta.
  match goal with |- context [(?c w).2] => set (fan := c) end.
  assert (Sat KeepsCatalog fan) as Hk.
  { subst fan. apply Sat_bind; [unfold NewNotifier; usat env|]. intros peers.
    apply Sat_orReturn; [done|]. apply Sat_notifier. intros peer.
    apply KeepsCatalog_deleteOnPeer. }
  assert (Sat (Within (peerDeleteEvent self)) fan) as Hw.
  { subst fan. eapply Sat_bind_yields.
    { apply Yields_orReturn, NewNotifier_yields. }
    { unfold NewNotifier. usat env. }
    intros peers Hpeers. apply Sat_orReturn; [done|]. apply Sat_notifier_in.
    intros peer Hin. by apply Within_deleteOnPeer, Hpeers. }
  split; [apply Hk|]. apply Hw.
Qed.

End DeleteRun.


(** A sequence has stopped at its first step, or gone on with what it yields. *)
Lemma bindM_inv {E A B} (c : M E A) (k : A -> M E B) (w w' : World) (r : outcome E B) :
  bindM c k w = (r, w') ->
  (exists e, c w = (Ret e, w') /\ r = Ret e) \/
  (exists a w1, c w = (Ok a, w1) /\ k a w1 = (r, w')).
Proof.
  unfold bindM. destruct (c w) as [[a|e] w1].
  - intros Hk. right. by exists a, w1.
  - intros [= <- <-]. left. by exists e.
Qed.

(** A step under [orReturn] has failed or gone on, as the step itself. *)
Lemma orReturn_inv {E E' A} (f : E -> E') (c : M E A) (w w' : World) (r : outcome E' A) :
  orReturn f c w = (r, w') ->
  (exists e, c w = (Ret e, w') /\ r = Ret (f e)) \/
  (exists a, c w = (Ok a, w') /\ r = Ok a).
Proof.
  unfold orReturn. destruct (c w) as [[a|e] w1]; intros [= <- <-]; [right|left]; by eexists.
Qed.

(** A check leaves the world as it was. *)
Lemma guardM_inv {E} (ok : bool) (e : E) (w w' : World) (r : outcome E unit) :
  guardM ok e w = (r, w') ->
  w' = w /\ ((ok = false /\ r = Ret e) \/ (ok = true /\ r = Ok tt)).
Proof. destruct ok; intros [= <- <-]; (split; [done|]); [right|left]; done. Qed.

Section DeleteOutcome.
Variable env : Env.

(** A load leaves the world as it was; what it yields is the record of the
    catalog as the member sees it. *)
Lemma LoadByName_inv (self project name : string) (w w' : World) (r : result Network) :
  LoadByName env self project name w = (r, w') ->
  w' = w /\
  match r with
  | Ok n => fault env (OpLoadByName self project name) w = None /\
            exists row, catalog w !! (project, name) = Some row /\
                        n = viewRow self project name row
  | Ret _ => True
  end.
Proof.
  unfold LoadByName, readM, faultM, bindM.
  destruct (fault env _ w); [by intros [= <- <-]|].
  destruct (catalog w !! (project, name)) as [row|]; intros [= <- <-]; [|done].
  split; [done|]. split; [done|]. by exists row.
Qed.

(** The transaction that deletes a record: it fails and leaves the catalog as
    it was, or the record was there and is deleted. *)
Lemma Transaction_DeleteNetwork_inv (project name : string) (w w' : World) (r : result unit) :
  Transaction env (DeleteNetwork env project name) w = (r, w') ->
  (is_ok r = false /\ catalog w' = catalog w) \/
  (r = Ok tt /\ is_Some (catalog w !! (project, name)) /\
   catalog w' = delete (project, name) (catalog w) /\
   trace w' = trace w ++ [EvTxBegin; EvDb (DbDeleteNetwork project name); EvTxCommit]).
Proof.
  unfold Transaction, DeleteNetwork, writeM. cbv zeta. cbn [catalog emit].
  destruct (fault env (OpWrite _) _); [intros [= <- <-]; by left|].
  destruct (catalog w !! (project, name)) as [row|] eqn:Hrow; [|intros [= <- <-]; by left].
  cbn [fst snd].
  destruct (fault env OpTxCommit _); intros [= <- <-]; [by left|].
  right. split; [done|]. split; [by eexists|]. split; [done|].
  cbn. by rewrite <- !app_assoc.
Qed.

(** The local part of a delete leaves the catalog as it was. *)
Lemma delete_local_step (n : Network) (clientType : ClientType) (w w' : World)
    (r : outcome Response unit) :
  (if negb (bool_decide (netLocalStatus n = NetworkStatusPending))
   then orReturn InternalError (driverCall env n (DrvDelete clientType))
   else retM tt) w = (r, w') ->
  catalog w' = catalog w /\ extends w w' /\
  match r with Ret e => isErrorResponse e = true | Ok _ => True end.
Proof.
  destruct (negb _).
  - unfold orReturn, driverCall. destruct (driver env n _ w); intros [= <- <-].
    all: split; [done|]; split; [by eapply extends_intro|done].
  - intros [= <- <-]. split; [done|]. split; [|done].
    apply (extends_intro _ _ []). by rewrite app_nil_r.
Qed.

(** The fan-out of a delete leaves the catalog as it was and records the
    traffic with the peers only. *)
Lemma delete_fan_step (self project name : string) (w w' : World)
    (r : outcome Response unit) :
  (if serverClustered env
   then do peers <- orReturn SmartError (NewNotifier env self);
        orReturn SmartError (notifier peers (fun peer => deleteOnPeer env peer project name))
   else retM tt) w = (r, w') ->
  catalog w' = catalog w /\ extends w w' /\
  Forall (fun e => peerDeleteEvent self e = true) (since w w') /\
  match r with Ret e => isErrorResponse e = true | Ok _ => True end.
Proof.
  destruct (serverClustered env).
  - intros Hrun. pose proof (delete_fan_out env self project name w) as (Hc & He & Hall).
    cbv zeta in Hc, He, Hall. rewrite Hrun in Hc, He, Hall. cbn [snd] in *.
    do 3 (split; [done|]).
    destruct r as [|e]; [done|].
    apply bindM_inv in Hrun as [(e0 & H1 & [= ->])|(a & w2 & H1 & H2)].
    + by apply orReturn_inv in H1 as [(? & _ & [= ->])|(? & _ & ?)].
    + by apply orReturn_inv in H2 as [(? & _ & [= ->])|(? & _ & ?)].
  - intros [= <- <-]. split; [done|]. rewrite since_refl. split; [|done].
    apply (extends_intro _ _ []). by rewrite app_nil_r.
Qed.

(** The runs of a delete that is not a notification: an error with the
    catalog as it was, or the record deleted, then the authorizer and the
    lifecycle event. *)
Lemma networkDelete_outcome (self : string) (r : Request) (w w' : World) (resp : Response) :
  isClusterNotification r = false ->
  networkDelete env self r w = (resp, w') ->
  (isErrorResponse resp = true /\ catalog w' = catalog w) \/
  (resp = EmptySyncResponse /\
   exists projectName reqProject networkName row pre authorized,
     networkProject env (reqProjectParam r) w = Ok (projectName, reqProject) /\
     reqNetworkName r = Ok networkName /\
     catalog w !! (projectName, networkName) = Some row /\
     driverIsUsed env (viewRow self projectName networkName row) false w = Ok false /\
     catalog w' = delete (projectName, networkName) (catalog w) /\
     since w w' =
       pre ++ [EvTxBegin; EvDb (DbDeleteNetwork projectName networkName); EvTxCommit;
               EvAuthorizer (AuthDeleteNetwork projectName networkName) authorized;
               EvLifecycle projectName networkName LifecycleNetworkDeleted]).
Proof.
  intros Hn. unfold networkDelete, handle.
  destruct (networkDeleteWith env (deleteOnPeer env) self r w) as [out w1] eqn:H.
  intros Hout.
  assert (resp = match out with Ok r0 | Ret r0 => r0 end /\ w' = w1) as [-> ->]
    by (destruct out; by injection Hout as <- <-).
  clear Hout. revert H. unfold networkDeleteWith. rewrite Hn. cbn [negb]. cbv beta iota.
  intros H. unfold requestProject, requestNetworkName in H.
  (* the project *)
  apply bindM_inv in H as [(e & H1 & ->)|([projectName reqProject] & w2 & H1 & H)].
  { apply orReturn_inv in H1 as [(e' & He & [= ->])|(? & _ & ?)]; [|done].
    injection He as _ <-. by left. }
  apply orReturn_inv in H1 as [(e & _ & ?)|(? & He & [= <-])]; [done|].
  injection He as Hproj <-.
  (* the name *)
  apply bindM_inv in H as [(e & H1 & ->)|(networkName & w2 & H1 & H)].
  { apply orReturn_inv in H1 as [(e' & He & [= ->])|(? & _ & ?)]; [|done].
    injection He as _ <-. by left. }
  apply orReturn_inv in H1 as [(e & _ & ?)|(? & He & [= <-])]; [done|].
  injection He as Hname <-.
  (* the load *)
  apply bindM_inv in H as [(e & H1 & ->)|(n & w2 & H1 & H)].
  { apply orReturn_inv in H1 as [(e' & He & [= ->])|(? & _ & ?)]; [|done].
    apply LoadByName_inv in He as [-> _]. by left. }
  apply orReturn_inv in H1 as [(e & _ & ?)|(? & He & [= <-])]; [done|].
  apply LoadByName_inv in He as [-> (Hf & row & Hrow & ->)].
  (* the access check *)
  apply bindM_inv in H as [(e & H1 & ->)|([] & w2 & H1 & H)].
  { apply guardM_inv in H1 as [-> [[_ [= ->]]|[_ ?]]]; [|done]. by left. }
  apply guardM_inv in H1 as [-> _].
  (* in use *)
  apply bindM_inv in H as [(e & H1 & ->)|([] & w2 & H1 & H)].
  { apply bindM_inv in H1 as [(e' & H1 & [= ->])|(inUse & w3 & H1 & H2)].
    - apply orReturn_inv in H1 as [(e'' & He & [= ->])|(? & _ & ?)]; [|done].
      unfold IsUsed in He. injection He as _ <-. by left.
    - apply orReturn_inv in H1 as [(e'' & _ & ?)|(? & He & [= <-])]; [done|].
      unfold IsUsed in He. injection He as _ <-.
      apply guardM_inv in H2 as [-> [[_ [= ->]]|[_ ?]]]; [|done]. by left. }
  apply bindM_inv in H1 as [(e' & H1 & ?)|(inUse & w3 & H1 & H2)]; [done|].
  apply orReturn_inv in H1 as [(e'' & _ & ?)|(? & He & [= <-])]; [done|].
  unfold IsUsed in He. injection He as Hused <-.
  apply guardM_inv in H2 as [-> [[_ ?]|[Hfree _]]]; [done|].
  apply negb_true_iff in Hfree. subst inUse.
  (* the local delete *)
  apply bindM_inv in H as [(e & H1 & ->)|([] & w2 & H1 & H)].
  { apply delete_local_step in H1 as (Hc & _ & He). by left. }
  apply delete_local_step in H1 as (Hc2 & He2 & _).
  (* the peers *)
  apply bindM_inv in H as [(e & H1 & ->)|([] & w3 & H1 & H)].
  { apply delete_fan_step in H1 as (Hc & _ & _ & He). left. split; [done|]. congruence. }
  apply delete_fan_step in H1 as (Hc3 & He3 & _ & _).
  destruct (since_trans _ _ _ He2 He3) as [He23 Hs23].
  (* the record *)
  apply bindM_inv in H as [(e & H1 & ->)|([] & w4 & H1 & H)].
  { apply orReturn_inv in H1 as [(e' & He & [= ->])|(? & _ & ?)]; [|done].
    apply Transaction_DeleteNetwork_inv in He as [[_ Hc]|[? _]]; [|done].
    left. split; [done|]. congruence. }
  apply orReturn_inv in H1 as [(e & _ & ?)|(? & He & _)]; [done|].
  apply Transaction_DeleteNetwork_inv in He as [[? _]|(_ & _ & Hc4 & Ht4)]; [done|].
  (* the authorizer and the event *)
  unfold authorizerCall, SendLifecycle, emitM, bindM, retM in H.
  cbn [netProject netName viewRow] in *.
  right.
  assert (exists authorized, out = Ok EmptySyncResponse /\
            w1 = emit (EvLifecycle projectName networkName LifecycleNetworkDeleted)
                   (emit (EvAuthorizer (AuthDeleteNetwork projectName networkName) authorized) w4))
    as (authorized & -> & ->).
  { destruct (fault env (OpAuthorizer _) w4); injection H as <- <-; by eexists. }
  split; [done|].
  exists projectName, reqProject, networkName, row, (since w w3), authorized.
  do 4 (split; [done|]). split; [cbn; congruence|].
  apply since_app. cbn. rewrite Ht4. unfold extends in He23. rewrite He23.
  by rewrite <- !app_assoc.
Qed.

End DeleteOutcome.


Section DeleteTheorems.
Variable env : Env.

(** X13. A delete that answers with an error, or that the notifier of another
    member sent, leaves the catalog as it was. *)
Theorem failed_delete_keeps_catalog (self : string) (r : Request) (w : World) :
  let run := networkDelete env self r w in
  isErrorResponse run.1 = true \/ isClusterNotification r = true ->
  catalog run.2 = catalog w.
Proof.
  cbv zeta. intros Hcase.
  destruct (isClusterNotification r) eqn:Hn.
  - unfold networkDelete.
    refine (Sat_handled (R:=KeepsCatalog) _ _ true w).
    by apply KeepsCatalog_delete_notification.
  - destruct Hcase as [Herr|?]; [|done].
    destruct (networkDelete env self r w) as [resp w'] eqn:Hrun.
    apply networkDelete_outcome in Hrun as [[_ ?]|[-> _]]; done.
Qed.

(** X14. A delete that is not a notification and succeeds: the record was there
    and not in use, the catalog is the one before without it, and the run
    ends with the committed delete, the authorizer and the network-deleted
    event. *)
Theorem delete_removes_record (self : string) (r : Request) (w : World) :
  isClusterNotification r = false ->
  let run := networkDelete env self r w in
  isErrorResponse run.1 = false ->
  exists projectName reqProject networkName row,
    networkProject env (reqProjectParam r) w = Ok (projectName, reqProject) /\
    reqNetworkName r = Ok networkName /\
    catalog w !! (projectName, networkName) = Some row /\
    driverIsUsed env (viewRow self projectName networkName row) false w = Ok false /\
    catalog run.2 = delete (projectName, networkName) (catalog w) /\
    exists pre authorized,
      since w run.2 =
        pre ++ [EvTxBegin; EvDb (DbDeleteNetwork projectName networkName); EvTxCommit;
                EvAuthorizer (AuthDeleteNetwork projectName networkName) authorized;
                EvLifecycle projectName networkName LifecycleNetworkDeleted].
Proof.
  intros Hn. cbv zeta.
  destruct (networkDelete env self r w) as [resp w'] eqn:Hrun. cbn [fst snd].
  apply networkDelete_outcome in Hrun as [[Herr _]|[-> Hok]]; [by rewrite Herr| |done].
  intros _. destruct Hok as (p & rp & name & row & pre & authorized & ? & ? & ? & ? & ? & ?).
  exists p, rp, name, row. do 5 (split; [done|]). by exists pre, authorized.
Qed.

(** X15. A delete that the notifier of another member sent leaves the catalog as
    it was and records calls of the driver's [Delete] on the member only. *)
Theorem notified_delete_is_local (self : string) (r : Request) (w : World) :
  isClusterNotification r = true ->
  let run := networkDelete env self r w in
  catalog run.2 = catalog w /\
  extends w run.2 /\
  Forall (fun e => isDeleteOn self e = true) (since w run.2).
Proof.
  intros Hn. cbv zeta. unfold networkDelete. split.
  - refine (Sat_handled (R:=KeepsCatalog) _ _ true w).
    by apply KeepsCatalog_delete_notification.
  - refine (Sat_handled (R:=Within (isDeleteOn self)) _ _ true w).
    by apply Within_delete_notification.
Qed.

(** The steps of a delete after the driver's [Delete]. *)
Lemma Within_delete_tail (self : string) (r : Request) (n : Network)
    (projectName networkName : string) :
  Sat (Within (fun e => negb (isDriverOn self e)))
    (if isClusterNotification r then retM EmptySyncResponse
     else
       (if serverClustered env then
          do peers <- orReturn SmartError (NewNotifier env self);
          orReturn SmartError
            (notifier peers (fun peer => deleteOnPeer env peer (netProject n) (netName n)))
        else retM tt) ;;
       orReturn SmartError (Transaction env (DeleteNetwork env (netProject n) (netName n))) ;;
       authorizerCall env (AuthDeleteNetwork projectName networkName) ;;
       SendLifecycle projectName n LifecycleNetworkDeleted ;;
       retM EmptySyncResponse).
Proof.
  destruct (isClusterNotification r); [apply Sat_ret|].
  apply Sat_bind; [|intros _].
  { intros w0.
    destruct (serverClustered env); [|apply comp_refl].
    pose proof (delete_fan_out env self (netProject n) (netName n) w0) as (_ & He & Hall).
    cbv zeta in He, Hall. split; [done|].
    eapply Forall_impl; [exact Hall|]. intros [| | | | |m p nm [] ok| | | | |]; cbn; done. }
  unfold DeleteNetwork, SendLifecycle. usat env.
Qed.

(** X16. A call into the driver of the member during a delete is the [Delete] of
    the network asked for, with the client type of the request, and the
    local status of the network is not pending. *)
Theorem delete_calls_driver_unless_pending (self : string) (r : Request) (w : World) :
  let run := networkDelete env self r w in
  forall e, e ∈ since w run.2 -> isDriverOn self e = true ->
    exists projectName reqProject networkName row ok,
      networkProject env (reqProjectParam r) w = Ok (projectName, reqProject) /\
      reqNetworkName r = Ok networkName /\
      catalog w !! (projectName, networkName) = Some row /\
      netLocalStatus (viewRow self projectName networkName row) <> NetworkStatusPending /\
      e = EvDriver self projectName networkName (DrvDelete (reqClientType r)) ok.
Proof.
  cbv zeta.
  destruct (networkDelete env self r w) as [resp w1] eqn:Hrun. cbn [snd].
  assert (exists out, networkDeleteWith env (deleteOnPeer env) self r w = (out, w1)) as [out H].
  { unfold networkDelete, handle in Hrun.
    destruct (networkDeleteWith env (deleteOnPeer env) self r w) as [[?|?] ?];
      injection Hrun as <- <-; by eexists. }
  clear Hrun resp.
  assert (since w w = []) as Hnil by apply since_refl.
  revert H. unfold networkDeleteWith. cbv beta iota zeta.
  intros H. unfold requestProject, requestNetworkName in H.
  apply bindM_inv in H as [(e & H1 & ->)|([projectName reqProject] & w2 & H1 & H)].
  { apply orReturn_inv in H1 as [(e' & He & [= ->])|(? & _ & ?)]; [|done].
    injection He as _ <-. rewrite Hnil. intros ? Hin. by apply elem_of_nil in Hin. }
  apply orReturn_inv in H1 as [(e & _ & ?)|(? & He & [= <-])]; [done|].
  injection He as Hproj <-.
  apply bindM_inv in H as [(e & H1 & ->)|(networkName & w2 & H1 & H)].
  { apply orReturn_inv in H1 as [(e' & He & [= ->])|(? & _ & ?)]; [|done].
    injection He as _ <-. rewrite Hnil. intros ? Hin. by apply elem_of_nil in Hin. }
  apply orReturn_inv in H1 as [(e & _ & ?)|(? & He & [= <-])]; [done|].
  injection He as Hname <-.
  apply bindM_inv in H as [(e & H1 & ->)|(n & w2 & H1 & H)].
  { apply orReturn_inv in H1 as [(e' & He & [= ->])|(? & _ & ?)]; [|done].
    apply LoadByName_inv in He as [-> _].
    rewrite Hnil. intros ? Hin. by apply elem_of_nil in Hin. }
  apply orReturn_inv in H1 as [(e & _ & ?)|(? & He & [= <-])]; [done|].
  apply LoadByName_inv in He as [-> (Hf & row & Hrow & ->)].
  apply bindM_inv in H as [(e & H1 & ->)|([] & w2 & H1 & H)].
  { apply guardM_inv in H1 as [-> _].
    rewrite Hnil. intros ? Hin. by apply elem_of_nil in Hin. }
  apply guardM_inv in H1 as [-> _].
  (* in use *)
  assert (forall x w2,
            (if negb (isClusterNotification r)
             then do inUse <- orReturn SmartError
                                (IsUsed env (viewRow self projectName networkName row) false);
                  guardM (negb inUse) (BadRequest (ErrNew "The network is currently in use"))
             else retM tt) w = (x, w2) -> w2 = w) as Hpure.
  { intros x w2 Hrun.
    assert (Sat Same (if negb (isClusterNotification r)
             then do inUse <- orReturn SmartError
                                (IsUsed env (viewRow self projectName networkName row) false);
                  guardM (negb inUse) (BadRequest (ErrNew "The network is currently in use"))
             else retM tt)) as Hs by (unfold IsUsed; usat env).
    specialize (Hs w). rewrite Hrun in Hs. exact Hs. }
  apply bindM_inv in H as [(e & H1 & ->)|([] & w2 & H1 & H)].
  { apply Hpure in H1 as ->. rewrite Hnil. intros ? Hin. by apply elem_of_nil in Hin. }
  apply Hpure in H1 as ->. clear Hpure.
  (* the local delete *)
  assert (forall x w2,
            (if negb (bool_decide (netLocalStatus (viewRow self projectName networkName row) =
                                   NetworkStatusPending))
             then orReturn InternalError
                    (driverCall env (viewRow self projectName networkName row)
                       (DrvDelete (reqClientType r)))
             else retM tt) w = (x, w2) ->
            extends w w2 /\
            forall e, e ∈ since w w2 ->
              netLocalStatus (viewRow self projectName networkName row) <> NetworkStatusPending /\
              exists ok, e = EvDriver self projectName networkName
                               (DrvDelete (reqClientType r)) ok) as Hlocal.
  { intros x w2. case_bool_decide as Hst; cbn [negb].
    - intros [= <- <-]. split; [apply (extends_intro _ _ []); by rewrite app_nil_r|].
      rewrite Hnil. intros ? Hin. by apply elem_of_nil in Hin.
    - unfold orReturn, driverCall. cbn [netMember netProject netName viewRow].
      destruct (driver env _ _ w); intros [= <- <-].
      all: split; [by eapply extends_intro|]; erewrite since_app by (cbn; reflexivity).
      all: intros ev He; apply list_elem_of_singleton in He; subst ev; split; [done|by eexists]. }
  assert (forall e, (netLocalStatus (viewRow self projectName networkName row) <> NetworkStatusPending /\
              exists ok, e = EvDriver self projectName networkName
                               (DrvDelete (reqClientType r)) ok) ->
            exists projectName0 reqProject0 networkName0 row0 ok,
              networkProject env (reqProjectParam r) w = Ok (projectName0, reqProject0) /\
              reqNetworkName r = Ok networkName0 /\
              catalog w !! (projectName0, networkName0) = Some row0 /\
              netLocalStatus (viewRow self projectName0 networkName0 row0) <> NetworkStatusPending /\
              e = EvDriver self projectName0 networkName0 (DrvDelete (reqClientType r)) ok)
    as Hgoal.
  { intros e (Hst & ok & ->). by exists projectName, reqProject, networkName, row, ok. }
  apply bindM_inv in H as [(e & H1 & ->)|([] & w2 & H1 & H)].
  { apply Hlocal in H1 as [_ Hev]. intros e0 Hin _. apply Hgoal. by apply Hev. }
  apply Hlocal in H1 as [Hext Hev].
  (* the rest *)
  pose proof (Within_delete_tail self r (viewRow self projectName networkName row)
                projectName networkName w2) as [Hext2 Hall].
  rewrite H in Hext2, Hall. cbn [snd] in Hext2, Hall.
  destruct (since_trans _ _ _ Hext Hext2) as [_ ->].
  intros e0 Hin Hdrv. apply elem_of_app in Hin as [Hin|Hin].
  - apply Hgoal. by apply Hev.
  - rewrite Forall_forall in Hall. apply Hall in Hin. by rewrite Hdrv in Hin.
Qed.

End DeleteTheorems.


(** ** Rename *)

Section Rename.
Variable env : Env.

(** The transaction that lists the networks of a project reads only. *)
Lemma Transaction_GetNetworks_inv (project : string) (w w' : World) (r : result (list string)) :
  Transaction env (GetNetworks env project) w = (r, w') ->
  catalog w' = catalog w /\
  ((r = Ok (networkNamesOf (fun p _ => bool_decide (p = project)) (catalog w)) /\
    trace w' = trace w ++ [EvTxBegin; EvTxCommit]) \/
   (is_ok r = false /\ trace w' = trace w ++ [EvTxBegin; EvTxRollback])).
Proof.
  unfold Transaction, GetNetworks, readM, faultM, bindM.
  destruct (fault env (OpGetNetworks project) _); cbn [catalog emit].
  { intros [= <- <-]. split; [done|]. right. split; [done|]. cbn. by rewrite <- app_assoc. }
  destruct (fault env OpTxCommit _); intros [= <- <-]; (split; [done|]).
  - right. split; [done|]. cbn. by rewrite <- app_assoc.
  - left. split; [done|]. cbn. by rewrite <- app_assoc.
Qed.

(** The runs of a rename: an error before the driver, or the driver's
    [Rename] after every check, and the lifecycle event after its success. *)
Lemma networkPost_outcome (self : string) (r : Request) (w w' : World) (resp : Response) :
  networkPost env self r w = (resp, w') ->
  catalog w' = catalog w /\
  ((isErrorResponse resp = true /\
    (since w w' = [] \/ since w w' = [EvTxBegin; EvTxRollback] \/
     since w w' = [EvTxBegin; EvTxCommit])) \/
   exists projectName networkName newName,
     renameChecked env self r w projectName networkName newName /\
     ((isErrorResponse resp = true /\
       since w w' = [EvTxBegin; EvTxCommit;
                     EvDriver self projectName networkName (DrvRename newName) false]) \/
      (resp = SyncResponseLocation (networkURL projectName newName) /\
       exists authorized,
         since w w' = [EvTxBegin; EvTxCommit;
                       EvDriver self projectName networkName (DrvRename newName) true;
                       EvAuthorizer (AuthRenameNetwork projectName networkName newName) authorized;
                       EvLifecycle projectName newName (LifecycleNetworkRenamed networkName)]))).
Proof.
  unfold networkPost, handle.
  match goal with |- context [match ?c w with _ => _ end] =>
    destruct (c w) as [out w1] eqn:H end.
  intros Hout.
  assert (resp = match out with Ok r0 | Ret r0 => r0 end /\ w' = w1) as [-> ->]
    by (destruct out; by injection Hout as <- <-).
  clear Hout. unfold requestProject, requestNetworkName in H.
  assert (since w w = []) as Hnil by apply since_refl.
  (* clustered *)
  apply bindM_inv in H as [(e & H1 & ->)|([] & w2 & H1 & H)].
  { apply guardM_inv in H1 as [-> [[_ [= ->]]|[_ ?]]]; [|done].
    split; [done|]. left. split; [done|]. by left. }
  apply guardM_inv in H1 as [-> [[_ ?]|[Hc _]]]; [done|].
  apply negb_true_iff in Hc.
  (* the project *)
  apply bindM_inv in H as [(e & H1 & ->)|([projectName reqProject] & w2 & H1 & H)].
  { apply orReturn_inv in H1 as [(e' & He & [= ->])|(? & _ & ?)]; [|done].
    injection He as _ <-. split; [done|]. left. split; [done|]. by left. }
  apply orReturn_inv in H1 as [(e & _ & ?)|(? & He & [= <-])]; [done|].
  injection He as Hproj <-.
  (* the name *)
  apply bindM_inv in H as [(e & H1 & ->)|(networkName & w2 & H1 & H)].
  { apply orReturn_inv in H1 as [(e' & He & [= ->])|(? & _ & ?)]; [|done].
    injection He as _ <-. split; [done|]. left. split; [done|]. by left. }
  apply orReturn_inv in H1 as [(e & _ & ?)|(? & He & [= <-])]; [done|].
  injection He as Hname <-.
  (* the body *)
  apply bindM_inv in H as [(e & H1 & ->)|(newName & w2 & H1 & H)].
  { apply orReturn_inv in H1 as [(e' & He & [= ->])|(? & _ & ?)]; [|done].
    injection He as _ <-. split; [done|]. left. split; [done|]. by left. }
  apply orReturn_inv in H1 as [(e & _ & ?)|(? & He & [= <-])]; [done|].
  injection He as Hnew <-.
  (* the load *)
  apply bindM_inv in H as [(e & H1 & ->)|(n & w2 & H1 & H)].
  { apply orReturn_inv in H1 as [(e' & He & [= ->])|(? & _ & ?)]; [|done].
    apply LoadByName_inv in He as [-> _]. split; [done|]. left. split; [done|]. by left. }
  apply orReturn_inv in H1 as [(e & _ & ?)|(? & He & [= <-])]; [done|].
  apply LoadByName_inv in He as [-> (Hf & row & Hrow & ->)].
  (* the access check *)
  apply bindM_inv in H as [(e & H1 & ->)|([] & w2 & H1 & H)].
  { apply guardM_inv in H1 as [-> [[_ [= ->]]|[_ ?]]]; [|done].
    split; [done|]. left. split; [done|]. by left. }
  apply guardM_inv in H1 as [-> [[_ ?]|[Hallow _]]]; [done|].
  (* the status *)
  apply bindM_inv in H as [(e & H1 & ->)|([] & w2 & H1 & H)].
  { apply guardM_inv in H1 as [-> [[_ [= ->]]|[_ ?]]]; [|done].
    split; [done|]. left. split; [done|]. by left. }
  apply guardM_inv in H1 as [-> [[_ ?]|[Hst _]]]; [done|].
  apply bool_decide_eq_true in Hst.
  (* the new name *)
  apply bindM_inv in H as [(e & H1 & ->)|([] & w2 & H1 & H)].
  { apply guardM_inv in H1 as [-> [[_ [= ->]]|[_ ?]]]; [|done].
    split; [done|]. left. split; [done|]. by left. }
  apply guardM_inv in H1 as [-> [[_ ?]|[Hne _]]]; [done|].
  apply negb_true_iff, String.eqb_neq in Hne.
  apply bindM_inv in H as [(e & H1 & ->)|([] & w2 & H1 & H)].
  { destruct (validateName env _ newName); unfold failM, retM in H1; simplify_eq.
    split; [done|]. left. split; [done|]. by left. }
  assert (validateName env (rowType row) newName = None /\ w2 = w) as [Hvalid ->].
  { cbn [netType viewRow] in H1.
    by destruct (validateName env _ newName); unfold failM, retM in H1; simplify_eq. }
  clear H1.
  (* in use *)
  apply bindM_inv in H as [(e & H1 & ->)|(inUse & w2 & H1 & H)].
  { apply orReturn_inv in H1 as [(e' & He & [= ->])|(? & _ & ?)]; [|done].
    unfold IsUsed in He. injection He as _ <-.
    split; [done|]. left. split; [done|]. by left. }
  apply orReturn_inv in H1 as [(e & _ & ?)|(? & He & [= <-])]; [done|].
  unfold IsUsed in He. injection He as Hused <-.
  apply bindM_inv in H as [(e & H1 & ->)|([] & w2 & H1 & H)].
  { apply guardM_inv in H1 as [-> [[_ [= ->]]|[_ ?]]]; [|done].
    split; [done|]. left. split; [done|]. by left. }
  apply guardM_inv in H1 as [-> [[_ ?]|[Hfree _]]]; [done|].
  apply negb_true_iff in Hfree. subst inUse.
  (* the names of the project *)
  apply bindM_inv in H as [(e & H1 & ->)|(networks & w2 & H1 & H)].
  { apply orReturn_inv in H1 as [(e' & He & [= ->])|(? & _ & ?)]; [|done].
    apply Transaction_GetNetworks_inv in He as [Hcat [[? _]|[_ Ht]]]; [done|].
    split; [done|]. left. split; [done|]. right. left. by apply since_app. }
  apply orReturn_inv in H1 as [(e & _ & ?)|(? & He & [= <-])]; [done|].
  apply Transaction_GetNetworks_inv in He as [Hcat [[[= ->] Ht]|[? _]]]; [|done].
  apply bindM_inv in H as [(e & H1 & ->)|([] & w3 & H1 & H)].
  { apply guardM_inv in H1 as [-> [[_ [= ->]]|[_ ?]]]; [|done].
    split; [done|]. left. split; [done|]. right. right. by apply since_app. }
  apply guardM_inv in H1 as [-> [[_ ?]|[Hfresh _]]]; [done|].
  apply negb_true_iff in Hfresh. unfold Contains in Hfresh.
  apply bool_decide_eq_false in Hfresh.
  assert (catalog w !! (projectName, newName) = None) as Hnone.
  { destruct (catalog w !! (projectName, newName)) as [row'|] eqn:Hrow'; [|done].
    exfalso. apply Hfresh. apply elem_of_networkNamesOf. exists projectName, row'.
    split; [done|]. by apply bool_decide_eq_true. }
  assert (renameChecked env self r w projectName networkName newName) as Hchecked.
  { split; [done|]. exists reqProject, row. by repeat split. }
  apply bindM_inv in H as [(e & H1 & ->)|([] & w3 & H1 & H)].
  { apply orReturn_inv in H1 as [(e' & He & [= ->])|(? & _ & ?)]; [|done].
    unfold driverCall in He. cbn [netMember netProject netName viewRow] in He.
    destruct (driver env _ _ w2); [|done]. injection He as _ <-.
    split; [done|]. right. exists projectName, networkName, newName. split; [done|].
    left. split; [done|]. apply since_app. cbn. rewrite Ht. by rewrite <- app_assoc. }
  apply orReturn_inv in H1 as [(e & _ & ?)|(? & He & _)]; [done|].
  unfold driverCall in He. cbn [netMember netProject netName viewRow] in He.
  destruct (driver env _ _ w2); [done|]. simplify_eq.
  unfold authorizerCall, emitM, bindM, retM in H.
  match type of H with
  | context [fault env ?op ?w0] => destruct (fault env op w0)
  end; injection H as <- <-.
  all: split; [done|]; right; exists projectName, networkName, newName; split; [done|].
  all: right; split; [done|]; eexists; apply since_app; cbn; rewrite Ht.
  all: by rewrite <- !app_assoc.
Qed.

(** X17. A rename leaves the catalog as it was (the record is renamed by the
    driver); a call into the driver during a rename is the [Rename] on the
    member, after every check: the server is not clustered, the network is
    created and not in use, the new name is valid and free. *)
Theorem rename_reaches_driver_only_after_checks (self : string) (r : Request) (w : World) :
  let run := networkPost env self r w in
  forall member project name call ok,
    EvDriver member project name call ok ∈ since w run.2 ->
    member = self /\
    exists newName, call = DrvRename newName /\ renameChecked env self r w project name newName.
Proof.
  cbv zeta. destruct (networkPost env self r w) as [resp w'] eqn:Hrun. cbn [fst snd].
  apply networkPost_outcome in Hrun as [Hcat Hcases].
  intros member project name call ok Hin.
  destruct Hcases as [[_ [Hs|[Hs|Hs]]]|(p & n & new & Hchecked & [[_ Hs]|[_ [a Hs]]])];
    rewrite Hs in Hin.
  1-3: repeat (apply elem_of_cons in Hin as [Hin|Hin]; [done|]); by apply elem_of_nil in Hin.
  all: repeat (apply elem_of_cons in Hin as [Hin|Hin]; [try done|]);
       try (by apply elem_of_nil in Hin).
  all: injection Hin as -> -> -> -> _; split; [done|]; by exists new.
Qed.

(** X18. The network-renamed event is emitted exactly by the renames that
    succeed, after the driver's [Rename] went well. *)
Theorem rename_announced_only_after_success (self : string) (r : Request) (w : World) :
  let run := networkPost env self r w in
  (forall project newName name,
     EvLifecycle project newName (LifecycleNetworkRenamed name) ∈ since w run.2 ->
     run.1 = SyncResponseLocation (networkURL project newName) /\
     EvDriver self project name (DrvRename newName) true ∈ since w run.2) /\
  (isErrorResponse run.1 = true -> Forall (fun e => isAnnouncement e = false) (since w run.2)) /\
  (isErrorResponse run.1 = false ->
   exists project newName name,
     EvLifecycle project newName (LifecycleNetworkRenamed name) ∈ since w run.2).
Proof.
  cbv zeta. destruct (networkPost env self r w) as [resp w'] eqn:Hrun. cbn [fst snd].
  apply networkPost_outcome in Hrun as [Hcat Hcases].
  destruct Hcases as [[Herr [Hs|[Hs|Hs]]]|(p & n & new & Hchecked & [[Herr Hs]|[-> [a Hs]]])];
    rewrite Hs.
  1-4: split; [|split; [intros _; by repeat constructor|by rewrite Herr]].
  1-4: intros project newName name Hin;
       repeat (apply elem_of_cons in Hin as [Hin|Hin]; [done|]); by apply elem_of_nil in Hin.
  split; [|split; [done|]].
  - intros project newName name Hin.
    repeat (apply elem_of_cons in Hin as [Hin|Hin]; [try done|]); [|by apply elem_of_nil in Hin].
    injection Hin as -> -> ->. split; [done|]. set_solver.
  - intros _. exists p, new, n. set_solver.
Qed.

End Rename.


(** ** Undo of a failed actuation *)

Section Actuation.
Variable env : Env.

(** X6. [doNetworksCreate] on a network that the member has not created yet:
    a failure leaves the catalog as it was, and the driver's [Create] has
    succeeded exactly when the last call is its [Delete]; a success calls
    no [Delete] and marks the member created. *)
Theorem failed_create_is_undone (n : Network) (clientType : ClientType) (w : World) :
  netLocalStatus n <> NetworkStatusCreated ->
  let run := doNetworksCreate env n clientType w in
  let drv call := EvDriver (netMember n) (netProject n) (netName n) call in
  (is_ok run.1 = false ->
   catalog run.2 = catalog w /\
   (drv (DrvCreate clientType) true ∈ since w run.2 <->
    exists undone, last (since w run.2) = Some (drv (DrvDelete clientType) undone))) /\
  (is_ok run.1 = true ->
   Forall (fun e => isDelete e = false) (since w run.2) /\
   catalog run.2 = updateRowsByID (netID n) (setNodeCreated (netMember n)) (catalog w)).
Proof.
  intros Hst. cbv zeta.
  destruct (doNetworksCreate_runs env n clientType w Hst)
    as [(Hok & Hcat & Hs)|(Hok & Hcat & Hs)]; cbv zeta in *.
  - split; [|by rewrite Hok]. intros _. split; [done|].
    destruct Hs as [Hs|[Hs|[(Hj & undone & Hs)|(undone & Hs)]]]; rewrite Hs.
    + split.
      * intros Hin. apply list_elem_of_singleton in Hin. done.
      * by intros [undone [=]].
    + split.
      * intros Hin. repeat (apply elem_of_cons in Hin as [Hin|Hin]; [done|]).
        by apply elem_of_nil in Hin.
      * by intros [undone [=]].
    + split; [intros _; by exists undone|]. intros _. set_solver.
    + split.
      * intros _. exists undone. by destruct (decide (clientType = ClientTypeJoiner)).
      * intros _. set_solver.
  - rewrite Hok. split; [done|]. intros _. split; [|done]. rewrite Hs.
    destruct (decide (clientType = ClientTypeJoiner)); by repeat constructor.
Qed.

(** X7. [doNetworksCreate] never calls the driver's [Start] for a joining
    member; for every other client the network that the member has not
    created yet is started before the actuation succeeds. *)
Theorem joiner_is_not_started (n : Network) (clientType : ClientType) (w : World) :
  let run := doNetworksCreate env n clientType w in
  let started := EvDriver (netMember n) (netProject n) (netName n) DrvStart true in
  (clientType = ClientTypeJoiner -> Forall (fun e => isStart e = false) (since w run.2)) /\
  (clientType <> ClientTypeJoiner -> netLocalStatus n <> NetworkStatusCreated ->
   is_ok run.1 = true -> started ∈ since w run.2).
Proof.
  cbv zeta. split.
  - intros ->. destruct (decide (netLocalStatus n = NetworkStatusCreated)) as [Hst|Hst].
    + unfold doNetworksCreate, driverCall. runM.
      destruct (driver env n _ w); [|rewrite Hst; cbn];
        erewrite since_app by (cbn; reflexivity); by repeat constructor.
    + destruct (doNetworksCreate_runs env n ClientTypeJoiner w Hst)
        as [(_ & _ & Hs)|(_ & _ & Hs)]; cbv zeta in *.
      * destruct Hs as [Hs|[Hs|[(Hj & undone & Hs)|(undone & Hs)]]]; rewrite Hs;
          try done; by repeat constructor.
      * rewrite Hs. by repeat constructor.
  - intros Hj Hst Hok.
    destruct (doNetworksCreate_runs env n clientType w Hst)
      as [(Hno & _)|(_ & _ & Hs)]; cbv zeta in *; [congruence|].
    rewrite Hs. rewrite decide_False by done. set_solver.
Qed.

End Actuation.


(** ** Passes of the startup engine *)

(** There is no network at a priority that the buckets do not have. *)
Lemma lookup_total_bucket_ge (l : Buckets) (i : nat) :
  (length l <= i)%nat -> l !!! i = ∅.
Proof. intros Hi. rewrite list_lookup_total_alt. by rewrite lookup_ge_None_2. Qed.

(** A change at a priority that the buckets do not have changes nothing. *)
Lemma alter_bucket_ge (f : gset (string * string) -> gset (string * string))
    (l : Buckets) (i : nat) :
  (length l <= i)%nat -> alter f i l = l.
Proof.
  revert i. induction l as [|b l IH]; intros i Hi; [done|].
  destruct i as [|i]; cbn in *; [lia|]. f_equal. apply IH. lia.
Qed.

(** The networks of the buckets after a [delete]. *)
Lemma elem_of_bucketDelete (p : nat) (q x : string * string) (l : Buckets) (i : nat) :
  x ∈ bucketDelete p q l !!! i <-> x ∈ l !!! i /\ ~ (i = p /\ x = q).
Proof.
  unfold bucketDelete. destruct (decide (p < length l)%nat) as [Hp|Hp].
  - destruct (decide (i = p)) as [->|Hne].
    + rewrite list_lookup_total_alter_eq by done.
      rewrite elem_of_difference, elem_of_singleton. split.
      * intros [? Hx]. split; [done|]. by intros [_ ?].
      * intros [? Hx]. split; [done|]. intros ->. by apply Hx.
    + rewrite list_lookup_total_alter_ne by done. split; [|by intros [? _]].
      intros ?. split; [done|]. by intros [? _].
  - rewrite alter_bucket_ge by lia. split; [|by intros [? _]].
    intros Hx. split; [done|]. intros [-> _].
    rewrite lookup_total_bucket_ge in Hx by lia. by apply elem_of_empty in Hx.
Qed.

(** The networks of the buckets after an insert. *)
Lemma elem_of_bucketAdd (p : nat) (q x : string * string) (l : Buckets) (i : nat) :
  x ∈ bucketAdd p q l !!! i <-> x ∈ l !!! i \/ (i = p /\ (p < length l)%nat /\ x = q).
Proof.
  unfold bucketAdd. destruct (decide (p < length l)%nat) as [Hp|Hp].
  - destruct (decide (i = p)) as [->|Hne].
    + rewrite list_lookup_total_alter_eq by done.
      rewrite elem_of_union, elem_of_singleton. split.
      * intros [->|?]; [right; done|by left].
      * intros [?|(_ & _ & ->)]; [by right|by left].
    + rewrite list_lookup_total_alter_ne by done. split; [by left|].
      by intros [?|(? & _)].
  - rewrite alter_bucket_ge by lia. split; [by left|]. intros [?|(_ & ? & _)]; [done|lia].
Qed.

(** A [delete] keeps the number of buckets. *)
Lemma length_bucketDelete (p : nat) (q : string * string) (l : Buckets) :
  length (bucketDelete p q l) = length l.
Proof. apply length_alter. Qed.

(** An insert keeps the number of buckets. *)
Lemma length_bucketAdd (p : nat) (q : string * string) (l : Buckets) :
  length (bucketAdd p q l) = length l.
Proof. apply length_alter. Qed.

Section Passes.
Variable env : Env.

(** What holds of the buckets and of the world before every visit of a pass
    holds after the pass. *)
Lemma initEntries_invariant (I : Buckets -> World -> Prop) (Q : string * string -> Prop)
    (self : string) (loadedNetworks : gmap (string * string) Network)
    (firstPass : bool) (priority : nat) (pns : list (string * string))
    (st : Buckets * bool) (w : World) :
  (forall pn initNetworks w0, Q pn -> I initNetworks w0 ->
     match loadAndInitNetwork env self loadedNetworks pn priority firstPass initNetworks w0 with
     | (Ok initNetworks', w1) => I initNetworks' w1
     | (Ret _, w1) => I initNetworks w1
     end) ->
  Forall Q pns ->
  I st.1 w ->
  let r := initEntries env self loadedNetworks firstPass priority pns st w in
  I r.1.1 r.2.
Proof.
  intros Hvisit. revert st w. induction pns as [|pn pns IH]; intros st w Hq Hi; cbn.
  - done.
  - apply Forall_cons in Hq as [Hpn Hq].
    specialize (Hvisit pn st.1 w Hpn Hi).
    destruct (loadAndInitNetwork env self loadedNetworks pn priority firstPass st.1 w)
      as [[initNetworks'|e] w1].
    + by apply IH.
    + by apply IH.
Qed.

(** What every visit keeps, a pass over the three buckets keeps. *)
Lemma initPass_invariant (I : Buckets -> World -> Prop) (Q : string * string -> Prop)
    (self : string) (loadedNetworks : gmap (string * string) Network)
    (firstPass : bool) (initNetworks : Buckets) (w : World) :
  (forall pn priority initNetworks0 w0, Q pn -> I initNetworks0 w0 ->
     match loadAndInitNetwork env self loadedNetworks pn priority firstPass initNetworks0 w0 with
     | (Ok initNetworks', w1) => I initNetworks' w1
     | (Ret _, w1) => I initNetworks0 w1
     end) ->
  (forall initNetworks0 w0 pn i, I initNetworks0 w0 -> pn ∈ initNetworks0 !!! i -> Q pn) ->
  I initNetworks w ->
  let r := initPass env self loadedNetworks firstPass initNetworks w in
  I r.1.1 r.2.
Proof.
  intros Hvisit Hq Hi. unfold initPass.
  generalize (seq 0 (length initNetworks)). intros priorities.
  generalize false. intros flag.
  assert (I (initNetworks, flag).1 w) as Hi' by done. clear Hi.
  generalize dependent (initNetworks, flag). clear initNetworks flag.
  intros st. revert st w.
  induction priorities as [|priority priorities IH]; intros st w Hi; cbn; [done|].
  apply IH. apply initEntries_invariant with (Q := Q); [intros; by apply Hvisit| |done].
  apply Forall_forall. intros pn Hin. apply elem_of_elements in Hin. by eapply Hq.
Qed.

End Passes.


(** A [delete] of one network keeps the others. *)
Lemma other_bucketDelete (p : nat) (q x : string * string) (l : Buckets) (i : nat) :
  x <> q -> x ∈ bucketDelete p q l !!! i <-> x ∈ l !!! i.
Proof.
  intros Hne. rewrite elem_of_bucketDelete. split; [by intros [? _]|].
  intros ?. split; [done|]. by intros [_ ?].
Qed.

(** An insert of one network keeps the others. *)
Lemma other_bucketAdd (p : nat) (q x : string * string) (l : Buckets) (i : nat) :
  x <> q -> x ∈ bucketAdd p q l !!! i <-> x ∈ l !!! i.
Proof.
  intros Hne. rewrite elem_of_bucketAdd. split; [|by left].
  by intros [?|(_ & _ & ?)].
Qed.

Section Visit.
Variable env : Env.

(** A visit without cache: what it may do. *)
Lemma visit_general (self : string) (pn : string * string) (priority : nat)
    (firstPass : bool) (initNetworks : Buckets) (w : World) :
  let run := loadAndInitNetwork env self ∅ pn priority firstPass initNetworks w in
  catalog run.2 = catalog w /\
  extends w run.2 /\
  Forall (fun e => visitEvent self pn e = true) (since w run.2) /\
  match run.1 with
  | Ok initNetworks' =>
      length initNetworks' = length initNetworks /\
      forall x i, x <> pn -> x ∈ initNetworks' !!! i <-> x ∈ initNetworks !!! i
  | Ret _ => True
  end.
Proof.
  cbv zeta. destruct pn as [project name].
  assert ((if firstPass then (∅ : gmap (string * string) Network) !! (project, name) else None)
          = None) as Hcache by (destruct firstPass; [apply lookup_empty|done]).
  unfold loadAndInitNetwork, initNetwork, ResolveWarnings, UpsertWarningLocalNode, LoadByName,
    Transaction, writeM, driverCall.
  rewrite Hcache.
  cbv beta iota zeta delta [bindM orReturn retM failM ignoreM attemptM readM faultM fst snd].
  cbn [fst snd netMember netProject netName netID netConfig viewRow].
  assert (forall p q, length (bucketDelete p q initNetworks) = length initNetworks /\
            forall x i, x <> q -> x ∈ bucketDelete p q initNetworks !!! i <-> x ∈ initNetworks !!! i)
    as Hdel.
  { intros p q. split; [apply length_bucketDelete|]. intros. by apply other_bucketDelete. }
  assert (forall t p q, length (bucketAdd t q (bucketDelete p q initNetworks)) = length initNetworks /\
            forall x i, x <> q ->
              x ∈ bucketAdd t q (bucketDelete p q initNetworks) !!! i <-> x ∈ initNetworks !!! i)
    as Hmove.
  { intros t p q. split; [by rewrite length_bucketAdd, length_bucketDelete|].
    intros x i Hne. by rewrite other_bucketAdd, other_bucketDelete. }
  assert (extends w w /\ Forall (fun e => visitEvent self (project, name) e = true) (since w w))
    as Hstay.
  { rewrite since_refl. split; [|done]. apply (extends_intro _ _ []). by rewrite app_nil_r. }
  repeat match goal with
  | |- context [match fault env ?op ?w0 with _ => _ end] => destruct (fault env op w0) eqn:?
  | |- context [match catalog ?w0 !! ?k with _ => _ end] => destruct (catalog w0 !! k) eqn:?
  | |- context [if StatusErrorCheck ?e ?c then _ else _] => destruct (StatusErrorCheck e c) eqn:?
  | |- context [match driver env ?n ?c ?w0 with _ => _ end] => destruct (driver env n c w0) eqn:?
  | |- context [if negb ?b && negb ?c then _ else _] => destruct (negb b && negb c) eqn:?
  end; cbn [fst snd catalog emit setCatalog].
  all: split; [done|].
  all: try (destruct Hstay as [? ?]; split; [done|]; split; [done|]; first [done | apply Hdel]).
  all: split; [eapply extends_intro; cbn; rewrite <- ?app_assoc; reflexivity|].
  all: split;
    [erewrite since_app by (cbn; rewrite <- ?app_assoc; reflexivity);
     repeat constructor; cbn; by rewrite ?bool_decide_eq_true_2|].
  all: first [done | apply Hdel | apply Hmove].
Qed.

End Visit.


Section StartupPasses.
Variable env : Env.

(** X24. A pass of the startup engine over the buckets leaves the catalog as it
    was, keeps the number of buckets, adds no network to them, and records
    only events of visits of networks that were waiting. *)
Theorem startup_pass_only_visits_waiting_networks (self : string) (firstPass : bool)
    (initNetworks : Buckets) (w : World) :
  let run := initPass env self ∅ firstPass initNetworks w in
  catalog run.2 = catalog w /\
  length run.1.1 = length initNetworks /\
  (forall pn, waiting run.1.1 pn -> waiting initNetworks pn) /\
  extends w run.2 /\
  Forall (fun e => exists pn, waiting initNetworks pn /\ visitEvent self pn e = true)
    (since w run.2).
Proof.
  cbv zeta.
  apply (initPass_invariant env
           (fun b w' =>
              catalog w' = catalog w /\ length b = length initNetworks /\
              (forall pn, waiting b pn -> waiting initNetworks pn) /\
              extends w w' /\
              Forall (fun e => exists pn, waiting initNetworks pn /\ visitEvent self pn e = true)
                (since w w'))
           (waiting initNetworks)).
  - intros pn priority b w0 Hq (Hc & Hl & Hsub & He & Hall).
    pose proof (visit_general env self pn priority firstPass b w0) as (Hc' & He' & Hall' & Hb).
    cbv zeta in Hc', He', Hall', Hb.
    destruct (loadAndInitNetwork env self ∅ pn priority firstPass b w0) as [[b'|err] w1];
      cbn [fst snd] in *.
    all: destruct (since_trans _ _ _ He He') as [He2 ->].
    all: assert (Forall (fun e => exists pn0, waiting initNetworks pn0 /\
                                   visitEvent self pn0 e = true) (since w0 w1)) as Hall2
      by (eapply Forall_impl; [exact Hall'|]; intros e Hv; by exists pn).
    + destruct Hb as [Hl' Hiff].
      split; [congruence|]. split; [congruence|]. split; [|split; [done|by apply Forall_app]].
      intros x [i Hx]. destruct (decide (x = pn)) as [->|Hne]; [done|].
      apply Hsub. exists i. by apply Hiff.
    + split; [congruence|]. split; [done|]. split; [done|]. split; [done|by apply Forall_app].
  - intros b w0 pn i (_ & _ & Hsub & _) Hin. apply Hsub. by exists i.
  - split; [done|]. split; [done|]. split; [done|]. rewrite since_refl.
    split; [|done]. apply (extends_intro _ _ []). by rewrite app_nil_r.
Qed.

(** A visit to a network that names both a parent and an uplink network. *)
Lemma visit_both (self : string) (pn : string * string) (priority : nat) (firstPass : bool)
    (initNetworks : Buckets) (row : NetRow) (w : World) :
  fault env (OpLoadByName self pn.1 pn.2) w = None ->
  catalog w !! pn = Some row ->
  let n := viewRow self pn.1 pn.2 row in
  cfg_get (netConfig n) "parent" <> "" ->
  cfg_get (netConfig n) "network" <> "" ->
  let target := if Nat.eqb priority networkPriorityPhysical
                then networkPriorityLogical else networkPriorityPhysical in
  let validated := EvDriver self pn.1 pn.2 (DrvValidate (netConfig n)) in
  loadAndInitNetwork env self ∅ pn priority firstPass initNetworks w =
    match driver env n (DrvValidate (netConfig n)) w with
    | Some err => (Ret (ErrWrap "Failed validating" err), emit (validated false) w)
    | None => (Ok (bucketAdd target pn (bucketDelete priority pn initNetworks)),
               emit (validated true) w)
    end.
Proof.
  destruct pn as [project name]. cbn [fst snd].
  set (n := viewRow self project name row).
  intros Hf Hrow Hparent Hnetwork.
  assert ((if firstPass then (∅ : gmap (string * string) Network) !! (project, name) else None)
          = None) as Hcache by (destruct firstPass; [apply lookup_empty|done]).
  unfold loadAndInitNetwork, LoadByName, driverCall. rewrite Hcache.
  cbv beta iota zeta delta [bindM orReturn retM failM attemptM readM faultM fst snd].
  rewrite Hf. cbv beta iota. rewrite Hrow.
  cbv beta iota. fold n. cbn [netMember netProject netName viewRow].
  destruct (driver env n (DrvValidate (netConfig n)) w); [done|].
  apply String.eqb_neq in Hparent, Hnetwork. rewrite Hparent, Hnetwork. cbn [negb andb].
  unfold networkPriorityPhysical, networkPriorityLogical.
  destruct (Nat.eqb_spec priority 1) as [->|Hp]; cbn [negb]; [done|done].
Qed.

(** A visit of any network keeps a network with both dependencies waiting
    and not started. *)
Lemma stuck_visit (self : string) (pn : string * string) (row : NetRow) (w : World)
    (firstPass : bool) (q : string * string) (priority : nat)
    (initNetworks : Buckets) (w0 : World) :
  (forall w1, fault env (OpLoadByName self pn.1 pn.2) w1 = None) ->
  catalog w !! pn = Some row ->
  cfg_get (netConfig (viewRow self pn.1 pn.2 row)) "parent" <> "" ->
  cfg_get (netConfig (viewRow self pn.1 pn.2 row)) "network" <> "" ->
  stuck self pn w initNetworks w0 ->
  match loadAndInitNetwork env self ∅ q priority firstPass initNetworks w0 with
  | (Ok initNetworks', w1) => stuck self pn w initNetworks' w1
  | (Ret _, w1) => stuck self pn w initNetworks w1
  end.
Proof.
  intros Hf Hrow Hparent Hnetwork (Hc & Hl & Hwait & He & Hall).
  destruct (decide (q = pn)) as [->|Hne].
  - rewrite (visit_both self pn priority firstPass initNetworks row w0);
      [|done|by rewrite Hc|done|done].
    assert (forall ok, stuck self pn w initNetworks
              (emit (EvDriver self pn.1 pn.2
                       (DrvValidate (netConfig (viewRow self pn.1 pn.2 row))) ok) w0)) as Hstay.
    { intros ok. split; [done|]. split; [done|]. split; [done|].
      assert (extends w0 (emit (EvDriver self pn.1 pn.2
                (DrvValidate (netConfig (viewRow self pn.1 pn.2 row))) ok) w0)) as He'
        by by eapply extends_intro.
      destruct (since_trans _ _ _ He He') as [He2 ->]. split; [done|].
      apply Forall_app. split; [done|]. erewrite since_app by (cbn; reflexivity). by repeat constructor. }
    destruct (driver env _ _ w0); [apply Hstay|].
    destruct (Hstay true) as (? & _ & _ & ? & ?).
    split; [done|]. split; [by rewrite length_bucketAdd, length_bucketDelete|].
    split; [|done].
    eexists. apply elem_of_bucketAdd. right. split; [done|]. split; [|done].
    rewrite length_bucketDelete, Hl. unfold networkPriorityLogical, networkPriorityPhysical.
    destruct (priority =? 1)%nat; lia.
  - pose proof (visit_general env self q priority firstPass initNetworks w0)
      as (Hc' & He' & Hall' & Hb).
    cbv zeta in Hc', He', Hall', Hb.
    destruct (loadAndInitNetwork env self ∅ q priority firstPass initNetworks w0)
      as [[b'|err] w1]; cbn [fst snd] in *.
    all: destruct (since_trans _ _ _ He He') as [He2 Hs].
    all: assert (Forall (fun e => isStartOf pn e = false) (since w w1)) as Hall2.
    1,3: rewrite Hs; apply Forall_app; split; [done|];
         eapply Forall_impl; [exact Hall'|]; intros e Hv;
         destruct e as [| | | | |m p nm [] ok| | | | |]; try done; cbn in *;
         apply andb_true_iff in Hv as [_ Hv]; apply bool_decide_eq_true in Hv;
         apply bool_decide_eq_false; congruence.
    + destruct Hb as [Hl' Hiff]. split; [congruence|]. split; [congruence|].
      split; [|done]. destruct Hwait as [i Hi]. exists i. apply Hiff; [done|done].
    + split; [congruence|]. done.
Qed.

(** X25. A network whose config names both a parent and an uplink network and
    that loads is never started by the startup engine: after the first pass
    and after any number of retries it still waits, and the driver's [Start]
    has not been called for it. *)
Theorem network_with_both_dependencies_never_starts (self : string) (pn : string * string)
    (row : NetRow) (initNetworks : Buckets) (w : World) :
  (forall w0, fault env (OpLoadByName self pn.1 pn.2) w0 = None) ->
  catalog w !! pn = Some row ->
  cfg_get (netConfig (viewRow self pn.1 pn.2 row)) "parent" <> "" ->
  cfg_get (netConfig (viewRow self pn.1 pn.2 row)) "network" <> "" ->
  length initNetworks = 3%nat ->
  waiting initNetworks pn ->
  forall (firstPass : bool) (ticks : nat),
    let first := initPass env self ∅ firstPass initNetworks w in
    let later := retryLoop env self ticks first.1.1 first.2 in
    waiting first.1.1 pn /\
    Forall (fun e => isStartOf pn e = false) (since w first.2) /\
    waiting later.1 pn /\
    Forall (fun e => isStartOf pn e = false) (since w later.2) /\
    catalog later.2 = catalog w.
Proof.
  intros Hf Hrow Hparent Hnetwork Hl Hwait firstPass ticks. cbv zeta.
  assert (forall fp b w0, stuck self pn w b w0 ->
            stuck self pn w (initPass env self ∅ fp b w0).1.1 (initPass env self ∅ fp b w0).2)
    as Hpass.
  { intros fp b w0 Hs.
    apply (initPass_invariant env (stuck self pn w) (fun _ => True)); [|done|done].
    intros q priority b0 w1 _ Hs0. by eapply stuck_visit. }
  assert (stuck self pn w initNetworks w) as H0.
  { split; [done|]. split; [done|]. split; [done|]. rewrite since_refl.
    split; [|done]. apply (extends_intro _ _ []). by rewrite app_nil_r. }
  apply (Hpass firstPass) in H0.
  set (first := initPass env self ∅ firstPass initNetworks w) in *.
  assert (forall b w0, stuck self pn w b w0 ->
            stuck self pn w (retryLoop env self ticks b w0).1 (retryLoop env self ticks b w0).2)
    as Hloop.
  { induction ticks as [|ticks IH]; intros b w0 Hs; cbn; [done|].
    assert (stuck self pn w (retryTick env self b w0).1 (retryTick env self b w0).2) as Htick.
    { unfold retryTick. cbv zeta. cbn [fst snd].
      apply (Hpass false) in Hs.
      destruct (initPass env self ∅ false b w0) as [[b1 flag] w1]. cbn [fst snd] in *.
      destruct flag; [|done].
      destruct (fault env (OpLoadNodeAll self) w1); [done|].
      destruct Hs as (Hc & Hl1 & Hw1 & He & Hall).
      split; [done|]. split; [done|]. split; [done|].
      assert (extends w1 (emit (EvInstancesStart self) w1)) as He' by by eapply extends_intro.
      destruct (since_trans _ _ _ He He') as [He2 ->]. split; [done|].
      apply Forall_app. split; [done|]. erewrite since_app by (cbn; reflexivity). by repeat constructor. }
    destruct (Nat.leb _ 0); [done|]. by apply IH. }
  apply Hloop in H0 as H1.
  destruct H0 as (_ & _ & Hw0 & _ & Ha0). destruct H1 as (Hc1 & _ & Hw1 & _ & Ha1).
  done.
Qed.

End StartupPasses.


Section StartupVisits.
Variable env : Env.

(** X26. When the load of a waiting network fails, the visit drops the network
    from its bucket if the error is not-found, and fails with the error
    otherwise; the world is as it was. *)
Theorem vanished_network_is_dropped (self : string) (pn : string * string) (priority : nat)
    (firstPass : bool) (initNetworks : Buckets) (err : error) (w w' : World) :
  LoadByName env self pn.1 pn.2 w = (Ret err, w') ->
  loadAndInitNetwork env self ∅ pn priority firstPass initNetworks w =
    if StatusErrorCheck err StatusNotFound
    then (Ok (bucketDelete priority pn initNetworks), w)
    else (Ret (ErrWrap "Failed loading" err), w).
Proof.
  intros Hload. pose proof Hload as Hw. apply LoadByName_inv in Hw as [-> _].
  assert ((if firstPass then (∅ : gmap (string * string) Network) !! pn else None) = None)
    as Hcache by (destruct firstPass; [apply lookup_empty|done]).
  unfold loadAndInitNetwork. rewrite Hcache.
  unfold bindM at 1. unfold bindM at 1. unfold attemptM. rewrite Hload. cbn [fst snd].
  by destruct (StatusErrorCheck err StatusNotFound).
Qed.



End StartupVisits.


(** ** Shutdown *)

(** What an attempt yields, when the step went well. *)
Lemma Yields_attemptM {E E' A} (P : A -> Prop) (c : M E A) :
  Yields P c ->
  Yields (fun got => match got with Ok a => P a | Ret _ => True end) (attemptM (E':=E') c).
Proof.
  intros Hc w got w'. unfold attemptM. intros [= <- <-].
  specialize (Hc w). destruct (c w) as [[a|e] w1]; [|done]. by eapply Hc.
Qed.

(** A loop whose body never returns early reaches every element. *)
Lemma forEachM_reaches {A} (f : A -> M error unit) (I : World -> Prop)
    (covered : A -> list Event -> Prop) (l : list A) (w : World) :
  (forall x pre evs post, covered x evs -> covered x (pre ++ evs ++ post)) ->
  (forall x w0, I w0 -> is_ok (f x w0).1 = true /\ I (f x w0).2 /\ extends w0 (f x w0).2) ->
  (forall x w0, x ∈ l -> I w0 -> covered x (since w0 (f x w0).2)) ->
  I w ->
  let r := forEachM l f w in
  is_ok r.1 = true /\ I r.2 /\ extends w r.2 /\
  forall x, x ∈ l -> covered x (since w r.2).
Proof.
  intros Hmono Hbody. revert w. induction l as [|x l IH]; intros w Hhit Hi; cbn.
  - split; [done|]. split; [done|]. split; [apply (extends_intro _ _ []); by rewrite app_nil_r|].
    intros x Hx. by apply elem_of_nil in Hx.
  - unfold bindM. destruct (Hbody x w Hi) as (Hok & Hi1 & He1).
    pose proof (Hhit x w (ltac:(by left)) Hi) as Hx.
    destruct (f x w) as [[[]|e] w1]; [|done]. cbn [fst snd] in *.
    destruct (IH w1) as (Hok2 & Hi2 & He2 & Hrest); [|done|].
    { intros y w0 Hy. apply Hhit. by right. }
    destruct (since_trans _ _ _ He1 He2) as [He Hs].
    split; [done|]. split; [done|]. split; [done|]. rewrite Hs.
    intros y Hy. apply elem_of_cons in Hy as [->|Hy].
    + specialize (Hmono x [] _ (since w1 (forEachM l f w1).2) Hx). by cbn in Hmono.
    + specialize (Hmono y (since w w1) _ [] (Hrest y Hy)). by rewrite app_nil_r in Hmono.
Qed.

Section Shutdown.
Variable env : Env.

(** The shutdown leaves the catalog as it was and records reads and the
    driver's [Stop] on the member only. *)
Lemma networkShutdown_sat (self : string) :
  Sat KeepsCatalog (networkShutdown env self) /\
  Sat (Within (shutdownEvent self)) (networkShutdown env self).
Proof.
  unfold networkShutdown, GetProjectNames, GetNetworks. split.
  - unfold LoadByName. usat env.
  - apply Sat_bind; [usat env|]. intros [projectNames|]; [|apply Sat_ret].
    apply Sat_forEachM. intros projectName.
    apply Sat_bind; [usat env|]. intros [networks|]; [|apply Sat_ret].
    apply Sat_forEachM. intros name.
    eapply Sat_bind_yields.
    { apply Yields_attemptM, LoadByName_yields. }
    { unfold LoadByName. usat env. }
    intros [n|] Hn; [|apply Sat_ret].
    apply Sat_ignoreM. apply Within_of_Emits, Emits_driverCall. intros ok. cbn.
    destruct Hn as (-> & _). by apply bool_decide_eq_true.
Qed.

(** A loop whose body never fails does not fail. *)
Lemma forEachM_ok {A} (f : A -> M error unit) (l : list A) (w : World) :
  (forall x w0, is_ok (f x w0).1 = true) -> is_ok (forEachM l f w).1 = true.
Proof.
  intros Hf. revert w. induction l as [|x l IH]; intros w; cbn; [done|].
  unfold bindM. specialize (Hf x w). destruct (f x w) as [[[]|e] w1]; [apply IH|done].
Qed.

(** X28. [networkShutdown] never fails, leaves the catalog as it was and records
    transactions that read and calls of the driver's [Stop] on the member
    only. *)
Theorem shutdown_only_stops (self : string) (w : World) :
  let run := networkShutdown env self w in
  run.1 = Ok tt /\
  catalog run.2 = catalog w /\
  extends w run.2 /\
  Forall (fun e => shutdownEvent self e = true) (since w run.2).
Proof.
  cbv zeta. destruct (networkShutdown_sat self) as [Hk Hw].
  split; [|split; [apply Hk|apply Hw]].
  assert (is_ok (networkShutdown env self w).1 = true) as Hok.
  { unfold networkShutdown. unfold bindM at 1. unfold attemptM at 1. cbn [fst snd].
    destruct (Transaction env (GetProjectNames env) w).1; [|done].
    apply forEachM_ok. intros projectName w0.
    unfold bindM at 1. unfold attemptM at 1. cbn [fst snd].
    destruct (Transaction env (GetNetworks env projectName) w0).1; [|done].
    apply forEachM_ok. intros name w1.
    unfold bindM, attemptM. cbn [fst snd].
    by destruct (LoadByName env self projectName name w1).1. }
  by destruct (networkShutdown env self w).1 as [[]|].
Qed.

(** X29. When no catalog call fails, [networkShutdown] calls the driver's [Stop]
    for every network of every project, whatever the earlier calls
    answered. *)
Theorem shutdown_reaches_every_network (self : string) (w : World) :
  (forall op w0, fault env op w0 = None) ->
  let run := networkShutdown env self w in
  forall project name,
    project ∈ projectNames env (emit EvTxBegin w) ->
    is_Some (catalog w !! (project, name)) ->
    exists ok, EvDriver self project name DrvStop ok ∈ since w run.2.
Proof.
  intros Hf. cbv zeta. intros project name Hp Hrow.
  unfold networkShutdown. unfold bindM at 1. unfold attemptM at 1.
  assert (Transaction env (GetProjectNames env) w =
          (Ok (projectNames env (emit EvTxBegin w)), emit EvTxCommit (emit EvTxBegin w))) as ->.
  { unfold Transaction, GetProjectNames, faultM, bindM. by rewrite !Hf. }
  cbn [fst snd].
  set (w1 := emit EvTxCommit (emit EvTxBegin w)).
  assert (extends w w1) as He1 by (eapply extends_intro; cbn; by rewrite <- app_assoc).
  set (covered := fun (p : string) (evs : list Event) =>
         forall name, is_Some (catalog w !! (p, name)) ->
                      exists ok, EvDriver self p name DrvStop ok ∈ evs).
  match goal with |- context [forEachM ?l ?f w1] =>
    destruct (forEachM_reaches f (fun w0 => catalog w0 = catalog w) covered l w1)
      as (_ & _ & He2 & Hall)
  end.
  - intros p pre evs post Hc nm Hnm. destruct (Hc nm Hnm) as [ok Hin]. exists ok.
    apply elem_of_app. right. apply elem_of_app. by left.
  - (* the body of the outer loop *)
    intros p w0 Hc0. cbv beta in Hc0.
    match goal with |- context [is_ok (?g w0).1] =>
      assert (Sat KeepsCatalog g) as Hk;
      [|assert (Sat (Within (fun _ => true)) g) as Hw]
    end.
    { unfold GetNetworks, LoadByName. usat env. }
    { unfold GetNetworks, LoadByName. usat env. }
    split; [|split; [specialize (Hk w0); unfold KeepsCatalog in Hk; congruence|apply Hw]].
    unfold bindM at 1. unfold attemptM at 1. cbn [fst snd].
    destruct (Transaction env (GetNetworks env p) w0).1; [|done].
    apply forEachM_ok. intros nm w3. unfold bindM, attemptM. cbn [fst snd].
    by destruct (LoadByName env self p nm w3).1.
  - (* every network of a project *)
    intros p w0 _ Hc0 nm Hnm. cbv beta in Hc0. unfold bindM at 1. unfold attemptM at 1.
    assert (Transaction env (GetNetworks env p) w0 =
            (Ok (networkNamesOf (fun q _ => bool_decide (q = p)) (catalog w)),
             emit EvTxCommit (emit EvTxBegin w0))) as ->.
    { unfold Transaction, GetNetworks, readM, faultM, bindM. rewrite !Hf. cbn. by rewrite Hc0. }
    cbn [fst snd].
    set (w2 := emit EvTxCommit (emit EvTxBegin w0)).
    assert (extends w0 w2) as He0 by (eapply extends_intro; cbn; by rewrite <- app_assoc).
    match goal with |- context [forEachM ?l ?g w2] =>
      destruct (forEachM_reaches g (fun w3 => catalog w3 = catalog w)
                  (fun x evs => exists ok, EvDriver self p x DrvStop ok ∈ evs) l w2)
        as (_ & _ & He3 & Hnames)
    end.
    + intros x pre evs post [ok Hin]. exists ok. apply elem_of_app. right.
      apply elem_of_app. by left.
    + intros x w3 Hc3. cbv beta in Hc3.
      match goal with |- context [is_ok (?g w3).1] =>
        assert (Sat KeepsCatalog g) as Hk;
        [|assert (Sat (Within (fun _ => true)) g) as Hw]
      end.
      { unfold LoadByName. usat env. }
      { unfold LoadByName. usat env. }
      split; [|split; [specialize (Hk w3); unfold KeepsCatalog in Hk; congruence|apply Hw]].
      unfold bindM, attemptM. cbn [fst snd].
      by destruct (LoadByName env self p x w3).1.
    + intros x w3 Hx Hc3. cbv beta in Hc3. unfold bindM, attemptM. cbn [fst snd].
      apply elem_of_networkNamesOf in Hx as (q & row & Hrow' & Hq).
      apply bool_decide_eq_true in Hq. subst q.
      assert (LoadByName env self p x w3 = (Ok (viewRow self p x row), w3)) as ->.
      { unfold LoadByName, readM, faultM, bindM. by rewrite Hf, Hc3, Hrow'. }
      cbn [fst snd]. unfold ignoreM, driverCall. cbn [netMember netProject netName viewRow].
      destruct (driver env _ DrvStop w3); cbn [fst snd]; eexists;
        erewrite since_app by (cbn; reflexivity); by apply list_elem_of_singleton.
    + done.
    + destruct (since_trans _ _ _ He0 He3) as [_ ->].
      destruct Hnm as [row Hrow'].
      destruct (Hnames nm) as [ok Hin].
      { apply elem_of_networkNamesOf. exists p, row. split; [done|].
        by apply bool_decide_eq_true. }
      exists ok. apply elem_of_app. by right.
  - done.
  - destruct (since_trans _ _ _ He1 He2) as [_ ->].
    destruct (Hall project Hp name Hrow) as [ok Hin]. exists ok. apply elem_of_app. by right.
Qed.

End Shutdown.


(** ** Restart of the overlay networks *)

(** A loop whose body keeps [R]. *)
Lemma forEachM_seq {A} (R : bool -> World -> World -> Prop) (f : A -> M error unit)
    (l : list A) :
  (forall b w, R b w w) ->
  (forall b w w1 w2, R true w w1 -> R b w1 w2 -> R b w w2) ->
  (forall x w0, x ∈ l -> R (is_ok (f x w0).1) w0 (f x w0).2) ->
  forall w, R (is_ok (forEachM l f w).1) w (forEachM l f w).2.
Proof.
  intros Hrefl Htrans. induction l as [|x l IH]; intros Hf w; cbn; [apply Hrefl|].
  unfold bindM. pose proof (Hf x w (ltac:(by left))) as Hx.
  destruct (f x w) as [[[]|e] w1]; cbn [fst snd is_ok] in *; [|done].
  eapply Htrans; [exact Hx|]. apply IH. intros y w0 Hy. apply Hf. by right.
Qed.

Section RestartOVN.
Variable env : Env.
Variable DBType : Network -> Z.
Variable NetworkTypeOVN : Z.

(** A part that does nothing. *)
Lemma restarts_refl (self : string) (w : World) (b : bool) (w0 : World) :
  restarts DBType NetworkTypeOVN self w b w0 w0.
Proof.
  intros Hc. split; [done|]. rewrite since_refl.
  split; [apply (extends_intro _ _ []); by rewrite app_nil_r|]. split; [done|].
  unfold stopsAtFailure. destruct b; [apply Forall_nil_2|].
  exists [], []. split; [done|]. split; [apply Forall_nil_2|cbn; lia].
Qed.

(** Two parts in sequence. *)
Lemma restarts_trans (self : string) (w : World) (b : bool) (w0 w1 w2 : World) :
  restarts DBType NetworkTypeOVN self w true w0 w1 ->
  restarts DBType NetworkTypeOVN self w b w1 w2 ->
  restarts DBType NetworkTypeOVN self w b w0 w2.
Proof.
  intros H1 H2 Hc. destruct (H1 Hc) as (Hc1 & He1 & Ha1 & Hs1).
  destruct (H2 Hc1) as (Hc2 & He2 & Ha2 & Hs2).
  destruct (since_trans _ _ _ He1 He2) as [He ->].
  split; [done|]. split; [done|]. split; [by apply Forall_app|].
  unfold stopsAtFailure in *. destruct b.
  - by apply Forall_app.
  - destruct Hs2 as (pre & post & -> & Hpre & Hpost).
    exists (since w0 w1 ++ pre), post. rewrite app_assoc. split; [done|].
    split; [by apply Forall_app|done].
Qed.

(** A part that appends events of the restart and stops at a failure. *)
Lemma restarts_emitted (self : string) (w : World) (b : bool) (w0 : World) (events : list Event)
    (w' : World) :
  catalog w' = catalog w0 ->
  trace w' = trace w0 ++ events ->
  Forall (fun e => restartEvent DBType NetworkTypeOVN self w e = true) events ->
  stopsAtFailure b events ->
  restarts DBType NetworkTypeOVN self w b w0 w'.
Proof.
  intros Hc Ht Hall Hs Hc0. rewrite (since_app _ _ _ Ht).
  split; [congruence|]. split; [by eapply extends_intro|]. done.
Qed.

(** The visit of one created network. *)
Lemma restart_visit (self projectName networkName : string) (w w0 : World) (row : NetRow) :
  catalog w !! (projectName, networkName) = Some row ->
  rowStatus row = NetworkStatusCreated ->
  let visit :=
    (do n <- orReturn (ErrWrap "Failed to load network")
               (LoadByName env self projectName networkName);
     if negb (Z.eqb (DBType n) NetworkTypeOVN) then retM tt
     else orReturn (ErrWrap "Failed to restart network") (driverCall env n DrvStart)) in
  restarts DBType NetworkTypeOVN self w (is_ok (visit w0).1) w0 (visit w0).2.
Proof.
  intros Hrow Hst. cbv zeta. intros Hc.
  unfold LoadByName, driverCall.
  cbv beta iota zeta delta [bindM orReturn retM readM faultM fst snd].
  destruct (fault env (OpLoadByName self projectName networkName) w0).
  { by apply restarts_refl. }
  rewrite Hc, Hrow. cbv beta iota.
  destruct (Z.eqb_spec (DBType (viewRow self projectName networkName row)) NetworkTypeOVN)
    as [Hovn|Hno]; cbn [negb].
  2:{ by apply restarts_refl. }
  cbn [netMember netProject netName viewRow].
  assert (forall ok, Forall (fun e => restartEvent DBType NetworkTypeOVN self w e = true)
                       [EvDriver self projectName networkName DrvStart ok]) as Hev.
  { intros ok. repeat constructor. cbn. rewrite Hrow, Hovn, Z.eqb_refl.
    by rewrite !bool_decide_eq_true_2. }
  destruct (driver env _ DrvStart w0); cbn [fst snd is_ok].
  - apply (restarts_emitted self w _ w0 [EvDriver self projectName networkName DrvStart false]);
      [done|done|done| |done].
    exists [], [EvDriver self projectName networkName DrvStart false].
    split; [done|]. split; [apply Forall_nil_2|cbn; lia].
  - apply (restarts_emitted self w _ w0 [EvDriver self projectName networkName DrvStart true]);
      [done|done|done| |done].
    unfold stopsAtFailure. by repeat constructor.
Qed.

(** A transaction that reads. *)
Lemma restarts_read {A} (self : string) (w : World) (read : M error A) (w0 : World) :
  Sat Same read ->
  restarts DBType NetworkTypeOVN self w (is_ok (Transaction env read w0).1) w0
    (Transaction env read w0).2 /\
  forall a w1, Transaction env read w0 = (Ok a, w1) ->
               read (emit EvTxBegin w0) = (Ok a, emit EvTxBegin w0).
Proof.
  intros Hread. unfold Transaction. specialize (Hread (emit EvTxBegin w0)).
  unfold Same in Hread.
  destruct (read (emit EvTxBegin w0)) as [[a|e] w1]; cbn [fst snd] in *; subst w1.
  - destruct (fault env OpTxCommit _); cbn [fst snd is_ok].
    + split; [|done]. apply (restarts_emitted self w _ w0 [EvTxBegin; EvTxRollback]);
        [done|cbn; by rewrite <- app_assoc|by repeat constructor|].
      exists [EvTxBegin], [EvTxRollback]. split; [done|]. split; [by repeat constructor|cbn; lia].
    + split; [|by intros ? ? [= <- <-]].
      apply (restarts_emitted self w _ w0 [EvTxBegin; EvTxCommit]);
        [done|cbn; by rewrite <- app_assoc|by repeat constructor|].
      unfold stopsAtFailure. by repeat constructor.
  - split; [|done]. apply (restarts_emitted self w _ w0 [EvTxBegin; EvTxRollback]);
      [done|cbn; by rewrite <- app_assoc|by repeat constructor|].
    exists [EvTxBegin], [EvTxRollback]. split; [done|]. split; [by repeat constructor|cbn; lia].
Qed.

(** A transaction that reads, then what is done with its answer. *)
Lemma restarts_after_read {A} (self : string) (w : World) (read : M error A)
    (f : error -> error) (k : A -> M error unit) (w0 : World) :
  Sat Same read ->
  (catalog w0 = catalog w ->
   forall a w1, read (emit EvTxBegin w0) = (Ok a, emit EvTxBegin w0) ->
                restarts DBType NetworkTypeOVN self w (is_ok (k a w1).1) w1 (k a w1).2) ->
  let run := bindM (orReturn f (Transaction env read)) k w0 in
  restarts DBType NetworkTypeOVN self w (is_ok run.1) w0 run.2.
Proof.
  intros Hread Hk. cbv zeta. intros Hc. specialize (Hk Hc). revert Hc.
  change (restarts DBType NetworkTypeOVN self w (is_ok (bindM (orReturn f (Transaction env read)) k w0).1) w0
            (bindM (orReturn f (Transaction env read)) k w0).2).
  unfold bindM, orReturn.
  destruct (restarts_read self w read w0 Hread) as [Htx Ha].
  destruct (Transaction env read w0) as [[a|e] w1]; cbn [fst snd is_ok] in *; [|done].
  eapply restarts_trans; [exact Htx|]. apply Hk. by eapply Ha.
Qed.

(** The networks of one project. *)
Lemma restart_project (self projectName : string) (w w0 : World) :
  let body :=
    (do networkNames <-
       orReturn (ErrWrap "Failed to load networks for project")
         (Transaction env (GetCreatedNetworkNamesByProject env projectName));
     forEachM networkNames
       (fun networkName =>
          do n <- orReturn (ErrWrap "Failed to load network")
                    (LoadByName env self projectName networkName);
          if negb (Z.eqb (DBType n) NetworkTypeOVN) then retM tt
          else orReturn (ErrWrap "Failed to restart network") (driverCall env n DrvStart))) in
  restarts DBType NetworkTypeOVN self w (is_ok (body w0).1) w0 (body w0).2.
Proof.
  cbv zeta.
  apply (restarts_after_read self w).
  { unfold GetCreatedNetworkNamesByProject. apply Same_readM. }
  intros Hc names w1 Hnames.
  apply (forEachM_seq (restarts DBType NetworkTypeOVN self w)); [apply restarts_refl|apply restarts_trans|].
  intros networkName w2 Hin.
  unfold GetCreatedNetworkNamesByProject, readM, faultM, bindM in Hnames.
  destruct (fault env _ _); [done|]. injection Hnames as <-.
  cbn [catalog emit] in Hin.
  apply elem_of_networkNamesOf in Hin as (p & row & Hrow & Hkeep).
  apply andb_true_iff in Hkeep as [Hp Hst].
  apply bool_decide_eq_true in Hp, Hst. subst p. rewrite Hc in Hrow.
  by apply restart_visit with (row := row).
Qed.

(** X30. [networkRestartOVN] leaves the catalog as it was, calls the driver for
    [Start] only, on the member, for created networks of the OVN type, and
    stops at the first failure, which it returns. *)
Theorem restart_starts_only_overlay_networks (self : string) (w : World) :
  let run := networkRestartOVN env DBType NetworkTypeOVN self w in
  catalog run.2 = catalog w /\
  (forall member project name call ok,
     EvDriver member project name call ok ∈ since w run.2 ->
     member = self /\ call = DrvStart /\
     exists row,
       catalog w !! (project, name) = Some row /\
       rowStatus row = NetworkStatusCreated /\
       DBType (viewRow self project name row) = NetworkTypeOVN) /\
  (forall e, e ∈ since w run.2 -> failed e = true ->
     is_ok run.1 = false /\ last (since w run.2) = Some e).
Proof.
  cbv zeta.
  assert (restarts DBType NetworkTypeOVN self w (is_ok (networkRestartOVN env DBType NetworkTypeOVN self w).1) w
            (networkRestartOVN env DBType NetworkTypeOVN self w).2) as Hrun.
  { unfold networkRestartOVN.
    apply (restarts_after_read self w).
    { unfold GetProjectNames. apply Sat_bind; [apply Same_faultM|intros _; apply Sat_oracle]. }
    intros _ projects w1 _.
    apply (forEachM_seq (restarts DBType NetworkTypeOVN self w)); [apply restarts_refl|apply restarts_trans|].
    intros projectName w0 _. apply restart_project. }
  destruct (Hrun eq_refl) as (Hc & _ & Hall & Hstop). split; [done|]. split.
  - intros member project name call ok Hin.
    rewrite Forall_forall in Hall. apply Hall in Hin. cbn in Hin.
    destruct call; try done.
    apply andb_true_iff in Hin as [Hm Hrow]. apply bool_decide_eq_true in Hm.
    destruct (catalog w !! (project, name)) as [row|]; [|done].
    apply andb_true_iff in Hrow as [Hst Hovn]. apply bool_decide_eq_true in Hst.
    apply Z.eqb_eq in Hovn. split; [done|]. split; [done|]. by exists row.
  - intros e Hin Hfailed. unfold stopsAtFailure in Hstop.
    destruct (is_ok _).
    + rewrite Forall_forall in Hstop. apply Hstop in Hin. congruence.
    + split; [done|]. destruct Hstop as (pre & post & Hs & Hpre & Hpost).
      rewrite Hs in *. apply elem_of_app in Hin as [Hin|Hin].
      * rewrite Forall_forall in Hpre. apply Hpre in Hin. congruence.
      * destruct post as [|e0 [|? ?]]; [by apply elem_of_nil in Hin| |cbn in Hpost; lia].
        apply list_elem_of_singleton in Hin. subst e0. apply last_snoc.
Qed.

End RestartOVN.


(** ** Checks and runs of a create *)

Section CreateChecks.
Variable env : Env.

(** The checks of a create request leave the catalog as it was; a request
    that passes them has a name, a type that loads (its own or the default
    of the project) and room under the limit of the project. *)
Lemma networksPostChecks_inv (r : Request) (w w' : World)
    (out : outcome Response (string * Project * NetworksPost * TypeInfo)) :
  networksPostChecks env r w = (out, w') ->
  catalog w' = catalog w /\
  match out with
  | Ret resp => isErrorResponse resp = true
  | Ok (projectName, reqProject, req', netTypeInfo) =>
      exists req,
        networkProject env (reqProjectParam r) w = Ok (projectName, reqProject) /\
        decodeNetworksPost r = Ok req /\
        postName req <> "" /\ postName req <> "none" /\
        networkAllowed env (projConfig reqProject) (postName req) true = true /\
        req' = withType req (defaultedType projectName req) /\
        loadByType env (postType req') = Ok netTypeInfo /\
        validateName env (postType req') (postName req) = None /\
        (projectName = ProjectDefaultName \/ tiProjects netTypeInfo = true) /\
        (projectName <> ProjectDefaultName ->
         cfg_get (projConfig reqProject) "limits.networks" <> "" ->
         exists limit,
           Atoi (cfg_get (projConfig reqProject) "limits.networks") = Ok limit /\
           (postName req ∈ projectNetworks projectName (catalog w) \/
            Z.of_nat (length (projectNetworks projectName (catalog w))) < limit))
  end.
Proof.
  unfold networksPostChecks. intros H.
  (* the project *)
  apply bindM_inv in H as [(e & H1 & ->)|([projectName reqProject] & w2 & H1 & H)].
  { apply orReturn_inv in H1 as [(e' & He & [= ->])|(? & _ & ?)]; [|done].
    by injection He as _ <-. }
  apply orReturn_inv in H1 as [(e & _ & ?)|(? & He & [= <-])]; [done|].
  injection He as Hproj <-.
  (* the body *)
  apply bindM_inv in H as [(e & H1 & ->)|(req & w2 & H1 & H)].
  { apply orReturn_inv in H1 as [(e' & He & [= ->])|(? & _ & ?)]; [|done].
    by injection He as _ <-. }
  apply orReturn_inv in H1 as [(e & _ & ?)|(? & He & [= <-])]; [done|].
  injection He as Hreq <-.
  (* the name *)
  apply bindM_inv in H as [(e & H1 & ->)|([] & w2 & H1 & H)].
  { by apply guardM_inv in H1 as [-> [[_ [= ->]]|[_ ?]]]. }
  apply guardM_inv in H1 as [-> [[_ ?]|[Hname _]]]; [done|].
  apply negb_true_iff, String.eqb_neq in Hname.
  apply bindM_inv in H as [(e & H1 & ->)|([] & w2 & H1 & H)].
  { by apply guardM_inv in H1 as [-> [[_ [= ->]]|[_ ?]]]. }
  apply guardM_inv in H1 as [-> [[_ ?]|[Hnone _]]]; [done|].
  apply negb_true_iff, String.eqb_neq in Hnone.
  (* the access check *)
  apply bindM_inv in H as [(e & H1 & ->)|([] & w2 & H1 & H)].
  { by apply guardM_inv in H1 as [-> [[_ [= ->]]|[_ ?]]]. }
  apply guardM_inv in H1 as [-> [[_ ?]|[Hallow _]]]; [done|].
  (* the type *)
  cbv zeta in H.
  assert ((if String.eqb (postType req) "" then
             if decide (projectName = ProjectDefaultName) then withType req "bridge"
             else withType req "ovn"
           else req) = withType req (defaultedType projectName req)) as Hty.
  { unfold defaultedType. destruct (String.eqb (postType req) "").
    - by destruct (decide _).
    - by destruct req. }
  rewrite Hty in H. clear Hty. set (req' := withType req (defaultedType projectName req)) in *.
  apply bindM_inv in H as [(e & H1 & ->)|(netTypeInfo & w2 & H1 & H)].
  { apply orReturn_inv in H1 as [(e' & He & [= ->])|(? & _ & ?)]; [|done].
    by injection He as _ <-. }
  apply orReturn_inv in H1 as [(e & _ & ?)|(? & He & [= <-])]; [done|].
  injection He as Hload <-.
  apply bindM_inv in H as [(e & H1 & ->)|([] & w2 & H1 & H)].
  { by destruct (validateName env _ _); unfold failM, retM in H1; simplify_eq. }
  assert (validateName env (postType req') (postName req) = None /\ w2 = w) as [Hvalid ->].
  { change (postName req') with (postName req) in H1.
    by destruct (validateName env _ _); unfold failM, retM in H1; simplify_eq. }
  clear H1.
  apply bindM_inv in H as [(e & H1 & ->)|([] & w2 & H1 & H)].
  { by apply guardM_inv in H1 as [-> [[_ [= ->]]|[_ ?]]]. }
  apply guardM_inv in H1 as [-> [[_ ?]|[Hprojects _]]]; [done|].
  assert (projectName = ProjectDefaultName \/ tiProjects netTypeInfo = true) as Hprojects'.
  { apply orb_true_iff in Hprojects as [Hp|?]; [left|by right].
    by apply bool_decide_eq_true in Hp. }
  (* the limit *)
  apply bindM_inv in H as [(e & H1 & ->)|([] & w2 & H1 & H)].
  { destruct (negb (bool_decide _) && _); [|done].
    apply bindM_inv in H1 as [(e' & H1 & [= ->])|(limit & w3 & H1 & H2)].
    { apply orReturn_inv in H1 as [(e'' & He & [= ->])|(? & _ & ?)]; [|done].
      by injection He as _ <-. }
    apply orReturn_inv in H1 as [(e'' & _ & ?)|(? & He & [= <-])]; [done|].
    injection He as _ <-.
    apply bindM_inv in H2 as [(e' & H1 & [= ->])|(networks & w3 & H1 & H2)].
    { apply orReturn_inv in H1 as [(e'' & He & [= ->])|(? & _ & ?)]; [|done].
      by apply Transaction_GetNetworks_inv in He as [? _]. }
    apply orReturn_inv in H1 as [(e'' & _ & ?)|(? & He & [= <-])]; [done|].
    apply Transaction_GetNetworks_inv in He as [Hc _].
    by apply guardM_inv in H2 as [-> [[_ [= ->]]|[_ ?]]]. }
  injection H as <- <-.
  assert (catalog w2 = catalog w /\
          (projectName <> ProjectDefaultName ->
           cfg_get (projConfig reqProject) "limits.networks" <> "" ->
           exists limit,
             Atoi (cfg_get (projConfig reqProject) "limits.networks") = Ok limit /\
             (postName req ∈ projectNetworks projectName (catalog w) \/
              Z.of_nat (length (projectNetworks projectName (catalog w))) < limit)))
    as [Hcat Hlimit].
  { destruct (negb (bool_decide _) && _) eqn:Hcond.
    - apply bindM_inv in H1 as [(e' & H1 & ?)|(limit & w3 & H1 & H2)]; [done|].
      apply orReturn_inv in H1 as [(e'' & _ & ?)|(? & He & [= <-])]; [done|].
      injection He as Hlimit <-.
      apply bindM_inv in H2 as [(e' & H1 & ?)|(networks & w3 & H1 & H2)]; [done|].
      apply orReturn_inv in H1 as [(e'' & _ & ?)|(? & He & [= <-])]; [done|].
      apply Transaction_GetNetworks_inv in He as [Hc [[[= ->] _]|[? _]]]; [|done].
      apply guardM_inv in H2 as [-> [[_ ?]|[Hok _]]]; [done|].
      split; [done|]. intros _ _. exists limit. split; [done|].
      apply negb_true_iff, andb_false_iff in Hok as [Hin|Hlt].
      + left. apply negb_false_iff in Hin. unfold Contains in Hin.
        by apply bool_decide_eq_true in Hin.
      + right. apply Z.leb_gt in Hlt. done.
    - injection H1 as <-. split; [done|]. intros Hp Hl.
      apply andb_false_iff in Hcond as [Hc|Hc].
      + apply negb_false_iff, bool_decide_eq_true in Hc. done.
      + apply negb_false_iff, String.eqb_eq in Hc. done. }
  split; [done|]. exists req. by repeat split.
Qed.

End CreateChecks.


Section CreateTheorems.
Variable IsNodeSpecificNetworkConfig : string -> bool.
Variable env : Env.

(** A create that succeeds or changes the catalog has passed the checks. *)
Lemma networksPost_checked (self : string) (r : Request) (w : World) :
  let run := networksPost IsNodeSpecificNetworkConfig env self r w in
  isErrorResponse run.1 = false \/ catalog run.2 <> catalog w ->
  exists out w1, networksPostChecks env r w = (Ok out, w1).
Proof.
  cbv zeta. unfold networksPost, handle.
  destruct (networksPostWith _ _ _ _ _ w) as [out w'] eqn:Hrun.
  unfold networksPostWith in Hrun.
  apply bindM_inv in Hrun as [(resp & Hchecks & ->)|(a & w1 & Hchecks & _)].
  - apply networksPostChecks_inv in Hchecks as [Hcat Herr]. cbn [fst snd].
    intros [?|?]; congruence.
  - intros _. by exists a, w1.
Qed.

(** X1. A create request that succeeds, or that changes the catalog at all, has
    passed the checks: the project resolves, the body decodes, the name is
    neither empty nor [none], the project allows it, the type (the one of the
    request, or [bridge] in the default project and [ovn] elsewhere) loads
    and accepts the name, and supports projects outside of the default one. *)
Theorem create_only_with_valid_name_and_type (self : string) (r : Request) (w : World) :
  let run := networksPost IsNodeSpecificNetworkConfig env self r w in
  isErrorResponse run.1 = false \/ catalog run.2 <> catalog w ->
  exists projectName reqProject req netTypeInfo,
    networkProject env (reqProjectParam r) w = Ok (projectName, reqProject) /\
    decodeNetworksPost r = Ok req /\
    postName req <> "" /\ postName req <> "none" /\
    networkAllowed env (projConfig reqProject) (postName req) true = true /\
    loadByType env (defaultedType projectName req) = Ok netTypeInfo /\
    validateName env (defaultedType projectName req) (postName req) = None /\
    (projectName = ProjectDefaultName \/ tiProjects netTypeInfo = true).
Proof.
  cbv zeta. intros Hrun.
  apply networksPost_checked in Hrun as ([[[projectName reqProject] req'] netTypeInfo] & w1 & H).
  apply networksPostChecks_inv in H as [_ (req & ? & ? & ? & ? & ? & -> & ? & ? & ? & _)].
  exists projectName, reqProject, req, netTypeInfo.
  assert (postType (withType req (defaultedType projectName req)) =
          defaultedType projectName req) as Hty by done.
  rewrite Hty in *. done.
Qed.

(** X2. In a project other than the default one with [limits.networks] set, a
    create request that succeeds or changes the catalog had a limit that
    parses, and either the name was among the networks of the project or
    the project had fewer networks than the limit. *)
Theorem create_respects_project_limit (self : string) (r : Request) (w : World)
    (projectName : string) (reqProject : Project) :
  networkProject env (reqProjectParam r) w = Ok (projectName, reqProject) ->
  projectName <> ProjectDefaultName ->
  cfg_get (projConfig reqProject) "limits.networks" <> "" ->
  let run := networksPost IsNodeSpecificNetworkConfig env self r w in
  isErrorResponse run.1 = false \/ catalog run.2 <> catalog w ->
  exists req limit,
    decodeNetworksPost r = Ok req /\
    Atoi (cfg_get (projConfig reqProject) "limits.networks") = Ok limit /\
    (postName req ∈ projectNetworks projectName (catalog w) \/
     Z.of_nat (length (projectNetworks projectName (catalog w))) < limit).
Proof.
  intros Hproj Hp Hl. cbv zeta. intros Hrun.
  apply networksPost_checked in Hrun as ([[[p rp] req'] netTypeInfo] & w1 & H).
  apply networksPostChecks_inv in H as [_ (req & Hproj' & ? & _ & _ & _ & _ & _ & _ & _ & Hlimit)].
  rewrite Hproj in Hproj'. injection Hproj' as <- <-.
  destruct (Hlimit Hp Hl) as (limit & ? & ?). by exists req, limit.
Qed.

(** The local actuation records the calls into the driver of the member and
    its own created marker. *)
Lemma Within_doNetworksCreate (n : Network) (clientType : ClientType) :
  Sat (Within (localActuation (netMember n))) (doNetworksCreate env n clientType).
Proof.
  unfold doNetworksCreate, NetworkNodeCreated.
  assert (forall call, Sat (Within (localActuation (netMember n))) (driverCall env n call)) as Hd.
  { intros call. apply Within_of_Emits, Emits_driverCall. intros ok. cbn.
    by apply bool_decide_eq_true. }
  apply Sat_bind; [apply Hd|]. intros [].
  destruct (decide _); [usat env|].
  apply Sat_bind; [apply Hd|]. intros [].
  apply Sat_reverted; [apply Sat_ignoreM, Hd|].
  apply Sat_bind; [destruct (decide _); [usat env|apply Hd]|]. intros [].
  apply Within_of_Emits, Emits_Transaction; [reflexivity..|].
  apply Emits_writeM. cbn. by apply bool_decide_eq_true.
Qed.

(** X3. A create that the notifier of another member sent records the calls into
    the driver of the member and its own created marker only (no call to a
    peer, no lifecycle event), and keeps the global status of every record. *)
Theorem notified_create_is_local (self : string) (r : Request) (w : World) :
  isClusterNotification r = true ->
  let run := networksPost IsNodeSpecificNetworkConfig env self r w in
  extends w run.2 /\
  Forall (fun e => localActuation self e = true) (since w run.2) /\
  (forall k, rowStatus <$> catalog run.2 !! k = rowStatus <$> catalog w !! k).
Proof.
  intros Hn. cbv zeta. unfold networksPost.
  assert (Sat (Within (localActuation self))
            (networksPostWith IsNodeSpecificNetworkConfig env
               (createOnPeer IsNodeSpecificNetworkConfig env) self r)) as Hw.
  { unfold networksPostWith.
    apply Sat_bind.
    { unfold networksPostChecks, GetNetworks. usat env. }
    intros [[[projectName reqProject] req] ti]. rewrite Hn.
    eapply Sat_bind_yields.
    { apply Yields_orReturn, LoadByName_yields. }
    { unfold LoadByName. usat env. }
    intros n (Hm & _). usat env. rewrite <- Hm. apply Within_doNetworksCreate. }
  pose proof (Sat_handled (R:=Within (localActuation self)) _ Hw true w) as [He Ha].
  split; [done|]. split; [done|].
  refine (Sat_handled (R:=KeepsStatus) _ _ true w).
  by apply Keeps_notified.
Qed.

End CreateTheorems.


(** The id of a new record is not the id of any record. *)
Lemma nextID_fresh (c : Catalog) (k : string * string) (row : NetRow) :
  c !! k = Some row -> rowID row < nextID c.
Proof.
  unfold nextID. revert k row.
  refine (map_fold_weak_ind
            (fun acc (m : Catalog) => forall k row, m !! k = Some row -> rowID row < 1 + acc)
            _ _ _ _ c).
  - intros k row. by rewrite lookup_empty.
  - intros i x m acc Hi IH k row Hk.
    destruct (decide (k = i)) as [->|Hne].
    + rewrite lookup_insert_eq in Hk. injection Hk as ->. lia.
    + rewrite lookup_insert_ne in Hk by done. specialize (IH k row Hk). lia.
Qed.

(** The local created marker of a new record touches this record only. *)
Lemma updateRowsByID_new (c : Catalog) (k : string * string) (row : NetRow)
    (f : NetRow -> NetRow) :
  rowID row = nextID c ->
  updateRowsByID (nextID c) f (<[k := row]> c) = <[k := f row]> c.
Proof.
  intros Hid. unfold updateRowsByID. apply map_eq. intros k'.
  rewrite lookup_fmap. destruct (decide (k' = k)) as [->|Hne].
  - rewrite !lookup_insert_eq. cbn. by rewrite Hid, Z.eqb_refl.
  - rewrite !lookup_insert_ne by done.
    destruct (c !! k') as [row'|] eqn:Hrow'; [|done]. cbn.
    pose proof (nextID_fresh c k' row' Hrow').
    destruct (Z.eqb_spec (rowID row') (nextID c)); [lia|done].
Qed.

Section StandaloneCreate.
Variable IsNodeSpecificNetworkConfig : string -> bool.
Variable env : Env.

(** The transaction that looks the record up reads only. *)
Lemma Transaction_GetNetworkInAnyState_inv (self project name : string) (w w' : World)
    (r : result Network) :
  Transaction env (GetNetworkInAnyState env self project name) w = (r, w') ->
  catalog w' = catalog w /\ extends w w' /\
  match r with
  | Ok info => exists row, catalog w !! (project, name) = Some row /\
                           info = viewRow self project name row
  | Ret _ => True
  end.
Proof.
  unfold Transaction, GetNetworkInAnyState, readM, faultM, bindM.
  destruct (fault env (OpGetNetworkInAnyState project name) _); cbn [catalog emit].
  { intros [= <- <-]. split; [done|]. split; [|done].
    apply (extends_intro _ _ [EvTxBegin; EvTxRollback]). cbn. by rewrite <- app_assoc. }
  destruct (catalog w !! (project, name)) as [row|] eqn:Hrow.
  - destruct (fault env OpTxCommit _); intros [= <- <-]; (split; [done|]).
    + split; [|done].
      apply (extends_intro _ _ [EvTxBegin; EvTxRollback]). cbn. by rewrite <- app_assoc.
    + split; [|by exists row].
      apply (extends_intro _ _ [EvTxBegin; EvTxCommit]). cbn. by rewrite <- app_assoc.
  - intros [= <- <-]. split; [done|]. split; [|done].
    apply (extends_intro _ _ [EvTxBegin; EvTxRollback]). cbn. by rewrite <- app_assoc.
Qed.

(** The transaction that inserts the record of a create: it fails and leaves
    the catalog as it was, or there was no such record and there is one. *)
Lemma Transaction_CreateNetwork_inv (self project name description type : string)
    (cfg : Config) (w w' : World) (r : result Z) :
  Transaction env (CreateNetwork IsNodeSpecificNetworkConfig env self project name
                     description type cfg) w = (r, w') ->
  (is_ok r = false /\ catalog w' = catalog w) \/
  (r = Ok (nextID (catalog w)) /\ catalog w !! (project, name) = None /\
   catalog w' = <[(project, name) :=
                   standaloneRow IsNodeSpecificNetworkConfig self (nextID (catalog w))
                     type description cfg]> (catalog w) /\
   trace w' = trace w ++ [EvTxBegin;
                          EvDb (DbCreateNetwork self project name description type cfg);
                          EvTxCommit]).
Proof.
  unfold Transaction, CreateNetwork, writeM. cbv zeta. cbn [catalog emit].
  destruct (fault env (OpWrite _) _); [intros [= <- <-]; by left|].
  destruct (catalog w !! (project, name)) as [row|] eqn:Hrow; [intros [= <- <-]; by left|].
  cbn [fst snd].
  destruct (fault env OpTxCommit _); intros [= <- <-]; [by left|].
  right. split; [done|]. split; [done|]. split; [done|].
  cbn. by rewrite <- !app_assoc.
Qed.

(** A step that records events extends the trace. *)
Lemma extends_step {E A} `{Early E} (c : M E A) (w w' : World) (out : outcome E A) :
  Sat (Within (fun _ => true)) c -> c w = (out, w') -> extends w w'.
Proof. intros Hc Hrun. destruct (Hc w) as [He _]. by rewrite Hrun in He. Qed.

(** A world extends itself. *)
Lemma extends_refl (w : World) : extends w w.
Proof. apply (extends_intro _ _ []). by rewrite app_nil_r. Qed.

(** The runs of a create on a server that is not clustered and has created
    networks only: an error with the catalog as it was, an error after which
    the revert deletes the record, or the record created and announced. *)
Lemma standalone_create_outcome (self : string) (r : Request) (w w' : World) (resp : Response) :
  isClusterNotification r = false -> reqTarget r = "" ->
  (length (members env) <= 1)%nat ->
  (forall k row, catalog w !! k = Some row -> rowStatus row = NetworkStatusCreated) ->
  networksPost IsNodeSpecificNetworkConfig env self r w = (resp, w') ->
  (isErrorResponse resp = true /\
   (catalog w' = catalog w \/
    exists projectName name row w5,
      catalog w !! (projectName, name) = None /\
      catalog w5 = <[(projectName, name) := row]> (catalog w) /\
      w' = (Transaction env (DeleteNetwork env projectName name) w5).2)) \/
  (exists projectName reqProject req cfg pre authorized,
     resp = SyncResponseLocation (networkURL projectName (postName req)) /\
     networkProject env (reqProjectParam r) w = Ok (projectName, reqProject) /\
     decodeNetworksPost r = Ok req /\
     (if bool_decide (reqClientType r = ClientTypeJoiner) then cfg = postConfig req
      else fillConfig env (defaultedType projectName req) (postConfig req) = Ok cfg) /\
     catalog w !! (projectName, postName req) = None /\
     catalog w' =
       <[(projectName, postName req) :=
           setNodeCreated self
             (standaloneRow IsNodeSpecificNetworkConfig self (nextID (catalog w))
                (defaultedType projectName req) (postDescription req) cfg)]> (catalog w) /\
     since w w' = pre ++ [EvAuthorizer (AuthAddNetwork projectName (postName req)) authorized;
                          EvLifecycle projectName (postName req) LifecycleNetworkCreated]).
Proof.
  intros Hn Htarget Hcount Hcreated. unfold networksPost, handle.
  destruct (networksPostWith _ _ _ _ _ w) as [out w1] eqn:H.
  intros Hout.
  assert (resp = match out with Ok r0 | Ret r0 => r0 end /\ w' = w1) as [-> ->]
    by (destruct out; by injection Hout as <- <-).
  clear Hout. unfold networksPostWith in H.
  (* the checks *)
  apply bindM_inv in H as [(e & H1 & ->)|([[[projectName reqProject] req'] ti] & w2 & H1 & H)].
  { apply networksPostChecks_inv in H1 as [? ?]. left. split; [done|]. by left. }
  assert (extends w w2) as He2.
  { eapply extends_step; [|exact H1]. unfold networksPostChecks, GetNetworks. usat env. }
  apply networksPostChecks_inv in H1 as [Hc2 (req & Hproj & Hreq & _ & _ & _ & -> & _)].
  rewrite Hn, Htarget in H. cbv zeta in H.
  change (negb (String.eqb "" "")) with false in H. cbv iota in H.
  cbn [postName postType postDescription postConfig withType] in H.
  set (name := postName req) in *. set (type := defaultedType projectName req) in *.
  (* the record *)
  apply bindM_inv in H as [(e & H1 & ->)|(loaded & w3 & H1 & H)]; [done|].
  unfold attemptM in H1.
  destruct (Transaction env (GetNetworkInAnyState env self projectName name) w2)
    as [got w3'] eqn:Hgot.
  injection H1 as <- <-. cbn [fst snd] in H.
  apply Transaction_GetNetworkInAnyState_inv in Hgot as (Hc3 & He3 & Hinfo).
  destruct (since_trans _ _ _ He2 He3) as [He23 _].
  apply bindM_inv in H as [(e & H1 & ->)|(netInfo & w4 & H1 & H)].
  { destruct got as [info|err]; [done|].
    destruct (StatusErrorCheck err StatusNotFound); [done|].
    injection H1 as <-. left. split; [done|]. left. congruence. }
  assert (w4 = w3' /\ forall info, netInfo = Some info ->
            netStatus info = NetworkStatusCreated) as [-> Hst].
  { destruct got as [info|err].
    - injection H1 as <- <-. split; [done|]. intros ? [= <-].
      destruct Hinfo as (row & Hrow & ->). cbn. eapply Hcreated. by rewrite <- Hc2.
    - destruct (StatusErrorCheck err StatusNotFound); [|done].
      by injection H1 as <- <-. }
  clear H1 Hinfo.
  (* the members *)
  apply bindM_inv in H as [(e & H1 & ->)|(count & w4 & H1 & H)].
  { apply orReturn_inv in H1 as [(e' & He & [= ->])|(? & _ & ?)]; [|done].
    unfold clusterCount, faultM, bindM in He.
    destruct (fault env OpClusterCount w3'); [|done]. injection He as _ <-.
    left. split; [done|]. left. congruence. }
  apply orReturn_inv in H1 as [(e & _ & ?)|(? & He & [= <-])]; [done|].
  unfold clusterCount, faultM, bindM in He.
  destruct (fault env OpClusterCount w3'); [done|]. injection He as <- <-.
  assert ((1 <? Z.of_nat (length (members env))) = false) as Hsingle by (apply Z.ltb_ge; lia).
  rewrite Hsingle in H. clear Hsingle.
  destruct netInfo as [info|].
  { rewrite (Hst info eq_refl) in H. rewrite bool_decide_eq_true_2 in H by done.
    cbn in H. injection H as <- <-. left. split; [done|]. left. congruence. }
  cbn [orb] in H. cbv iota in H.
  (* the defaults *)
  apply bindM_inv in H as [(e & H1 & ->)|(cfg & w4 & H1 & H)].
  { destruct (bool_decide _); [done|].
    apply orReturn_inv in H1 as [(e' & He & [= ->])|(? & _ & ?)]; [|done].
    unfold FillConfig in He. destruct (fillConfig env _ _); [done|]. injection He as _ <-.
    left. split; [done|]. left. cbn. congruence. }
  assert (catalog w4 = catalog w /\ extends w w4 /\
          (if bool_decide (reqClientType r = ClientTypeJoiner) then cfg = postConfig req
           else fillConfig env type (postConfig req) = Ok cfg)) as (Hc4 & He4 & Hcfg).
  { destruct (bool_decide _).
    - injection H1 as <- <-. split; [congruence|]. done.
    - apply orReturn_inv in H1 as [(e' & _ & ?)|(? & He & [= <-])]; [done|].
      unfold FillConfig in He. destruct (fillConfig env _ _) eqn:Hfill; [|done].
      injection He as <- <-. split; [cbn; congruence|]. split; [|done].
      eapply since_trans; [exact He23|]. by eapply extends_intro. }
  clear H1.
  (* the record *)
  apply bindM_inv in H as [(e & H1 & ->)|(id & w5 & H1 & H)].
  { apply orReturn_inv in H1 as [(e' & He & [= ->])|(? & _ & ?)]; [|done].
    apply Transaction_CreateNetwork_inv in He as [[_ Hc]|[? _]]; [|done].
    left. split; [done|]. left. congruence. }
  apply orReturn_inv in H1 as [(e & _ & ?)|(? & He & [= <-])]; [done|].
  apply Transaction_CreateNetwork_inv in He as [[? _]|([= ->] & Hnone & Hc5 & Ht5)]; [done|].
  rewrite Hc4 in Hnone, Hc5.
  set (row0 := standaloneRow IsNodeSpecificNetworkConfig self (nextID (catalog w)) type
                 (postDescription req) cfg) in *.
  assert (extends w w5) as He5.
  { eapply since_trans; [exact He4|]. by eapply extends_intro. }
  (* the actuation *)
  unfold withRevert in H.
  match type of H with
  | context [match ?body w5 with _ => _ end] => destruct (body w5) as [[a|e] w6] eqn:Hbody
  end.
  2: { (* undone *)
    injection H as <- <-. left.
    assert (isErrorResponse e = true /\ catalog w6 = catalog w5) as [Herr Hc6].
    { apply bindM_inv in Hbody as [(e0 & H1 & [= ->])|(n & w7 & H1 & H)].
      { apply orReturn_inv in H1 as [(e' & He & [= ->])|(? & _ & ?)]; [|done].
        by apply LoadByName_inv in He as [-> _]. }
      apply orReturn_inv in H1 as [(e0 & _ & ?)|(? & He & [= <-])]; [done|].
      apply LoadByName_inv in He as [-> (_ & row & Hrow & ->)].
      rewrite Hc5, lookup_insert_eq in Hrow. injection Hrow as <-.
      apply bindM_inv in H as [(e0 & H1 & [= ->])|([] & w8 & H1 & H)].
      { apply orReturn_inv in H1 as [(e' & He & [= ->])|(? & _ & ?)]; [|done].
        split; [done|].
        destruct (doNetworksCreate_runs env (viewRow self projectName name row0)
                    (reqClientType r) w5) as [(_ & Hc & _)|(Hok & _)].
        { cbn. unfold row0, standaloneRow. cbn. rewrite lookup_singleton_eq. done. }
        - cbv zeta in Hc. by rewrite He in Hc.
        - cbv zeta in Hok. by rewrite He in Hok. }
      unfold authorizerCall, SendLifecycle, emitM, bindM, retM in H.
      by destruct (fault env (OpAuthorizer _) w8). }
    split; [done|]. right. exists projectName, name, row0, w6.
    split; [done|]. split; [congruence|]. done. }
  injection H as <- <-. right.
  apply bindM_inv in Hbody as [(e0 & H1 & ?)|(n & w7 & H1 & H)]; [done|].
  apply orReturn_inv in H1 as [(e0 & _ & ?)|(? & He & [= <-])]; [done|].
  apply LoadByName_inv in He as [-> (_ & row & Hrow & ->)].
  rewrite Hc5, lookup_insert_eq in Hrow. injection Hrow as <-.
  apply bindM_inv in H as [(e0 & H1 & ?)|([] & w8 & H1 & H)]; [done|].
  apply orReturn_inv in H1 as [(e0 & _ & ?)|(? & He & _)]; [done|].
  assert (extends w5 w8) as He8.
  { eapply (extends_step (E:=error)); [|exact He]. eapply Within_mono; [|apply Within_doNetworksCreate].
    done. }
  assert (catalog w8 = <[(projectName, name) := setNodeCreated self row0]> (catalog w)) as Hc8.
  { destruct (doNetworksCreate_runs env (viewRow self projectName name row0)
                (reqClientType r) w5) as [(Hno & _)|(_ & Hc & _)].
    { cbn. unfold row0, standaloneRow. cbn. rewrite lookup_singleton_eq. done. }
    - cbv zeta in Hno. by rewrite He in Hno.
    - cbv zeta in Hc. rewrite He in Hc. cbn [snd netID netMember viewRow] in Hc.
      rewrite Hc, Hc5. by apply updateRowsByID_new. }
  unfold authorizerCall, SendLifecycle, emitM, bindM, retM in H.
  cbn [netName viewRow] in H.
  assert (exists authorized,
            a = SyncResponseLocation (networkURL projectName name) /\
            w6 = emit (EvLifecycle projectName name LifecycleNetworkCreated)
                   (emit (EvAuthorizer (AuthAddNetwork projectName name) authorized) w8))
    as (authorized & -> & ->).
  { destruct (fault env (OpAuthorizer _) w8); injection H as <- <-; by eexists. }
  destruct (since_trans _ _ _ He5 He8) as [He58 _].
  exists projectName, reqProject, req, cfg, (since w w8), authorized.
  do 5 (split; [done|]). split; [done|].
  apply since_app. cbn. unfold extends in He58. rewrite He58 at 1.
  by rewrite <- !app_assoc.
Qed.

(** X4. On a server that is not clustered and has created networks only, when
    the delete of the revert and the commits go through, a create without
    target that answers with an error leaves the catalog as it was. *)
Theorem failed_standalone_create_leaves_no_record (self : string) (r : Request) (w : World) :
  isClusterNotification r = false -> reqTarget r = "" ->
  (length (members env) <= 1)%nat ->
  (forall k row, catalog w !! k = Some row -> rowStatus row = NetworkStatusCreated) ->
  (forall w0, fault env OpTxCommit w0 = None) ->
  (forall project name w0, fault env (OpWrite (DbDeleteNetwork project name)) w0 = None) ->
  let run := networksPost IsNodeSpecificNetworkConfig env self r w in
  isErrorResponse run.1 = true -> catalog run.2 = catalog w.
Proof.
  intros Hn Htarget Hcount Hcreated Hcommit Hdelete. cbv zeta.
  destruct (networksPost IsNodeSpecificNetworkConfig env self r w) as [resp w'] eqn:Hrun.
  cbn [fst snd]. intros Herr.
  apply standalone_create_outcome in Hrun
    as [[_ [?|(p & name & row & w5 & Hnone & Hc5 & ->)]]|Hok]; try done.
  - destruct w5 as [c5 t5]. cbn [catalog] in Hc5. subst c5.
    unfold Transaction, DeleteNetwork, writeM. cbv zeta. cbn [catalog emit setCatalog].
    rewrite Hdelete, lookup_insert_eq. cbn [fst snd catalog emit setCatalog].
    rewrite Hcommit. cbn. by apply delete_insert_id.
  - destruct Hok as (? & ? & ? & ? & ? & ? & -> & _). done.
Qed.

(** X5. On a server that is not clustered and has created networks only, a
    create without target that succeeds has inserted one record, of a name
    that was free: global status created, the type of the request or its
    default, the keys that are not member-specific as global config, the
    member-specific ones on the member, local status created; every other
    record is as it was, and the run ends with the authorizer and the
    network-created event. *)
Theorem standalone_create_inserts_created_record (self : string) (r : Request) (w : World) :
  isClusterNotification r = false -> reqTarget r = "" ->
  (length (members env) <= 1)%nat ->
  (forall k row, catalog w !! k = Some row -> rowStatus row = NetworkStatusCreated) ->
  let run := networksPost IsNodeSpecificNetworkConfig env self r w in
  isErrorResponse run.1 = false ->
  exists projectName reqProject req cfg,
    networkProject env (reqProjectParam r) w = Ok (projectName, reqProject) /\
    decodeNetworksPost r = Ok req /\
    (if bool_decide (reqClientType r = ClientTypeJoiner) then cfg = postConfig req
     else fillConfig env (defaultedType projectName req) (postConfig req) = Ok cfg) /\
    catalog w !! (projectName, postName req) = None /\
    catalog run.2 =
      <[(projectName, postName req) :=
          setNodeCreated self
            (standaloneRow IsNodeSpecificNetworkConfig self (nextID (catalog w))
               (defaultedType projectName req) (postDescription req) cfg)]> (catalog w) /\
    exists pre authorized,
      since w run.2 =
        pre ++ [EvAuthorizer (AuthAddNetwork projectName (postName req)) authorized;
                EvLifecycle projectName (postName req) LifecycleNetworkCreated].
Proof.
  intros Hn Htarget Hcount Hcreated. cbv zeta.
  destruct (networksPost IsNodeSpecificNetworkConfig env self r w) as [resp w'] eqn:Hrun.
  cbn [fst snd]. intros Hok.
  apply standalone_create_outcome in Hrun as [[Herr _]|Hrun]; try done; [congruence|].
  destruct Hrun as (p & rp & req & cfg & pre & authorized & _ & ? & ? & ? & ? & ? & ?).
  exists p, rp, req, cfg. do 5 (split; [done|]). by exists pre, authorized.
Qed.

End StandaloneCreate.


(** * The properties on the samples *)

(** C1 on the sample cluster of three members: the record is pending on all
    of them and the request carries one global key.  The create goes
    through: the record and every member end up created. *)
Lemma two_phase_create_order_witness :
  let info := viewRow "a" "default" "n1" pendingRow in
  let req := commitRequest {[ "mtu" := "9000" ]} in
  let w := worldOf pendingRow in
  let run := networksPostCluster sampleNodeSpecific clusterEnv
               (createOnPeer sampleNodeSpecific clusterEnv)
               "a" "default" (Some info) req ClientTypeNormal w in
  let status := globalStatus "default" (postName req) run.2 in
  partiallyCreated sampleNodeSpecific (Some info) = false /\
  (extends w run.2 /\
   ((is_ok run.1 = false /\ catalog run.2 = catalog w /\
     Forall (fun e => isDriverOrPeer e = false /\ e <> EvTxCommit) (since w run.2)) \/
    exists cfg row0 act fin,
      let n := viewRow "a" "default" (postName req) (definedRow cfg row0) in
      catalog w !! ("default", postName req) = Some row0 /\
      fillConfig clusterEnv (postType req) (postConfig req) = Ok cfg /\
      since w run.2 =
        defineEvents (postType req) (rowID row0) cfg "default" (postName req) ++ act ++ fin /\
      Forall (fun e => actuationEvent e = true) act /\
      ((fin = [] /\ is_ok run.1 = false /\ status = Some NetworkStatusErrored) \/
       (Forall (fun e => failed e = false) act /\
        (exists remote,
           act = actuatedEvents ClientTypeNormal n ++ remote /\
           forall peer, peer ∈ members clusterEnv -> peer <> "a" ->
                        EvPeerReturn peer true ∈ remote) /\
        ((fin = createdEvents "default" (postName req) true /\ is_ok run.1 = true /\
          status = Some NetworkStatusCreated) \/
         (fin = createdEvents "default" (postName req) false /\ is_ok run.1 = false /\
          status = Some NetworkStatusErrored)))))) /\
  run.1 = Ok tt /\
  status = Some NetworkStatusCreated /\
  Forall (fun member => localStatus "default" "n1" member run.2 = Some NetworkStatusCreated)
    (members clusterEnv).
Proof.
  cbv zeta. split; [vm_compute; reflexivity|]. split.
  - apply (two_phase_create_order sampleNodeSpecific clusterEnv "a" "default"
             (Some (viewRow "a" "default" "n1" pendingRow))
             (commitRequest {[ "mtu" := "9000" ]}) ClientTypeNormal (worldOf pendingRow)).
    vm_compute; reflexivity.
  - split; [vm_compute; reflexivity|]. split; [vm_compute; reflexivity|].
    repeat constructor.
Defined.

(** C2 on the sample cluster, for a record that an earlier create left
    errored: a request with a config is refused with the catalog as it was,
    a request without one is actuated on every member and the record ends up
    created. *)
Lemma partially_created_rerun_witness :
  let info := viewRow "a" "default" "n1" erroredRow in
  let w := worldOf erroredRow in
  let rerun req := networksPostCluster sampleNodeSpecific clusterEnv
                     (createOnPeer sampleNodeSpecific clusterEnv)
                     "a" "default" (Some info) req ClientTypeNormal w in
  let again := commitRequest {[ "mtu" := "1500" ]} in
  let retry := commitRequest ∅ in
  let status := globalStatus "default" "n1" in
  networkPartiallyCreated sampleNodeSpecific info = true /\
  (postConfig again <> ∅ /\ is_ok (rerun again).1 = false /\ catalog (rerun again).2 = catalog w) /\
  (postConfig retry = ∅ /\ netStatus info <> NetworkStatusCreated /\
   postType retry = netType info /\
   catalog w !! ("default", postName retry) = Some erroredRow /\
   Forall (fun e => isGlobalConfigInsert e = false) (since w (rerun retry).2) /\
   let n := viewRow "a" "default" (postName retry) erroredRow in
   let w1 := emit EvTxCommit (emit EvTxBegin w) in
   exists act fin,
     since w (rerun retry).2 = [EvTxBegin; EvTxCommit] ++ act ++ fin /\
     Forall (fun e => actuationEvent e = true) act /\
     (fault clusterEnv (OpNewNotifier "a") w1 = None ->
      fault clusterEnv (OpLoadByName "a" "default" (postName retry)) w1 = None ->
      exists went rest,
        act ++ fin = EvDriver "a" "default" (postName retry)
                       (DrvValidate (validateConfigOf ClientTypeNormal n)) went :: rest) /\
     ((fin = [] /\ is_ok (rerun retry).1 = false /\ status (rerun retry).2 = status w) \/
      (Forall (fun e => failed e = false) act /\
       (exists remote,
          act = actuatedEvents ClientTypeNormal n ++ remote /\
          forall peer, peer ∈ members clusterEnv -> peer <> "a" ->
                       EvPeerReturn peer true ∈ remote) /\
       ((fin = createdEvents "default" (postName retry) true /\
         is_ok (rerun retry).1 = true /\
         status (rerun retry).2 = Some NetworkStatusCreated) \/
        (fin = createdEvents "default" (postName retry) false /\
         is_ok (rerun retry).1 = false /\
         status (rerun retry).2 = status w))))) /\
  (rerun again).1 =
    Ret (ErrNew "Network already partially created. Please do not specify any global config when re-running create") /\
  (rerun retry).1 = Ok tt /\
  status (rerun retry).2 = Some NetworkStatusCreated /\
  Forall (fun member =>
            localStatus "default" "n1" member (rerun retry).2 = Some NetworkStatusCreated)
    (members clusterEnv).
Proof.
  cbv zeta.
  assert (networkPartiallyCreated sampleNodeSpecific
            (viewRow "a" "default" "n1" erroredRow) = true) as Hpartial
    by (vm_compute; reflexivity).
  assert (postConfig (commitRequest {[ "mtu" := "1500" ]}) <> ∅) as Hne
    by (cbn; apply map_non_empty_singleton).
  assert (netStatus (viewRow "a" "default" "n1" erroredRow) <> NetworkStatusCreated) as Hst
    by (cbn; discriminate).
  assert (catalog (worldOf erroredRow) !! ("default", postName (commitRequest ∅)) =
          Some erroredRow) as Hrow by (vm_compute; reflexivity).
  split; [exact Hpartial|]. split; [|split].
  - split; [exact Hne|].
    exact (proj1 (proj2 (partially_created_rerun sampleNodeSpecific clusterEnv
                           "a" "default" _ _ ClientTypeNormal _ Hpartial)) Hne).
  - split; [reflexivity|]. split; [exact Hst|]. split; [reflexivity|].
    split; [exact Hrow|]. split.
    + exact (proj1 (partially_created_rerun sampleNodeSpecific clusterEnv
                      "a" "default" _ (commitRequest ∅) ClientTypeNormal _ Hpartial)).
    + exact (proj2 (proj2 (partially_created_rerun sampleNodeSpecific clusterEnv
                             "a" "default" _ (commitRequest ∅) ClientTypeNormal _ Hpartial))
               eq_refl Hst eq_refl erroredRow Hrow).
  - split; [vm_compute; reflexivity|]. split; [vm_compute; reflexivity|].
    split; [vm_compute; reflexivity|]. repeat constructor.
Defined.

(** C4, on a sample.  The key [security.aclsx] starts with [security.acls],
    yet the joiner's [Validate] receives it; [security.acls] and
    [security.acls.default.egress.action] are left out. *)
Lemma joiner_keeps_key_with_acl_prefix :
  let n := viewRow "a" "default" "n1" aclRow in
  let run := doNetworksCreate singleEnv n ClientTypeJoiner (worldOf aclRow) in
  String.prefix "security.acls" "security.aclsx" = true /\
  netConfig n !! "security.aclsx" = Some "v" /\
  exists cfg rest,
    trace run.2 = EvDriver "a" "default" "n1" (DrvValidate cfg) true :: rest /\
    cfg !! "security.aclsx" = Some "v" /\
    cfg !! "security.acls" = None /\
    cfg !! "security.acls.default.egress.action" = None.
Proof.
  cbv zeta. split; [reflexivity|]. split; [vm_compute; reflexivity|].
  eexists _, _. split; [vm_compute; reflexivity|].
  split; [vm_compute; reflexivity|]. split; vm_compute; reflexivity.
Qed.

(** C6 on a created network whose config validates. *)
Lemma doNetworksCreate_already_created_witness :
  let n := viewRow "a" "default" "n1" createdRow in
  let w := worldOf createdRow in
  netLocalStatus n = NetworkStatusCreated /\
  doNetworksCreate clusterEnv n ClientTypeNormal w =
    (Ok tt, emit (EvDriver "a" "default" "n1" (DrvValidate (netConfig n)) true) w).
Proof.
  cbv zeta. split; [reflexivity|].
  exact (doNetworksCreate_already_created clusterEnv (viewRow "a" "default" "n1" createdRow)
           ClientTypeNormal (worldOf createdRow) eq_refl).
Defined.

(** C7 on the sample cluster. *)
Lemma rename_refused_when_clustered_witness :
  let r := sampleRequest MethodPost "" ClientTypeNormal "n1" (BodyNetworkPost "n2") in
  serverClustered clusterEnv = true /\
  networkPost clusterEnv "a" r (worldOf createdRow) =
    (BadRequest (ErrNew "Renaming clustered network not supported"), worldOf createdRow).
Proof.
  cbv zeta. split; [reflexivity|].
  apply rename_refused_when_clustered. reflexivity.
Defined.

(** C10 on a created network that an instance uses. *)
Lemma delete_in_use_refused_witness :
  let r := sampleRequest MethodDelete "" ClientTypeNormal "n1" BodyMalformed in
  let w := worldOf createdRow in
  isClusterNotification r = false /\
  driverIsUsed usedEnv (viewRow "a" "default" "n1" createdRow) false w = Ok true /\
  networkDelete usedEnv "a" r w =
    (BadRequest (ErrNew "The network is currently in use"), w).
Proof.
  cbv zeta. split; [reflexivity|]. split; [reflexivity|].
  apply (delete_in_use_refused usedEnv "a" _ _ "default" "n1"
           {| projName := ProjectDefaultName; projConfig := ∅ |} createdRow);
    solve [reflexivity | vm_compute; reflexivity].
Defined.

(** C3.  The update handler sends the network-updated event whatever
    [doNetworkUpdate] answers.  On a created network of a single member, a
    [PUT] that the driver's [Validate] rejects answers bad request, and a
    [PUT] whose driver [Update] fails answers that error; the trace of both
    runs ends with the network-updated event. *)
Lemma update_event_after_failed_update :
  let r := sampleRequest MethodPut "" ClientTypeNormal "n1" (putBody {[ "mtu" := "1500" ]}) in
  let rejecting := sampleEnv ["a"] false rejectingDriver false [] allowAll in
  let failing := sampleEnv ["a"] false failingUpdateDriver false [] allowAll in
  let updated := EvLifecycle "default" "n1" LifecycleNetworkUpdated in
  let put := {| putDescription := ""; putConfig := {[ "mtu" := "1500" ]} |} in
  let validated ok := EvDriver "a" "default" "n1" (DrvValidate {[ "mtu" := "1500" ]}) ok in
  networkPut sampleNodeSpecific rejecting "a" r (worldOf createdRow) =
    (BadRequest (ErrNew "Invalid value for network option"),
     {| catalog := catalog (worldOf createdRow); trace := [validated false; updated] |}) /\
  networkPut sampleNodeSpecific failing "a" r (worldOf createdRow) =
    (SmartError (ErrNew "Failed to apply the configuration"),
     {| catalog := catalog (worldOf createdRow);
        trace := [validated true;
                  EvDriver "a" "default" "n1" (DrvUpdate put "" ClientTypeNormal) false;
                  updated] |}).
Proof. cbv zeta. split; vm_compute; reflexivity. Qed.

(** C5 on the sample cluster, where [parent] is member-specific and [mtu] is
    not: a changed [parent] without a target and a changed [mtu] with a
    target are refused; an unchanged [parent] next to a changed [mtu] without
    a target goes through. *)
Lemma networkPut_key_scope_witness :
  let w := worldOf createdRow in
  let n := viewRow "a" "default" "n1" createdRow in
  let put target cfg := sampleRequest MethodPut target ClientTypeNormal "n1" (putBody cfg) in
  let body cfg := {| putDescription := ""; putConfig := cfg |} in
  let moved : Config := {[ "parent" := "eth9"; "mtu" := "9000" ]} in
  let resized : Config := {[ "parent" := "eth0"; "mtu" := "1500" ]} in
  serverClustered clusterEnv = true /\
  (networkPutChecks sampleNodeSpecific clusterEnv "a" (put "" moved) w =
     (Ok ("default", n, "", body moved), w) /\
   changedKey n (body moved) "parent" /\
   networkPutLocal sampleNodeSpecific clusterEnv "a" (put "" moved) w =
     (BadRequest (ErrNew "Config key is cluster member specific"), w)) /\
  (networkPutChecks sampleNodeSpecific clusterEnv "a" (put "a" resized) w =
     (Ok ("default", n, "a", body resized), w) /\
   changedKey n (body resized) "mtu" /\
   networkPutLocal sampleNodeSpecific clusterEnv "a" (put "a" resized) w =
     (BadRequest (ErrNew "Config key may not be used as member-specific key"), w)) /\
  (networkPutChecks sampleNodeSpecific clusterEnv "a" (put "" resized) w =
     (Ok ("default", n, "", body resized), w) /\
   ~ changedKey n (body resized) "parent" /\
   networkPutLocal sampleNodeSpecific clusterEnv "a" (put "" resized) w =
     let upd := doNetworkUpdate sampleNodeSpecific clusterEnv n (body resized) ""
                  ClientTypeNormal MethodPut true w in
     (upd.1, emit (EvLifecycle "default" "n1" LifecycleNetworkUpdated) upd.2)).
Proof.
  cbv zeta.
  set (w := worldOf createdRow). set (n := viewRow "a" "default" "n1" createdRow).
  set (moved := {[ "parent" := "eth9"; "mtu" := "9000" ]} : Config).
  set (resized := {[ "parent" := "eth0"; "mtu" := "1500" ]} : Config).
  set (put := fun target cfg => sampleRequest MethodPut target ClientTypeNormal "n1" (putBody cfg)).
  set (body := fun cfg => {| putDescription := ""; putConfig := cfg |}).
  assert (serverClustered clusterEnv = true) as Hc by reflexivity.
  assert (forall target cfg,
            networkPutChecks sampleNodeSpecific clusterEnv "a" (put target cfg) w =
              (Ok ("default", n, target, body cfg), w)) as Hchecks.
  { intros target cfg. unfold networkPutChecks, LoadByName.
    cbv beta iota zeta delta [bindM orReturn guardM retM failM liftM readM faultM
      requestProject requestNetworkName].
    cbn. by destruct (target =? "")%string. }
  assert (changedKey n (body moved) "parent") as Hmoved.
  { exists "eth9". split; [vm_compute; reflexivity|]. vm_compute. discriminate. }
  assert (changedKey n (body resized) "mtu") as Hresized.
  { exists "1500". split; [vm_compute; reflexivity|]. vm_compute. discriminate. }
  assert (forall k, changedKey n (body resized) k -> k = "mtu") as Honly.
  { intros k Hk. apply changedConfig_changedKey in Hk.
    assert (changedConfig (netConfig n) (putConfig (body resized)) = {[ "mtu" := "1500" ]}) as Heq
      by (vm_compute; reflexivity).
    rewrite Heq in Hk. destruct Hk as [v Hv].
    by apply lookup_singleton_Some in Hv as [<- _]. }
  split; [exact Hc|]. split; [|split].
  - split; [apply Hchecks|]. split; [exact Hmoved|].
    apply (proj1 (networkPut_key_scope sampleNodeSpecific clusterEnv "a" (put "" moved) w
                    "default" "" n (body moved) Hc (Hchecks _ _))); [reflexivity|].
    exists "parent". split; [exact Hmoved|reflexivity].
  - split; [apply Hchecks|]. split; [exact Hresized|].
    apply (proj1 (proj2 (networkPut_key_scope sampleNodeSpecific clusterEnv "a"
                           (put "a" resized) w "default" "a" n (body resized) Hc (Hchecks _ _))));
      [discriminate|].
    exists "mtu". split; [exact Hresized|reflexivity].
  - split; [apply Hchecks|]. split.
    { intros Hk. apply Honly in Hk. discriminate. }
    apply (proj2 (proj2 (networkPut_key_scope sampleNodeSpecific clusterEnv "a"
                           (put "" resized) w "default" "" n (body resized) Hc (Hchecks _ _)))).
    intros k Hk. apply Honly in Hk. subst k. reflexivity.
Defined.

(** C8, on a sample.  The host interface [eth0] does not start with [veth],
    but the caller may not view it: the list answers the managed network
    only. *)
Lemma list_hides_names_without_permission :
  let w := worldOf createdRow in
  let run := networksGet sampleNodeSpecific restrictedEnv "a" listRequest w in
  interfaces restrictedEnv "a" w = Ok hostInterfaces /\
  "eth0" ∈ ifName <$> hostInterfaces /\
  String.prefix "veth" "eth0" = false /\
  run.1 = SyncResponseLinks [networkLink "n1"] /\
  networkLink "eth0" ∉ listedLinks run.1.
Proof.
  cbv zeta. split; [reflexivity|]. split; [cbn; set_solver|]. split; [reflexivity|].
  assert ((networksGet sampleNodeSpecific restrictedEnv "a" listRequest
             (worldOf createdRow)).1 = SyncResponseLinks [networkLink "n1"]) as ->
    by (vm_compute; reflexivity).
  split; [reflexivity|]. cbn. intros Hin. apply list_elem_of_singleton in Hin.
  apply networkLink_inj in Hin. discriminate.
Qed.

(** C8 on a host with the interfaces of the sample, for a caller who may view
    everything. *)
Lemma list_default_project_witness :
  let w := worldOf createdRow in
  let w1 := emit EvTxCommit (emit EvTxBegin w) in
  let run := networksGet sampleNodeSpecific hostEnv "a" listRequest w in
  reqAllProjects listRequest = false /\
  networkProject hostEnv (reqProjectParam listRequest) w =
    Ok (ProjectDefaultName, {| projName := ProjectDefaultName; projConfig := ∅ |}) /\
  isErrorResponse run.1 = false /\
  run.1 = SyncResponseLinks [networkLink "n1"; networkLink "eth0"] /\
  exists ifaces userHasPermission,
    interfaces hostEnv "a" w1 = Ok ifaces /\
    permissionChecker hostEnv listRequest w1 = Ok userHasPermission /\
    let candidate x :=
      is_Some (catalog w !! (ProjectDefaultName, x)) \/
      (x ∈ ifName <$> ifaces /\ String.prefix "veth" x = false) in
    NoDup (listedLinks run.1) /\
    (forall link, link ∈ listedLinks run.1 ->
       exists x, link = networkLink x /\ candidate x /\
                 userHasPermission ProjectDefaultName x = true) /\
    (reqRecursion listRequest = false -> reqFilter listRequest = Ok [] ->
     forall x, networkLink x ∈ listedLinks run.1 <->
       candidate x /\ userHasPermission ProjectDefaultName x = true /\
       networkAllowed hostEnv ∅ x true = true).
Proof.
  cbv zeta. split; [reflexivity|]. split; [reflexivity|].
  split; [vm_compute; reflexivity|]. split; [vm_compute; reflexivity|].
  apply (list_default_project sampleNodeSpecific hostEnv "a" listRequest
           {| projName := ProjectDefaultName; projConfig := ∅ |} (worldOf createdRow));
    solve [reflexivity | vm_compute; reflexivity].
Defined.



(** A create on the three members while the second one cannot start the
    network answers the error and leaves the record errored.  The same
    request without a config, once that member has recovered, inserts no
    global config, starts the network on the member that failed only, and
    leaves the record created. *)
Example create_recovers_after_failed_member :
  let first := networksPost sampleNodeSpecific brokenEnv "a"
                 (createRequest {[ "mtu" := "9000" ]}) (worldOf pendingRow) in
  let again := networksPost sampleNodeSpecific clusterEnv "a" (createRequest ∅) first.2 in
  first.1 = SmartError (ErrNew "Failed to start") /\
  globalStatus "default" "n1" first.2 = Some NetworkStatusErrored /\
  again.1 = SyncResponseLocation "/1.0/networks/n1" /\
  globalStatus "default" "n1" again.2 = Some NetworkStatusCreated /\
  existsb isGlobalConfigInsert (since first.2 again.2) = false /\
  List.filter isStart (since first.2 again.2) = [EvDriver "b" "default" "n1" DrvStart true].
Proof. cbv zeta. repeat split; vm_compute; reflexivity. Qed.

(** With all-projects the names of every project are listed one after the
    other: a name that two projects use is returned twice. *)
Example list_all_projects_repeats_names :
  (networksGet sampleNodeSpecific hostEnv "a" allProjectsRequest twoProjects).1 =
    SyncResponseLinks [networkLink "n1"; networkLink "n1"; networkLink "eth0"].
Proof. vm_compute. reflexivity. Qed.

(** A side condition on the samples, by evaluation. *)
Ltac on_sample :=
  first [ reflexivity | discriminate | vm_compute; reflexivity | vm_compute; discriminate
        | cbn; lia | intros; first [reflexivity | discriminate] ].

(** X21 on the sample cluster, for a [PUT] of one global key. *)
Lemma put_keeps_member_specific_keys_witness :
  let n := viewRow "a" "default" "n1" createdRow in
  let req := {| putDescription := ""; putConfig := {[ "mtu" := "1500" ]} |} in
  let w := worldOf createdRow in
  MethodPut <> MethodPatch /\
  let run := doNetworkUpdate sampleNodeSpecific clusterEnv n req "" ClientTypeNormal
               MethodPut true w in
  exists cfg ok rest,
    since w run.2 =
      EvDriver (netMember n) (netProject n) (netName n) (DrvValidate cfg) ok :: rest /\
    (forall e, e ∈ rest ->
       exists ok', e = EvDriver (netMember n) (netProject n) (netName n)
                         (DrvUpdate (withConfig req cfg) "" ClientTypeNormal) ok') /\
    forall k, cfg !! k =
              if sampleNodeSpecific k
              then match netConfig n !! k with
                   | Some v => Some v
                   | None => putConfig req !! k
                   end
              else putConfig req !! k.
Proof.
  cbv zeta.
  do 1 (split; [on_sample|]).
  apply (put_keeps_member_specific_keys sampleNodeSpecific clusterEnv
           (viewRow "a" "default" "n1" createdRow)
           {| putDescription := ""; putConfig := {[ "mtu" := "1500" ]} |}
           ClientTypeNormal MethodPut (worldOf createdRow));
    on_sample.
Defined.

(** X19 on the sample cluster, for a network that is still pending. *)
Lemma put_refused_unless_created_witness :
  let r := putRequest {[ "mtu" := "1500" ]} in
  let w := worldOf pendingRow in
  networkProject clusterEnv (reqProjectParam r) w = Ok ("default", defaultProject) /\
  reqNetworkName r = Ok "n1" /\
  fault clusterEnv (OpLoadByName "a" "default" "n1") w = None /\
  catalog w !! ("default", "n1") = Some pendingRow /\
  networkAllowed clusterEnv (projConfig defaultProject) "n1" true = true /\
  reqTarget r = "" /\
  rowStatus pendingRow <> NetworkStatusCreated /\
  networkPutLocal sampleNodeSpecific clusterEnv "a" r w =
    (BadRequest (ErrNew "Cannot update network global config when not in created state"), w).
Proof.
  cbv zeta.
  do 7 (split; [on_sample|]).
  apply (put_refused_unless_created sampleNodeSpecific clusterEnv "a"
           (putRequest {[ "mtu" := "1500" ]}) (worldOf pendingRow)
           "default" "n1" defaultProject pendingRow);
    on_sample.
Defined.

(** X20 for a client whose entity tag is out of date. *)
Lemma put_refused_on_stale_etag_witness :
  let r := putRequest {[ "mtu" := "1500" ]} in
  let w := worldOf createdRow in
  let err := ErrNew "ETag doesn't match" in
  networkProject staleEnv (reqProjectParam r) w = Ok ("default", defaultProject) /\
  reqNetworkName r = Ok "n1" /\
  fault staleEnv (OpLoadByName "a" "default" "n1") w = None /\
  catalog w !! ("default", "n1") = Some createdRow /\
  networkAllowed staleEnv (projConfig defaultProject) "n1" true = true /\
  (reqTarget r = "" -> rowStatus createdRow = NetworkStatusCreated) /\
  etagCheck staleEnv r
    (putEtag (serverClustered staleEnv) sampleNodeSpecific (reqTarget r)
       (viewRow "a" "default" "n1" createdRow)) = Some err /\
  networkPutLocal sampleNodeSpecific staleEnv "a" r w = (PreconditionFailed err, w).
Proof.
  cbv zeta.
  do 7 (split; [on_sample|]).
  apply (put_refused_on_stale_etag sampleNodeSpecific staleEnv "a"
           (putRequest {[ "mtu" := "1500" ]}) (worldOf createdRow)
           "default" "n1" defaultProject createdRow (ErrNew "ETag doesn't match"));
    on_sample.
Defined.

(** X8 on the sample cluster, for the created network. *)
Lemma get_returns_the_network_asked_for_witness :
  let r := getRequest "n1" in
  let w := worldOf createdRow in
  exists info w',
    doNetworkGet sampleNodeSpecific clusterEnv "a" r true "default" ∅ "n1" w = (Ok info, w') /\
    w' = w /\
    apiName info = "n1" /\ apiProject info = "default" /\
    String.prefix "veth" (apiName info) = false /\
    networkAllowed clusterEnv ∅ (apiName info) (apiManaged info) = true.
Proof.
  cbv zeta. eexists _, _.
  do 1 (split; [on_sample|]).
  eapply (get_returns_the_network_asked_for sampleNodeSpecific clusterEnv "a"
            (getRequest "n1") true "default" ∅ "n1" (worldOf createdRow));
    on_sample.
Defined.

(** X9 on the host of the samples, for its physical interface. *)
Lemma get_interface_only_in_default_project_witness :
  let r := getRequest "eth0" in
  let w := worldOf createdRow in
  exists info w',
    doNetworkGet sampleNodeSpecific hostEnv "a" r false "default" ∅ "eth0" w = (Ok info, w') /\
    apiManaged info = false /\
    "default" = ProjectDefaultName /\
    is_Some (InterfaceByName hostEnv "a" "eth0" w) /\
    apiConfig info = ∅ /\ apiStatus info = None /\ apiLocations info = [].
Proof.
  cbv zeta. eexists _, _.
  do 2 (split; [on_sample|]).
  eapply (get_interface_only_in_default_project sampleNodeSpecific hostEnv "a"
            (getRequest "eth0") false "default" ∅ "eth0" (worldOf createdRow));
    on_sample.
Defined.

(** X10 for a caller who may view the network only. *)
Lemma get_hides_config_without_permission_witness :
  let r := getRequest "n1" in
  let w := worldOf createdRow in
  exists info w',
    checkPermission viewerEnv r "default" "n1" w = Some (ErrStatus 403 "Forbidden") /\
    doNetworkGet sampleNodeSpecific viewerEnv "a" r true "default" ∅ "n1" w = (Ok info, w') /\
    apiConfig info = ∅.
Proof.
  cbv zeta. eexists _, _.
  do 2 (split; [on_sample|]).
  eapply (get_hides_config_without_permission sampleNodeSpecific viewerEnv "a"
            (getRequest "n1") true "default" ∅ "n1" (worldOf createdRow));
    on_sample.
Defined.

(** X11 on the sample cluster, where every member has a parent of its own. *)
Lemma get_without_target_strips_member_keys_witness :
  let r := getRequest "n1" in
  let w := worldOf createdRow in
  exists info etag w',
    serverClustered clusterEnv = true /\
    reqTarget r = "" /\
    networkGetLocal sampleNodeSpecific clusterEnv "a" r w = (Ok (info, etag), w') /\
    forall k, sampleNodeSpecific k = true ->
              apiConfig info !! k = None /\ etagConfig etag !! k = None.
Proof.
  cbv zeta. eexists _, _, _.
  do 3 (split; [on_sample|]).
  eapply (get_without_target_strips_member_keys sampleNodeSpecific clusterEnv "a"
            (getRequest "n1") (worldOf createdRow));
    on_sample.
Defined.

(** X12 on the sample cluster: a [GET], then a [PUT] of the same network. *)
Lemma put_accepts_etag_of_get_witness :
  let get := getRequest "n1" in
  let put := putRequest {[ "mtu" := "1500" ]} in
  let w := worldOf createdRow in
  exists info etag w',
    networkProject clusterEnv (reqProjectParam get) w = Ok ("default", defaultProject) /\
    reqNetworkName get = Ok "n1" /\
    reqProjectParam put = reqProjectParam get /\
    reqNetworkName put = reqNetworkName get /\
    reqTarget put = reqTarget get /\
    networkGetLocal sampleNodeSpecific clusterEnv "a" get w = (Ok (info, etag), w') /\
    apiManaged info = true /\
    checkPermission clusterEnv get "default" "n1" w = None /\
    exists n,
      LoadByName clusterEnv "a" "default" "n1" w = (Ok n, w) /\
      etag = putEtag (serverClustered clusterEnv) sampleNodeSpecific (reqTarget put) n /\
      (etagCheck clusterEnv put etag = None ->
       forall err, (networkPutChecks sampleNodeSpecific clusterEnv "a" put w).1 <>
                   Ret (PreconditionFailed err)).
Proof.
  cbv zeta. eexists _, _, _.
  do 8 (split; [on_sample|]).
  eapply (put_accepts_etag_of_get sampleNodeSpecific clusterEnv "a"
            (getRequest "n1") (putRequest {[ "mtu" := "1500" ]})
            "default" "n1" defaultProject (worldOf createdRow));
    on_sample.
Defined.

(** X13 for a network that is in use. *)
Lemma failed_delete_keeps_catalog_witness :
  let r := deleteRequest ClientTypeNormal in
  let w := worldOf createdRow in
  let run := networkDelete usedEnv "a" r w in
  (isErrorResponse run.1 = true \/ isClusterNotification r = true) /\
  catalog run.2 = catalog w.
Proof.
  cbv zeta.
  assert (isErrorResponse
            (networkDelete usedEnv "a" (deleteRequest ClientTypeNormal) (worldOf createdRow)).1
          = true) as Herr by on_sample.
  split; [by left|].
  apply (failed_delete_keeps_catalog usedEnv "a" (deleteRequest ClientTypeNormal)
           (worldOf createdRow)).
  by left.
Defined.

(** X14 on the single member, for the created network. *)
Lemma delete_removes_record_witness :
  let r := deleteRequest ClientTypeNormal in
  let w := worldOf createdRow in
  let run := networkDelete singleEnv "a" r w in
  isClusterNotification r = false /\
  isErrorResponse run.1 = false /\
  exists projectName reqProject networkName row,
    networkProject singleEnv (reqProjectParam r) w = Ok (projectName, reqProject) /\
    reqNetworkName r = Ok networkName /\
    catalog w !! (projectName, networkName) = Some row /\
    driverIsUsed singleEnv (viewRow "a" projectName networkName row) false w = Ok false /\
    catalog run.2 = delete (projectName, networkName) (catalog w) /\
    exists pre authorized,
      since w run.2 =
        pre ++ [EvTxBegin; EvDb (DbDeleteNetwork projectName networkName); EvTxCommit;
                EvAuthorizer (AuthDeleteNetwork projectName networkName) authorized;
                EvLifecycle projectName networkName LifecycleNetworkDeleted].
Proof.
  cbv zeta.
  do 2 (split; [on_sample|]).
  apply (delete_removes_record singleEnv "a" (deleteRequest ClientTypeNormal)
           (worldOf createdRow));
    on_sample.
Defined.

(** X15 on member [b] of the sample cluster. *)
Lemma notified_delete_is_local_witness :
  let r := deleteRequest ClientTypeNotifier in
  let w := worldOf createdRow in
  let run := networkDelete clusterEnv "b" r w in
  isClusterNotification r = true /\
  catalog run.2 = catalog w /\
  extends w run.2 /\
  Forall (fun e => isDeleteOn "b" e = true) (since w run.2).
Proof.
  cbv zeta.
  do 1 (split; [on_sample|]).
  apply (notified_delete_is_local clusterEnv "b" (deleteRequest ClientTypeNotifier)
           (worldOf createdRow));
    on_sample.
Defined.

(** X16 on the single member: the driver's [Delete] of the created network. *)
Lemma delete_calls_driver_unless_pending_witness :
  let r := deleteRequest ClientTypeNormal in
  let w := worldOf createdRow in
  let run := networkDelete singleEnv "a" r w in
  let e := EvDriver "a" "default" "n1" (DrvDelete ClientTypeNormal) true in
  e ∈ since w run.2 /\ isDriverOn "a" e = true /\
  exists projectName reqProject networkName row ok,
    networkProject singleEnv (reqProjectParam r) w = Ok (projectName, reqProject) /\
    reqNetworkName r = Ok networkName /\
    catalog w !! (projectName, networkName) = Some row /\
    netLocalStatus (viewRow "a" projectName networkName row) <> NetworkStatusPending /\
    e = EvDriver "a" projectName networkName (DrvDelete (reqClientType r)) ok.
Proof.
  cbv zeta.
  assert (EvDriver "a" "default" "n1" (DrvDelete ClientTypeNormal) true ∈
          since (worldOf createdRow)
            (networkDelete singleEnv "a" (deleteRequest ClientTypeNormal) (worldOf createdRow)).2)
    as Hin by (vm_compute; repeat constructor).
  split; [exact Hin|]. split; [on_sample|].
  apply (delete_calls_driver_unless_pending singleEnv "a" (deleteRequest ClientTypeNormal)
           (worldOf createdRow) _ Hin).
  on_sample.
Defined.

(** X6 on the member of the sample cluster that cannot start the network. *)
Lemma failed_create_is_undone_witness :
  let n := viewRow "b" "default" "n1" pendingRow in
  let w := worldOf pendingRow in
  let run := doNetworksCreate brokenEnv n ClientTypeNormal w in
  let drv call := EvDriver (netMember n) (netProject n) (netName n) call in
  netLocalStatus n <> NetworkStatusCreated /\
  (is_ok run.1 = false ->
   catalog run.2 = catalog w /\
   (drv (DrvCreate ClientTypeNormal) true ∈ since w run.2 <->
    exists undone, last (since w run.2) = Some (drv (DrvDelete ClientTypeNormal) undone))) /\
  (is_ok run.1 = true ->
   Forall (fun e => isDelete e = false) (since w run.2) /\
   catalog run.2 = updateRowsByID (netID n) (setNodeCreated (netMember n)) (catalog w)).
Proof.
  cbv zeta.
  do 1 (split; [on_sample|]).
  apply (failed_create_is_undone brokenEnv (viewRow "b" "default" "n1" pendingRow)
           ClientTypeNormal (worldOf pendingRow));
    on_sample.
Defined.

(** X25 for the sample network that names a parent and an uplink. *)
Lemma network_with_both_dependencies_never_starts_witness :
  let pn := ("default", "n1") in
  let w := worldOf dependentRow in
  (forall w0, fault clusterEnv (OpLoadByName "a" pn.1 pn.2) w0 = None) /\
  catalog w !! pn = Some dependentRow /\
  cfg_get (netConfig (viewRow "a" pn.1 pn.2 dependentRow)) "parent" <> "" /\
  cfg_get (netConfig (viewRow "a" pn.1 pn.2 dependentRow)) "network" <> "" /\
  length oneWaiting = 3%nat /\
  waiting oneWaiting pn /\
  forall (firstPass : bool) (ticks : nat),
    let first := initPass clusterEnv "a" ∅ firstPass oneWaiting w in
    let later := retryLoop clusterEnv "a" ticks first.1.1 first.2 in
    waiting first.1.1 pn /\
    Forall (fun e => isStartOf pn e = false) (since w first.2) /\
    waiting later.1 pn /\
    Forall (fun e => isStartOf pn e = false) (since w later.2) /\
    catalog later.2 = catalog w.
Proof.
  cbv zeta.
  assert (waiting oneWaiting ("default", "n1")) as Hwaiting.
  { exists 0%nat. by apply elem_of_singleton_2. }
  do 5 (split; [on_sample|]). split; [exact Hwaiting|].
  apply (network_with_both_dependencies_never_starts clusterEnv "a" ("default", "n1")
           dependentRow oneWaiting (worldOf dependentRow));
    first [exact Hwaiting | on_sample].
Defined.

(** X26 on a server without networks. *)
Lemma vanished_network_is_dropped_witness :
  let pn := ("default", "n1") in
  LoadByName clusterEnv "a" pn.1 pn.2 emptyWorld = (Ret notFound, emptyWorld) /\
  loadAndInitNetwork clusterEnv "a" ∅ pn networkPriorityStandalone true oneWaiting emptyWorld =
    if StatusErrorCheck notFound StatusNotFound
    then (Ok (bucketDelete networkPriorityStandalone pn oneWaiting), emptyWorld)
    else (Ret (ErrWrap "Failed loading" notFound), emptyWorld).
Proof.
  cbv zeta.
  do 1 (split; [on_sample|]).
  apply (vanished_network_is_dropped clusterEnv "a" ("default", "n1")
           networkPriorityStandalone true oneWaiting notFound emptyWorld emptyWorld);
    on_sample.
Defined.


(** X29 on the sample cluster, for the created network. *)
Lemma shutdown_reaches_every_network_witness :
  let w := worldOf createdRow in
  let run := networkShutdown clusterEnv "a" w in
  (forall op w0, fault clusterEnv op w0 = None) /\
  "default" ∈ projectNames clusterEnv (emit EvTxBegin w) /\
  is_Some (catalog w !! ("default", "n1")) /\
  exists ok, EvDriver "a" "default" "n1" DrvStop ok ∈ since w run.2.
Proof.
  cbv zeta.
  assert ("default" ∈ projectNames clusterEnv (emit EvTxBegin (worldOf createdRow))) as Hp
    by (vm_compute; repeat constructor).
  assert (is_Some (catalog (worldOf createdRow) !! ("default", "n1"))) as Hrow
    by (eexists; on_sample).
  split; [on_sample|]. split; [exact Hp|]. split; [exact Hrow|].
  apply (shutdown_reaches_every_network clusterEnv "a" (worldOf createdRow));
    first [exact Hp | exact Hrow | on_sample].
Defined.

(** X1 on the single member, for a create that succeeds. *)
Lemma create_only_with_valid_name_and_type_witness :
  let r := createRequest {[ "mtu" := "9000" ]} in
  let run := networksPost sampleNodeSpecific singleEnv "a" r emptyWorld in
  (isErrorResponse run.1 = false \/ catalog run.2 <> catalog emptyWorld) /\
  exists projectName reqProject req netTypeInfo,
    networkProject singleEnv (reqProjectParam r) emptyWorld = Ok (projectName, reqProject) /\
    decodeNetworksPost r = Ok req /\
    postName req <> "" /\ postName req <> "none" /\
    networkAllowed singleEnv (projConfig reqProject) (postName req) true = true /\
    loadByType singleEnv (defaultedType projectName req) = Ok netTypeInfo /\
    validateName singleEnv (defaultedType projectName req) (postName req) = None /\
    (projectName = ProjectDefaultName \/ tiProjects netTypeInfo = true).
Proof.
  cbv zeta.
  assert (isErrorResponse
            (networksPost sampleNodeSpecific singleEnv "a"
               (createRequest {[ "mtu" := "9000" ]}) emptyWorld).1 = false) as Hok
    by on_sample.
  split; [by left|].
  apply (create_only_with_valid_name_and_type sampleNodeSpecific singleEnv "a"
           (createRequest {[ "mtu" := "9000" ]}) emptyWorld).
  by left.
Defined.

(** X2 in a project limited to one network, for its first network. *)
Lemma create_respects_project_limit_witness :
  let r := createRequest ∅ in
  let run := networksPost sampleNodeSpecific limitedEnv "a" r emptyWorld in
  networkProject limitedEnv (reqProjectParam r) emptyWorld = Ok ("blue", blueProject) /\
  "blue" <> ProjectDefaultName /\
  cfg_get (projConfig blueProject) "limits.networks" <> "" /\
  (isErrorResponse run.1 = false \/ catalog run.2 <> catalog emptyWorld) /\
  exists req limit,
    decodeNetworksPost r = Ok req /\
    Atoi (cfg_get (projConfig blueProject) "limits.networks") = Ok limit /\
    (postName req ∈ projectNetworks "blue" (catalog emptyWorld) \/
     Z.of_nat (length (projectNetworks "blue" (catalog emptyWorld))) < limit).
Proof.
  cbv zeta.
  assert (isErrorResponse
            (networksPost sampleNodeSpecific limitedEnv "a" (createRequest ∅) emptyWorld).1
          = false) as Hok by on_sample.
  do 3 (split; [on_sample|]). split; [by left|].
  apply (create_respects_project_limit sampleNodeSpecific limitedEnv "a" (createRequest ∅)
           emptyWorld "blue" blueProject);
    first [by left | on_sample].
Defined.

(** X3 on member [b] of the sample cluster, for the pending network. *)
Lemma notified_create_is_local_witness :
  let w := worldOf pendingRow in
  let run := networksPost sampleNodeSpecific clusterEnv "b" notifiedCreate w in
  isClusterNotification notifiedCreate = true /\
  extends w run.2 /\
  Forall (fun e => localActuation "b" e = true) (since w run.2) /\
  (forall k, rowStatus <$> catalog run.2 !! k = rowStatus <$> catalog w !! k).
Proof.
  cbv zeta.
  do 1 (split; [on_sample|]).
  apply (notified_create_is_local sampleNodeSpecific clusterEnv "b" notifiedCreate
           (worldOf pendingRow));
    on_sample.
Defined.

(** X4 on a single member whose driver cannot create the network. *)
Lemma failed_standalone_create_leaves_no_record_witness :
  let r := createRequest {[ "mtu" := "9000" ]} in
  let run := networksPost sampleNodeSpecific failingCreateEnv "a" r emptyWorld in
  isClusterNotification r = false /\ reqTarget r = "" /\
  (length (members failingCreateEnv) <= 1)%nat /\
  (forall k row, catalog emptyWorld !! k = Some row -> rowStatus row = NetworkStatusCreated) /\
  (forall w0, fault failingCreateEnv OpTxCommit w0 = None) /\
  (forall project name w0,
     fault failingCreateEnv (OpWrite (DbDeleteNetwork project name)) w0 = None) /\
  isErrorResponse run.1 = true /\
  catalog run.2 = catalog emptyWorld.
Proof.
  cbv zeta.
  assert (forall k row, catalog emptyWorld !! k = Some row ->
                        rowStatus row = NetworkStatusCreated) as Hnone.
  { intros k row Hrow. unfold emptyWorld, catalog in Hrow. by rewrite lookup_empty in Hrow. }
  do 3 (split; [on_sample|]). split; [exact Hnone|]. do 3 (split; [on_sample|]).
  apply (failed_standalone_create_leaves_no_record sampleNodeSpecific failingCreateEnv "a"
           (createRequest {[ "mtu" := "9000" ]}) emptyWorld);
    first [exact Hnone | on_sample].
Defined.

(** X5 on the single member, for a request with a global and a
    member-specific key. *)
Lemma standalone_create_inserts_created_record_witness :
  let r := createRequest {[ "mtu" := "9000"; "parent" := "eth0" ]} in
  let w := emptyWorld in
  let run := networksPost sampleNodeSpecific singleEnv "a" r w in
  isClusterNotification r = false /\ reqTarget r = "" /\
  (length (members singleEnv) <= 1)%nat /\
  (forall k row, catalog w !! k = Some row -> rowStatus row = NetworkStatusCreated) /\
  isErrorResponse run.1 = false /\
  exists projectName reqProject req cfg,
    networkProject singleEnv (reqProjectParam r) w = Ok (projectName, reqProject) /\
    decodeNetworksPost r = Ok req /\
    (if bool_decide (reqClientType r = ClientTypeJoiner) then cfg = postConfig req
     else fillConfig singleEnv (defaultedType projectName req) (postConfig req) = Ok cfg) /\
    catalog w !! (projectName, postName req) = None /\
    catalog run.2 =
      <[(projectName, postName req) :=
          setNodeCreated "a"
            (standaloneRow sampleNodeSpecific "a" (nextID (catalog w))
               (defaultedType projectName req) (postDescription req) cfg)]> (catalog w) /\
    exists pre authorized,
      since w run.2 =
        pre ++ [EvAuthorizer (AuthAddNetwork projectName (postName req)) authorized;
                EvLifecycle projectName (postName req) LifecycleNetworkCreated].
Proof.
  cbv zeta.
  assert (forall k row, catalog emptyWorld !! k = Some row ->
                        rowStatus row = NetworkStatusCreated) as Hnone.
  { intros k row Hrow. unfold emptyWorld, catalog in Hrow. by rewrite lookup_empty in Hrow. }
  do 3 (split; [on_sample|]). split; [exact Hnone|]. do 1 (split; [on_sample|]).
  apply (standalone_create_inserts_created_record sampleNodeSpecific singleEnv "a"
           (createRequest {[ "mtu" := "9000"; "parent" := "eth0" ]}) emptyWorld);
    first [exact Hnone | on_sample].
Defined.

(** X17 on the single member: the driver's [Rename] of the created network. *)
Lemma rename_reaches_driver_only_after_checks_witness :
  let r := sampleRequest MethodPost "" ClientTypeNormal "n1" (BodyNetworkPost "n2") in
  let w := worldOf createdRow in
  let run := networkPost singleEnv "a" r w in
  EvDriver "a" "default" "n1" (DrvRename "n2") true ∈ since w run.2 /\
  "a" = "a" /\
  exists newName,
    DrvRename "n2" = DrvRename newName /\
    renameChecked singleEnv "a" r w "default" "n1" newName.
Proof.
  cbv zeta.
  assert (EvDriver "a" "default" "n1" (DrvRename "n2") true ∈
          since (worldOf createdRow)
            (networkPost singleEnv "a"
               (sampleRequest MethodPost "" ClientTypeNormal "n1" (BodyNetworkPost "n2"))
               (worldOf createdRow)).2)
    as Hin by (vm_compute; repeat constructor).
  split; [exact Hin|].
  exact (rename_reaches_driver_only_after_checks singleEnv "a" _ _ _ _ _ _ _ Hin).
Defined.
